(** * Sprint Beacon start gate: detector, power modes, radio link, pairing

    A shallow embedding of
    [firmware/stargate/Tag_Beacon_BLE_Pairing_UWB_Only.ino].
    Machine integers are [Z] with the wrap-around of their C type written
    out; strings are [string]; the NVS namespace is a finite map. *)

From Stdlib Require Import ZArith Lia Bool List String Ascii.
From stdpp Require Import base option gmap strings pretty.
Import ListNotations.

Local Open Scope string_scope.
Local Open Scope Z_scope.

(** ** Machine integers *)

Definition u8 (z : Z) : Z := z mod 2 ^ 8.
Definition u16 (z : Z) : Z := z mod 2 ^ 16.
Definition u32 (z : Z) : Z := z mod 2 ^ 32.

(** Conversion of a 32-bit pattern to [int32_t]. *)
Definition to_int32 (z : Z) : Z :=
  let m := u32 z in if m <? 2 ^ 31 then m else m - 2 ^ 32.

(** ** Power states *)

Inductive PowerState : Set :=
| DEEP_SLEEP
| CHARGING
| AWAKE_STANDBY
| AWAKE_RUNNING
| PAIRING_MODE
| OTA_MODE.

Definition PowerState_eqb (a b : PowerState) : bool :=
  match a, b with
  | DEEP_SLEEP, DEEP_SLEEP | CHARGING, CHARGING
  | AWAKE_STANDBY, AWAKE_STANDBY | AWAKE_RUNNING, AWAKE_RUNNING
  | PAIRING_MODE, PAIRING_MODE | OTA_MODE, OTA_MODE => true
  | _, _ => false
  end.

(** ** Start detection *)

Definition MIN_ABS_CM : Z := 1.
Definition MIN_DROP_CM : Z := 10.
Definition BASELINE_MAX_CM : Z := 183.
Definition BELOW_CONSEC_REQUIRED : Z := 2.
Definition ABOVE_CONSEC_REQUIRED : Z := 2.
Definition TRIGGER_HOLD_MS : Z := 500.

(** The detection globals. *)
Record Detector : Set := mkDetector {
  baseline_cm : Z;
  belowConsec : Z;
  aboveConsec : Z;
  startArmed : bool;
  lastTriggerDetectionMs : Z
}.

(** Static initialisers of the detection globals. *)
Definition detector_boot : Detector :=
  {| baseline_cm := 0; belowConsec := 0; aboveConsec := ABOVE_CONSEC_REQUIRED;
     startArmed := true; lastTriggerDetectionMs := 0 |}.

(** [cur_cm]: the sample cast to [uint16_t] and clamped. *)
Definition clamp_cm (tof_cm : Z) : Z :=
  let cur_cm := u16 tof_cm in
  if BASELINE_MAX_CM <? cur_cm then BASELINE_MAX_CM else cur_cm.

(** The baseline after [if (baseline_cm == 0) baseline_cm = cur_cm]. *)
Definition learn_baseline (baseline cur_cm : Z) : Z :=
  if baseline =? 0 then cur_cm else baseline.

Definition drop_cm (baseline cur_cm : Z) : Z :=
  if cur_cm <? baseline then baseline - cur_cm else 0.

(** The drop the code computes for a sample in detector state [d]. *)
Definition sample_drop (d : Detector) (tof_cm : Z) : Z :=
  drop_cm (learn_baseline (baseline_cm d) (clamp_cm tof_cm)) (clamp_cm tof_cm).

(** [cur_cm >= MIN_ABS_CM && drop_cm >= MIN_DROP_CM] *)
Definition significant_drop (d : Detector) (tof_cm : Z) : bool :=
  (MIN_ABS_CM <=? clamp_cm tof_cm) && (MIN_DROP_CM <=? sample_drop d tof_cm).

Definition inHoldWindow (now : Z) (d : Detector) : bool :=
  u32 (now - lastTriggerDetectionMs d) <? TRIGGER_HOLD_MS.

(** The start-detection block of [loop]: returns [startTriggered], the
    power state and the detection globals after the block. *)
Definition detect (now tof_cm : Z) (ps : PowerState) (d : Detector)
  : bool * PowerState * Detector :=
  if 0 <? tof_cm then
    let cur_cm := clamp_cm tof_cm in
    let base := learn_baseline (baseline_cm d) cur_cm in
    if significant_drop d tof_cm then
      if startArmed d then
        let below := u8 (belowConsec d + 1) in
        if BELOW_CONSEC_REQUIRED <=? below then
          (true, AWAKE_RUNNING,
           {| baseline_cm := base; belowConsec := below; aboveConsec := 0;
              startArmed := false; lastTriggerDetectionMs := now |})
        else
          (false, ps,
           {| baseline_cm := base; belowConsec := below;
              aboveConsec := aboveConsec d; startArmed := true;
              lastTriggerDetectionMs := now |})
      else
        (false, ps,
         {| baseline_cm := base; belowConsec := belowConsec d;
            aboveConsec := aboveConsec d; startArmed := false;
            lastTriggerDetectionMs := now |})
    else
      let below := if 0 <? belowConsec d then belowConsec d - 1
                   else belowConsec d in
      if negb (startArmed d) then
        if negb (inHoldWindow now d) then
          let above := u8 (aboveConsec d + 1) in
          if ABOVE_CONSEC_REQUIRED <=? above then
            (false,
             (if PowerState_eqb ps AWAKE_RUNNING then AWAKE_STANDBY else ps),
             {| baseline_cm := cur_cm; belowConsec := 0; aboveConsec := above;
                startArmed := true;
                lastTriggerDetectionMs := lastTriggerDetectionMs d |})
          else
            (false, ps,
             {| baseline_cm := base; belowConsec := below; aboveConsec := above;
                startArmed := false;
                lastTriggerDetectionMs := lastTriggerDetectionMs d |})
        else
          (false, ps,
           {| baseline_cm := base; belowConsec := below; aboveConsec := 0;
              startArmed := false;
              lastTriggerDetectionMs := lastTriggerDetectionMs d |})
      else
        (false, ps,
         {| baseline_cm := base; belowConsec := below;
            aboveConsec := aboveConsec d; startArmed := true;
            lastTriggerDetectionMs := lastTriggerDetectionMs d |})
  else (false, ps, d).

(** The start-edge globals. [startTimestamp] is an [int32_t]. *)
Record StartEdge : Set := mkStartEdge {
  prevStartTriggered : bool;
  tStartTriggeredTime : Z;
  startTimestamp : Z
}.

Definition edge_boot : StartEdge :=
  {| prevStartTriggered := false; tStartTriggeredTime := 0;
     startTimestamp := -1 |}.

(** [startTriggered && !prevStartTriggered] *)
Definition start_edge (startTriggered : bool) (e : StartEdge) : bool :=
  startTriggered && negb (prevStartTriggered e).

(** The "handle start edge" block of [loop]. *)
Definition handle_start_edge (now : Z) (startTriggered : bool) (e : StartEdge)
  : StartEdge :=
  if start_edge startTriggered e then
    {| prevStartTriggered := startTriggered; tStartTriggeredTime := now;
       startTimestamp := to_int32 now |}
  else
    {| prevStartTriggered := startTriggered;
       tStartTriggeredTime := tStartTriggeredTime e;
       startTimestamp := startTimestamp e |}.

(** ** Strings *)

Definition NUL : ascii := "000"%char.
Definition LF : ascii := "010"%char.
Definition CR : ascii := "013"%char.
Definition DQUOTE : ascii := "034"%char.

(** A text between double quotes. *)
Definition quoted (s : string) : string :=
  String DQUOTE (s +:+ String DQUOTE "").

(** [std::string::find(pat, pos)] where [pos] may itself be [npos]
    ([None]): a start beyond the end finds nothing. *)
Definition find_from (pat : string) (pos : option nat) (v : string)
  : option nat :=
  match pos with
  | Some p => String.index p pat v
  | None => None
  end.

(** [pos + 1] on [size_t]: [npos + 1] wraps to [0]. *)
Definition pos_succ (pos : option nat) : option nat :=
  match pos with
  | Some p => Some (S p)
  | None => Some 0%nat
  end.

(** [c_str()] as seen by [strncpy]: the text up to the first NUL. *)
Fixpoint c_str (s : string) : string :=
  match s with
  | "" => ""
  | String c r => if Ascii.eqb c NUL then "" else String c (c_str r)
  end.

(** [strncpy(dst, src.c_str(), sizeof(dst) - 1); dst[sizeof(dst) - 1] = 0]
    for a [char dst[16]], read back as a C string. *)
Definition strncpy16 (src : string) : string :=
  substring 0 15 (c_str src).

(** [snprintf] into a buffer of [size] bytes keeps [size - 1] characters. *)
Definition snprintf (size : nat) (text : string) : string :=
  substring 0 (size - 1) text.

(** [isspace] and [isdigit] of the C locale. *)
Definition isspace (c : ascii) : bool :=
  let n := nat_of_ascii c in
  (n =? 32)%nat || ((9 <=? n)%nat && (n <=? 13)%nat).

Definition isdigit (c : ascii) : bool :=
  let n := nat_of_ascii c in (48 <=? n)%nat && (n <=? 57)%nat.

Fixpoint trim_left (s : string) : string :=
  match s with
  | "" => ""
  | String c r => if isspace c then trim_left r else s
  end.

Fixpoint trim_right (s : string) : string :=
  match s with
  | "" => ""
  | String c r =>
      match trim_right r with
      | "" => if isspace c then "" else String c ""
      | t => String c t
      end
  end.

(** Arduino [String::trim]. *)
Definition trim (s : string) : string := trim_right (trim_left s).

(** Arduino [String::startsWith]. *)
Definition startsWith (s pre : string) : bool := String.prefix pre s.

(** ** Pairing record and persistent store *)

Inductive PrefVal : Set :=
| PString (s : string)
| PBool (b : bool).

(** The pairing globals and the NVS namespace ["sprint-tag"]. *)
Record Pairing : Type := mkPairing {
  ANCHOR_UWB_NETWORK : string;
  ANCHOR_UWB_ADDRESS : string;
  isPaired : bool;
  prefs : gmap string PrefVal
}.

(** ** BLE status characteristic *)

(** [chStatus] is [None] while the pointer is null, otherwise the value
    held by the characteristic; [notified] lists the values sent by
    [notify()], oldest first. *)
Record Ble : Set := mkBle {
  chStatus : option string;
  bleClientConnected : bool;
  notified : list string
}.

(** [if (chStatus) { chStatus->setValue(js); if (bleClientConnected)
    chStatus->notify(); }] *)
Definition status_set_notify (js : string) (b : Ble) : Ble :=
  match chStatus b with
  | None => b
  | Some _ =>
      {| chStatus := Some js;
         bleClientConnected := bleClientConnected b;
         notified := if bleClientConnected b then (notified b ++ [js])%list
                     else notified b |}
  end.

(** ** UWB serial link *)

(** What one [sendAT] call observes: the value of [millis()] when it starts
    waiting, and for every turn of its outer loop the value of [millis()]
    and the bytes it reads before [UWB.available()] goes false.  The clock
    advances, so the outer loop turns finitely often: past the last listed
    turn the timeout has elapsed. *)
Record Sched : Set := mkSched {
  sched_start : Z;
  sched_polls : list (Z * string)
}.

(** A module that never answers. *)
Definition silent : Sched := {| sched_start := 0; sched_polls := [] |}.

(** The UART: the lines written so far (each followed by CR LF on the
    wire), and the observations of the [sendAT] calls still to come. *)
Record Uart : Set := mkUart {
  uwb_tx : list string;
  uwb_io : list Sched
}.

Definition uart_print (cmd : string) (u : Uart) : Uart :=
  {| uwb_tx := (uwb_tx u ++ [cmd])%list; uwb_io := uwb_io u |}.

Definition uart_next (u : Uart) : Sched * Uart :=
  match uwb_io u with
  | [] => (silent, u)
  | io :: rest => (io, {| uwb_tx := uwb_tx u; uwb_io := rest |})
  end.

(** The inner [while (UWB.available())] loop of [sendAT] over the bytes of
    one turn: [Some b] when the function returns [b], otherwise the line
    buffer to carry on with. *)
Fixpoint drain (waitForOK : bool) (line chunk : string)
  : option bool * string :=
  match chunk with
  | "" => (None, line)
  | String c rest =>
      if Ascii.eqb c LF then
        let line := trim line in
        if startsWith line "+READY" then (Some true, line)
        else if waitForOK then
          if startsWith line "+OK" then (Some true, line)
          else if startsWith line "+ERR" then (Some false, line)
          else drain waitForOK "" rest
        else (Some true, line)
      else if negb (Ascii.eqb c CR) then
        drain waitForOK (line +:+ String c "") rest
      else drain waitForOK line rest
  end.

(** The outer [while (millis() - start < timeoutMs)] loop of [sendAT]:
    the returned value and the line buffer at that point. *)
Fixpoint sendAT_wait (start timeoutMs : Z) (waitForOK : bool) (line : string)
    (polls : list (Z * string)) : bool * string :=
  match polls with
  | [] => (false, line)
  | (t, chunk) :: rest =>
      if u32 (t - start) <? timeoutMs then
        match drain waitForOK line chunk with
        | (Some b, l) => (b, l)
        | (None, l) => sendAT_wait start timeoutMs waitForOK l rest
        end
      else (false, line)
  end.

Definition sendAT (cmd : string) (timeoutMs : Z) (waitForOK : bool) (u : Uart)
  : bool * Uart :=
  let u := uart_print cmd u in
  let '(io, u) := uart_next u in
  (fst (sendAT_wait (sched_start io) timeoutMs waitForOK ""
          (sched_polls io)), u).

(** [for (int i = 0; i < 5; ++i) if (sendAT("AT", 500)) return true;] *)
Fixpoint uwbSync_attempts (n : nat) (u : Uart) : bool * Uart :=
  match n with
  | O => (false, u)
  | S k =>
      let '(ok, u) := sendAT "AT" 500 true u in
      if ok then (true, u) else uwbSync_attempts k u
  end.

Definition uwbSync (u : Uart) : bool * Uart := uwbSync_attempts 5 u.

Definition configureUWB (network my_address : string) (u : Uart) : Uart :=
  let u := snd (sendAT "AT" 2000 true u) in
  let u := snd (sendAT "AT+MODE=0" 2000 true u) in
  let u := snd (sendAT ("AT+NETWORKID=" +:+ network) 2000 true u) in
  let u := snd (sendAT ("AT+ADDRESS=" +:+ my_address) 2000 true u) in
  snd (sendAT "AT+RSSI=1" 2000 true u).

(** *** Telemetry frame *)

Record Frame : Set := mkFrame {
  f_battery : Z;
  f_distance : Z;
  f_startAge : Z
}.

Definition hex_digit (n : Z) : ascii :=
  nth (Z.to_nat n)
    ["0"; "1"; "2"; "3"; "4"; "5"; "6"; "7";
     "8"; "9"; "A"; "B"; "C"; "D"; "E"; "F"]%char "0"%char.

(** [%0nX] of a value that fits in [n] hexadecimal digits. *)
Fixpoint hex_fixed (n : nat) (z : Z) : string :=
  match n with
  | O => ""
  | S k => hex_fixed k (z / 16) +:+ String (hex_digit (z mod 16)) ""
  end.

(** [hexData]: battery (1 byte), distance (2 bytes), start age (4 bytes). *)
Definition frame_hex (f : Frame) : string :=
  hex_fixed 2 (f_battery f) +:+ hex_fixed 4 (f_distance f)
  +:+ hex_fixed 8 (u32 (f_startAge f)).

(** The frame built by [pollUWB] at time [now], and the start-edge globals
    after it: a pending [startTimestamp] is cleared as it is read. *)
Definition assemble_frame (now batteryPercent uwb_distance_cm : Z)
    (e : StartEdge) : Frame * StartEdge :=
  let dist := if (0 <? uwb_distance_cm) && (uwb_distance_cm <? 65535)
              then u16 uwb_distance_cm else 65535 in
  if 0 <=? startTimestamp e then
    ({| f_battery := batteryPercent; f_distance := dist;
        f_startAge := to_int32 (now - u32 (startTimestamp e)) |},
     {| prevStartTriggered := prevStartTriggered e;
        tStartTriggeredTime := tStartTriggeredTime e;
        startTimestamp := -1 |})
  else
    ({| f_battery := batteryPercent; f_distance := dist; f_startAge := -1 |},
     e).

(** *** Distance reports *)

(** The backward scan [while (j >= 0 && isdigit(line[j])) j--], on
    [j + 1]: the index where the number starts. *)
Fixpoint digits_back (line : string) (j1 : nat) : nat :=
  match j1 with
  | O => O
  | S j =>
      match String.get j line with
      | Some c => if isdigit c then digits_back line j else j1
      | None => j1
      end
  end.

Fixpoint decimal_value (acc : Z) (s : string) : Z :=
  match s with
  | "" => acc
  | String c r =>
      if isdigit c
      then decimal_value (10 * acc + (Z.of_nat (nat_of_ascii c) - 48)) r
      else acc
  end.

(** Arduino [String::toInt] on a text of digits: [atol], which saturates. *)
Definition toInt (s : string) : Z := Z.min (decimal_value 0 s) (2 ^ 31 - 1).

(** The distance of a ["+TAG_RCV=... <n> cm"] line, when it is in range. *)
Definition parse_distance (line : string) : option Z :=
  match String.index 0 "+TAG_RCV=" line with
  | None => None
  | Some idx =>
      match String.index idx " cm" line with
      | None => None
      | Some cmPos =>
          if (idx <? cmPos)%nat then
            let j1 := digits_back line cmPos in
            let val := toInt (substring j1 (cmPos - j1) line) in
            if (0 <? val) && (val <? 65535) then Some val else None
          else None
      end
  end.

(** Statics and globals of [pollUWB] besides the UART. *)
Record Radio : Set := mkRadio {
  uart : Uart;
  uwb_distance_cm : Z;
  lastSend : Z;
  rx_line : string
}.

(** The receive loop of [pollUWB] over the bytes available. *)
Fixpoint poll_rx (line : string) (dist : Z) (rx : string) : string * Z :=
  match rx with
  | "" => (line, dist)
  | String c rest =>
      if Ascii.eqb c CR || Ascii.eqb c LF then
        let dist :=
          if (0 <? String.length line)%nat then
            match parse_distance line with
            | Some val => val
            | None => dist
            end
          else dist in
        poll_rx "" dist rest
      else
        poll_rx (if (String.length line <? 120)%nat
                 then line +:+ String c "" else line) dist rest
  end.

(** The send half of [pollUWB]: the frame, when one is assembled. *)
Definition pollUWB_send (now : Z) (paired : bool) (anchor : string)
    (batteryPercent : Z) (e : StartEdge) (r : Radio)
  : option Frame * StartEdge * Radio :=
  if paired && (300 <=? u32 (now - lastSend r)) then
    let '(f, e') := assemble_frame now batteryPercent (uwb_distance_cm r) e in
    (Some f, e',
     {| uart := uart_print ("AT+TAG_SEND=" +:+ anchor +:+ ",7," +:+ frame_hex f)
                  (uart r);
        uwb_distance_cm := uwb_distance_cm r;
        lastSend := now;
        rx_line := rx_line r |})
  else (None, e, r).

Definition pollUWB_recv (rx : string) (r : Radio) : Radio :=
  let '(line, dist) := poll_rx (rx_line r) (uwb_distance_cm r) rx in
  {| uart := uart r; uwb_distance_cm := dist; lastSend := lastSend r;
     rx_line := line |}.

Definition pollUWB (now : Z) (rx : string) (paired : bool) (anchor : string)
    (batteryPercent : Z) (e : StartEdge) (r : Radio)
  : option Frame * StartEdge * Radio :=
  let '(f, e, r) := pollUWB_send now paired anchor batteryPercent e r in
  (f, e, pollUWB_recv rx r).

(** ** The device *)

Record Power : Set := mkPower {
  powerState : PowerState;
  batteryPercent : Z;
  isCharging : bool;
  isFullyCharged : bool;
  rail3V3On : bool
}.

(** The function-local statics of [loop]: those of the charging block,
    of the pairing block and of the awake part. *)
Record Statics : Set := mkStatics {
  chg_lastBattUpdate : Z;
  chg_btnPressStart : Z;
  chg_btnWasPressed : bool;
  pair_lastBLEUpdate : Z;
  awk_lastBattUpdate : Z;
  awk_btnPressStart : Z;
  awk_btnWasPressed : bool
}.

Record Device : Type := mkDevice {
  power : Power;
  det : Detector;
  tof_cm : Z;
  edge : StartEdge;
  pairing : Pairing;
  MY_UWB_ADDRESS : string;
  ble : Ble;
  radio : Radio;
  statics : Statics
}.

Definition set_powerState (ps : PowerState) (p : Power) : Power :=
  {| powerState := ps; batteryPercent := batteryPercent p;
     isCharging := isCharging p; isFullyCharged := isFullyCharged p;
     rail3V3On := rail3V3On p |}.

Definition set3V3Rail (on : bool) (p : Power) : Power :=
  {| powerState := powerState p; batteryPercent := batteryPercent p;
     isCharging := isCharging p; isFullyCharged := isFullyCharged p;
     rail3V3On := on |}.

Definition set_uart (u : Uart) (r : Radio) : Radio :=
  {| uart := u; uwb_distance_cm := uwb_distance_cm r; lastSend := lastSend r;
     rx_line := rx_line r |}.

(** ** Pairing service *)

Definition contains (v pat : string) : bool :=
  match String.index 0 pat v with
  | Some _ => true
  | None => false
  end.

(** The value of the field whose quoted name is [key], as
    [NetworkCfgCB::handleWrite] locates it: the text between the first two
    double quotes after the first colon after the name. *)
Definition extract_field (key v : string) : option string :=
  match String.index 0 (quoted key) v with
  | None => None
  | Some keyPos =>
      let colonPos := String.index keyPos ":" v in
      let firstQuote := find_from (String DQUOTE "") colonPos v in
      let secondQuote := find_from (String DQUOTE "") (pos_succ firstQuote) v in
      match firstQuote, secondQuote with
      | Some fq, Some sq => Some (substring (S fq) (sq - fq - 1) v)
      | _, _ => None
      end
  end.

Definition paired_json (network anchor : string) : string :=
  "{" +:+ quoted "paired" +:+ ":true," +:+ quoted "network" +:+ ":"
  +:+ quoted network +:+ "," +:+ quoted "anchor" +:+ ":" +:+ quoted anchor
  +:+ "}".

Definition ack_json (what : string) : string :=
  "{" +:+ quoted "ack" +:+ ":" +:+ quoted what +:+ "}".

(** [NetworkCfgCB::handleWrite] for a write of value [v] (the
    characteristic pointer is never null when the BLE stack calls back).
    The green flash and its [delay(500)] leave no trace in the globals. *)
Definition NetworkCfgCB_handleWrite (v : string) (s : Device) : Device :=
  let p := pairing s in
  let network := match extract_field "network_id" v with
                 | Some netId => strncpy16 netId
                 | None => ANCHOR_UWB_NETWORK p
                 end in
  let anchor := match extract_field "anchor_address" v with
                | Some addr => strncpy16 addr
                | None => ANCHOR_UWB_ADDRESS p
                end in
  {| power := set_powerState AWAKE_STANDBY (power s);
     det := det s;
     tof_cm := tof_cm s;
     edge := edge s;
     pairing :=
       {| ANCHOR_UWB_NETWORK := network;
          ANCHOR_UWB_ADDRESS := anchor;
          isPaired := true;
          prefs := <["paired" := PBool true]>
                     (<["anchor_addr" := PString anchor]>
                        (<["uwb_network" := PString network]> (prefs p))) |};
     MY_UWB_ADDRESS := MY_UWB_ADDRESS s;
     ble := status_set_notify (snprintf 256 (paired_json network anchor))
              (ble s);
     radio := set_uart (configureUWB network (MY_UWB_ADDRESS s)
                          (uart (radio s))) (radio s);
     statics := statics s |}.

(** [SvrCB::onConnect] and [SvrCB::onDisconnect]. *)
Definition set_connected (c : bool) (b : Ble) : Ble :=
  {| chStatus := chStatus b; bleClientConnected := c; notified := notified b |}.

Definition SvrCB_onConnect (s : Device) : Device :=
  {| power := power s; det := det s; tof_cm := tof_cm s; edge := edge s;
     pairing := pairing s; MY_UWB_ADDRESS := MY_UWB_ADDRESS s;
     ble := set_connected true (ble s); radio := radio s;
     statics := statics s |}.

Definition SvrCB_onDisconnect (s : Device) : Device :=
  {| power := power s; det := det s; tof_cm := tof_cm s; edge := edge s;
     pairing := pairing s; MY_UWB_ADDRESS := MY_UWB_ADDRESS s;
     ble := set_connected false (ble s); radio := radio s;
     statics := statics s |}.

(** [CtrlCB::handleWrite] for a write of value [v]. *)
Definition CtrlCB_handleWrite (v : string) (s : Device) : Device :=
  if contains v (quoted "enter_pairing_mode" +:+ ":true")
     || contains v (quoted "pairing" +:+ ":true") then
    {| power := set_powerState PAIRING_MODE (power s);
       det := det s; tof_cm := tof_cm s; edge := edge s;
       pairing := pairing s; MY_UWB_ADDRESS := MY_UWB_ADDRESS s;
       ble := status_set_notify (ack_json "entering_pairing_mode") (ble s);
       radio := radio s; statics := statics s |}
  else if contains v (quoted "unpair" +:+ ":true") then
    {| power := power s;
       det := det s; tof_cm := tof_cm s; edge := edge s;
       pairing :=
         {| ANCHOR_UWB_NETWORK := "";
            ANCHOR_UWB_ADDRESS := "";
            isPaired := false;
            prefs := <["paired" := PBool false]>
                       (delete "anchor_addr"
                          (delete "uwb_network" (prefs (pairing s)))) |};
       MY_UWB_ADDRESS := MY_UWB_ADDRESS s;
       ble := status_set_notify (ack_json "unpaired") (ble s);
       radio := radio s; statics := statics s |}
  else s.

(** ** Status reports *)

Definition bool_text (b : bool) : string := if b then "true" else "false".

(** [(int)powerState] *)
Definition PowerState_index (ps : PowerState) : Z :=
  match ps with
  | DEEP_SLEEP => 0
  | CHARGING => 1
  | AWAKE_STANDBY => 2
  | AWAKE_RUNNING => 3
  | PAIRING_MODE => 4
  | OTA_MODE => 5
  end.

Definition status_json (s : Device) : string :=
  "{" +:+ quoted "paired" +:+ ":" +:+ bool_text (isPaired (pairing s))
  +:+ "," +:+ quoted "battery" +:+ ":" +:+ pretty (batteryPercent (power s))
  +:+ "," +:+ quoted "charging" +:+ ":" +:+ bool_text (isCharging (power s))
  +:+ "," +:+ quoted "power_state" +:+ ":"
  +:+ pretty (PowerState_index (powerState (power s)))
  +:+ "," +:+ quoted "start_armed" +:+ ":" +:+ bool_text (startArmed (det s))
  +:+ "," +:+ quoted "uwb_address" +:+ ":" +:+ quoted (MY_UWB_ADDRESS s)
  +:+ "}".

(** [updateBLEStatus]: the BLE globals after the call. *)
Definition updateBLEStatus (s : Device) : Ble :=
  match chStatus (ble s) with
  | None => ble s
  | Some _ =>
      if bleClientConnected (ble s) then
        let js := snprintf 256 (status_json s) in
        {| chStatus := Some js; bleClientConnected := true;
           notified := (notified (ble s) ++ [js])%list |}
      else ble s
  end.

(** ** The main loop *)

(** What one pass of [loop] reads from the outside: the clock, the button,
    the battery sensing (only read when a refresh is due), the ranging
    result when one is ready (in millimetres), the clock as [pollUWB] reads
    it again and the bytes the UART has for it. *)
Record LoopInput : Set := mkLoopInput {
  in_now : Z;
  in_pollNow : Z;
  in_btnPressed : bool;
  in_batteryPercent : Z;
  in_isCharging : bool;
  in_isFullyCharged : bool;
  in_tof : option Z;
  in_rx : string
}.

(** A pass of [loop] or [setup] either returns or ends in
    [esp_deep_sleep_start], which does not return. *)
Inductive Outcome : Type :=
| Returned (s : Device)
| Asleep (s : Device).

Definition device_of (o : Outcome) : Device :=
  match o with
  | Returned s => s
  | Asleep s => s
  end.

(** The mode the device is in after a pass: a device that went to sleep is
    in deep sleep, whatever [powerState] held. *)
Definition mode_of (o : Outcome) : PowerState :=
  match o with
  | Returned s => powerState (power s)
  | Asleep _ => DEEP_SLEEP
  end.

Definition set_power (p : Power) (s : Device) : Device :=
  {| power := p; det := det s; tof_cm := tof_cm s; edge := edge s;
     pairing := pairing s; MY_UWB_ADDRESS := MY_UWB_ADDRESS s; ble := ble s;
     radio := radio s; statics := statics s |}.

Definition set_ble (b : Ble) (s : Device) : Device :=
  {| power := power s; det := det s; tof_cm := tof_cm s; edge := edge s;
     pairing := pairing s; MY_UWB_ADDRESS := MY_UWB_ADDRESS s; ble := b;
     radio := radio s; statics := statics s |}.

Definition set_statics (st : Statics) (s : Device) : Device :=
  {| power := power s; det := det s; tof_cm := tof_cm s; edge := edge s;
     pairing := pairing s; MY_UWB_ADDRESS := MY_UWB_ADDRESS s; ble := ble s;
     radio := radio s; statics := st |}.

Definition set_radio (r : Radio) (s : Device) : Device :=
  {| power := power s; det := det s; tof_cm := tof_cm s; edge := edge s;
     pairing := pairing s; MY_UWB_ADDRESS := MY_UWB_ADDRESS s; ble := ble s;
     radio := r; statics := statics s |}.

Definition set_det (d : Detector) (s : Device) : Device :=
  {| power := power s; det := d; tof_cm := tof_cm s; edge := edge s;
     pairing := pairing s; MY_UWB_ADDRESS := MY_UWB_ADDRESS s; ble := ble s;
     radio := radio s; statics := statics s |}.

(** [enterDeepSleep]: rail off, wake-up sources armed, and
    [esp_deep_sleep_start], which does not return. *)
Definition enterDeepSleep (s : Device) : Outcome :=
  Asleep (set_power (set3V3Rail false (power s)) s).

(** [startWiFiAndOTA]: BLE is shut down and WiFi and the OTA server are
    brought up, outside this model; of the globals only [powerState]
    changes. *)
Definition startWiFiAndOTA (s : Device) : Device :=
  set_power (set_powerState OTA_MODE (power s)) s.

(** The periodic battery refresh followed by [updateBLEStatus]. *)
Definition refresh_battery (i : LoopInput) (s : Device) : Device :=
  let s := set_power
             {| powerState := powerState (power s);
                batteryPercent := in_batteryPercent i;
                isCharging := in_isCharging i;
                isFullyCharged := in_isFullyCharged i;
                rail3V3On := rail3V3On (power s) |} s in
  set_ble (updateBLEStatus s) s.

(** The wake-up from charging on a short press: rail on, standby, the UWB
    module synchronised and configured when paired, the detector reset. *)
Definition wake_from_charging (s : Device) : Device :=
  let s := set_power (set_powerState AWAKE_STANDBY
                        (set3V3Rail true (power s))) s in
  let '(ok, u) := uwbSync (uart (radio s)) in
  let u := if ok && isPaired (pairing s)
           then configureUWB (ANCHOR_UWB_NETWORK (pairing s))
                  (MY_UWB_ADDRESS s) u
           else u in
  let s := set_radio (set_uart u (radio s)) s in
  set_det {| baseline_cm := 0; belowConsec := belowConsec (det s);
             aboveConsec := aboveConsec (det s); startArmed := true;
             lastTriggerDetectionMs := lastTriggerDetectionMs (det s) |} s.

(** The battery refresh of the charging block, due every 1000 ms. *)
Definition charging_refresh (i : LoopInput) (s : Device) : Device :=
  let now := in_now i in
  if 1000 <=? u32 (now - chg_lastBattUpdate (statics s)) then
    let st := statics s in
    refresh_battery i
      (set_statics
         {| chg_lastBattUpdate := now;
            chg_btnPressStart := chg_btnPressStart st;
            chg_btnWasPressed := chg_btnWasPressed st;
            pair_lastBLEUpdate := pair_lastBLEUpdate st;
            awk_lastBattUpdate := awk_lastBattUpdate st;
            awk_btnPressStart := awk_btnPressStart st;
            awk_btnWasPressed := awk_btnWasPressed st |} s)
  else s.

(** The button statics of the charging block after a pass that does not
    end on the button. *)
Definition charging_note_button (i : LoopInput) (s : Device) : Device :=
  let st := statics s in
  set_statics
    {| chg_lastBattUpdate := chg_lastBattUpdate st;
       chg_btnPressStart :=
         if in_btnPressed i && negb (chg_btnWasPressed st) then in_now i
         else chg_btnPressStart st;
       chg_btnWasPressed := in_btnPressed i;
       pair_lastBLEUpdate := pair_lastBLEUpdate st;
       awk_lastBattUpdate := awk_lastBattUpdate st;
       awk_btnPressStart := awk_btnPressStart st;
       awk_btnWasPressed := awk_btnWasPressed st |} s.

Definition loop_charging (i : LoopInput) (s : Device) : Outcome :=
  let now := in_now i in
  let s := charging_refresh i s in
  let st := statics s in
  let btnPressed := in_btnPressed i in
  let was := chg_btnWasPressed st in
  let held := u32 (now - chg_btnPressStart st) in
  if btnPressed && was && (5000 <=? held) then
    Returned (startWiFiAndOTA (set_power (set3V3Rail true (power s)) s))
  else if negb btnPressed && was && (held <? 5000) then
    Returned (wake_from_charging s)
  else
    let s := charging_note_button i s in
    if negb (isCharging (power s)) then enterDeepSleep s else Returned s.

Definition loop_pairing (i : LoopInput) (s : Device) : Outcome :=
  let now := in_now i in
  let st := statics s in
  if 1000 <=? u32 (now - pair_lastBLEUpdate st) then
    let s :=
      set_statics
        {| chg_lastBattUpdate := chg_lastBattUpdate st;
           chg_btnPressStart := chg_btnPressStart st;
           chg_btnWasPressed := chg_btnWasPressed st;
           pair_lastBLEUpdate := now;
           awk_lastBattUpdate := awk_lastBattUpdate st;
           awk_btnPressStart := awk_btnPressStart st;
           awk_btnWasPressed := awk_btnWasPressed st |} s in
    Returned (set_ble (updateBLEStatus s) s)
  else Returned s.

(** The awake part of [loop] after the button handling: sensor read,
    [pollUWB], start detection, start edge. *)
Definition loop_sense (i : LoopInput) (s : Device) : Device :=
  let now := in_now i in
  let tof := match in_tof i with
             | Some dist_mm => to_int32 (Z.quot dist_mm 10)
             | None => tof_cm s
             end in
  let '(_, e, r) :=
    pollUWB (in_pollNow i) (in_rx i) (isPaired (pairing s))
      (ANCHOR_UWB_ADDRESS (pairing s)) (batteryPercent (power s))
      (edge s) (radio s) in
  let '(startTriggered, ps, d) :=
    detect now tof (powerState (power s)) (det s) in
  {| power := set_powerState ps (power s);
     det := d;
     tof_cm := tof;
     edge := handle_start_edge now startTriggered e;
     pairing := pairing s;
     MY_UWB_ADDRESS := MY_UWB_ADDRESS s;
     ble := ble s;
     radio := r;
     statics := statics s |}.

(** The battery refresh of the awake part, due every 5000 ms. *)
Definition awake_refresh (i : LoopInput) (s : Device) : Device :=
  let now := in_now i in
  if 5000 <=? u32 (now - awk_lastBattUpdate (statics s)) then
    let st := statics s in
    refresh_battery i
      (set_statics
         {| chg_lastBattUpdate := chg_lastBattUpdate st;
            chg_btnPressStart := chg_btnPressStart st;
            chg_btnWasPressed := chg_btnWasPressed st;
            pair_lastBLEUpdate := pair_lastBLEUpdate st;
            awk_lastBattUpdate := now;
            awk_btnPressStart := awk_btnPressStart st;
            awk_btnWasPressed := awk_btnWasPressed st |} s)
  else s.

(** The button statics of the awake part after a pass that does not end
    on the button: a fresh press starts the timer. *)
Definition awake_note_button (i : LoopInput) (s : Device) : Device :=
  let st := statics s in
  set_statics
    {| chg_lastBattUpdate := chg_lastBattUpdate st;
       chg_btnPressStart := chg_btnPressStart st;
       chg_btnWasPressed := chg_btnWasPressed st;
       pair_lastBLEUpdate := pair_lastBLEUpdate st;
       awk_lastBattUpdate := awk_lastBattUpdate st;
       awk_btnPressStart :=
         if in_btnPressed i && negb (awk_btnWasPressed st) then in_now i
         else awk_btnPressStart st;
       awk_btnWasPressed := in_btnPressed i |} s.

Definition loop_awake (i : LoopInput) (s : Device) : Outcome :=
  let now := in_now i in
  let s := awake_refresh i s in
  let st := statics s in
  let btnPressed := in_btnPressed i in
  let was := awk_btnWasPressed st in
  let held := u32 (now - awk_btnPressStart st) in
  if btnPressed && was && (5000 <=? held) then
    Returned (startWiFiAndOTA s)
  else if negb btnPressed && was && (held <? 5000) then
    enterDeepSleep s
  else
    Returned (loop_sense i (awake_note_button i s)).

(** One pass of [loop]. *)
Definition loop (i : LoopInput) (s : Device) : Outcome :=
  let ps := powerState (power s) in
  if PowerState_eqb ps OTA_MODE then Returned s
  else if PowerState_eqb ps CHARGING then loop_charging i s
  else if PowerState_eqb ps PAIRING_MODE then loop_pairing i s
  else loop_awake i s.

(** ** Boot *)

Inductive WakeupCause : Set :=
| WAKEUP_EXT0      (* button *)
| WAKEUP_EXT1      (* charger *)
| WAKEUP_OTHER.    (* power-on *)

(** What [setup] reads: the wake-up cause, the battery sensing, the last
    three bytes of the MAC, and the button (when it is down at boot, the
    press duration measured by the boot-time wait, which gives up at
    5500 ms). *)
Record BootInput : Set := mkBootInput {
  boot_wakeup : WakeupCause;
  boot_batteryPercent : Z;
  boot_isCharging : bool;
  boot_isFullyCharged : bool;
  boot_mac : Z * Z * Z;
  boot_button : option Z
}.

Definition uwb_address_of_mac (mac : Z * Z * Z) : string :=
  let '(m3, m4, m5) := mac in
  snprintf 16 ("TAG" +:+ hex_fixed 2 m3 +:+ hex_fixed 2 m4 +:+ hex_fixed 2 m5).

Definition getBool (key : string) (default : bool) (nvs : gmap string PrefVal)
  : bool :=
  match nvs !! key with
  | Some (PBool b) => b
  | _ => default
  end.

Definition getString (key default : string) (nvs : gmap string PrefVal)
  : string :=
  match nvs !! key with
  | Some (PString v) => v
  | _ => default
  end.

(** The pairing globals after the NVS is read at boot. *)
Definition load_pairing (nvs : gmap string PrefVal) : Pairing :=
  if getBool "paired" false nvs then
    {| ANCHOR_UWB_NETWORK := strncpy16 (getString "uwb_network" "" nvs);
       ANCHOR_UWB_ADDRESS := strncpy16 (getString "anchor_addr" "" nvs);
       isPaired := true; prefs := nvs |}
  else
    {| ANCHOR_UWB_NETWORK := ""; ANCHOR_UWB_ADDRESS := ""; isPaired := false;
       prefs := nvs |}.

Definition statics_boot : Statics :=
  {| chg_lastBattUpdate := 0; chg_btnPressStart := 0;
     chg_btnWasPressed := false; pair_lastBLEUpdate := 0;
     awk_lastBattUpdate := 0; awk_btnPressStart := 0;
     awk_btnWasPressed := false |}.

(** The globals as [setup] finds them once battery, address and NVS are
    read: everything else holds its static initialiser. *)
Definition device_boot (b : BootInput) (nvs : gmap string PrefVal)
    (io : list Sched) : Device :=
  {| power :=
       {| powerState := AWAKE_STANDBY;
          batteryPercent := boot_batteryPercent b;
          isCharging := boot_isCharging b;
          isFullyCharged := boot_isFullyCharged b;
          rail3V3On := true |};
     det := detector_boot;
     tof_cm := -1;
     edge := edge_boot;
     pairing := load_pairing nvs;
     MY_UWB_ADDRESS := uwb_address_of_mac (boot_mac b);
     ble := {| chStatus := None; bleClientConnected := false; notified := [] |};
     radio :=
       {| uart := {| uwb_tx := []; uwb_io := io |}; uwb_distance_cm := -1;
          lastSend := 0; rx_line := "" |};
     statics := statics_boot |}.

Definition initial_status_json (s : Device) : string :=
  "{" +:+ quoted "paired" +:+ ":" +:+ bool_text (isPaired (pairing s))
  +:+ "," +:+ quoted "battery" +:+ ":" +:+ pretty (batteryPercent (power s))
  +:+ "," +:+ quoted "uwb_address" +:+ ":" +:+ quoted (MY_UWB_ADDRESS s)
  +:+ "}".

(** [startBLE], as far as the status characteristic goes. *)
Definition startBLE (s : Device) : Device :=
  set_ble {| chStatus := Some (snprintf 128 (initial_status_json s));
             bleClientConnected := bleClientConnected (ble s);
             notified := notified (ble s) |} s.

(** The peripheral bring-up of [setup] when the rail is on. *)
Definition init_peripherals (s : Device) : Device :=
  let '(ok, u) := uwbSync (uart (radio s)) in
  let u := if ok then
             if isPaired (pairing s)
             then configureUWB (ANCHOR_UWB_NETWORK (pairing s))
                    (MY_UWB_ADDRESS s) u
             else snd (sendAT "AT+MODE=0" 2000 true u)
           else u in
  startBLE (set_radio (set_uart u (radio s)) s).

Definition woke_from_button (b : BootInput) : bool :=
  match boot_wakeup b with WAKEUP_EXT0 => true | _ => false end.

Definition woke_from_charger (b : BootInput) : bool :=
  match boot_wakeup b with WAKEUP_EXT1 => true | _ => false end.

(** [setup] after a reset, with the NVS content [nvs] and the UART
    observations [io] ahead. *)
Definition setup (b : BootInput) (nvs : gmap string PrefVal) (io : list Sched)
  : Outcome :=
  let s := device_boot b nvs io in
  let finish (s : Device) : Outcome :=
    Returned
      (set_det {| baseline_cm := baseline_cm (det s);
                  belowConsec := belowConsec (det s);
                  aboveConsec := aboveConsec (det s); startArmed := true;
                  lastTriggerDetectionMs := lastTriggerDetectionMs (det s) |}
         (if rail3V3On (power s) then init_peripherals s else s)) in
  match boot_button b with
  | Some pressDuration =>
      if 5000 <=? pressDuration then
        Returned (startWiFiAndOTA (set_power (set3V3Rail true (power s)) s))
      else if woke_from_button b then
        finish (set_power (set_powerState AWAKE_STANDBY
                             (set3V3Rail true (power s))) s)
      else enterDeepSleep s
  | None =>
      if woke_from_charger b || boot_isCharging b then
        finish (set_power (set_powerState CHARGING
                             (set3V3Rail false (power s))) s)
      else
        finish (set_power (set_powerState AWAKE_STANDBY
                             (set3V3Rail true (power s))) s)
  end.

(** ** Runs *)

(** What can happen to a running device: a pass of [loop], or a BLE
    callback (a client connecting or leaving, a write to one of the two
    writable characteristics), served by the BLE stack between two
    passes. *)
Inductive Op : Set :=
| OpLoop (i : LoopInput)
| OpConnect
| OpDisconnect
| OpNetworkCfgWrite (v : string)
| OpCtrlWrite (v : string).

Definition apply_op (o : Op) (s : Device) : Outcome :=
  match o with
  | OpLoop i => loop i s
  | OpConnect => Returned (SvrCB_onConnect s)
  | OpDisconnect => Returned (SvrCB_onDisconnect s)
  | OpNetworkCfgWrite v => Returned (NetworkCfgCB_handleWrite v s)
  | OpCtrlWrite v => Returned (CtrlCB_handleWrite v s)
  end.

(** A sequence of operations; it stops when the device goes to sleep. *)
Fixpoint run (ops : list Op) (o : Outcome) : Outcome :=
  match ops, o with
  | op :: rest, Returned s => run rest (apply_op op s)
  | _, _ => o
  end.

(** *** Runs of the detector alone *)

(** A sample as the detection block sees it: [now] and [tof_cm]. *)
Definition Sample : Set := Z * Z.

(** The state the detection and start-edge blocks work on. *)
Definition Sensing : Set := PowerState * Detector * StartEdge.

Definition sensing_det (st : Sensing) : Detector := snd (fst st).
Definition sensing_edge (st : Sensing) : StartEdge := snd st.

(** The detection block followed by the start-edge block. *)
Definition sense (sm : Sample) (st : Sensing) : Sensing :=
  let '(ps, d, e) := st in
  let '(startTriggered, ps', d') := detect (fst sm) (snd sm) ps d in
  (ps', d', handle_start_edge (fst sm) startTriggered e).

(** Does the start edge fire on this sample? *)
Definition fires (sm : Sample) (st : Sensing) : bool :=
  let '(ps, d, e) := st in
  start_edge (fst (fst (detect (fst sm) (snd sm) ps d))) e.

(** Does this sample re-arm the detector? *)
Definition rearms (sm : Sample) (st : Sensing) : bool :=
  let '(ps, d, e) := st in
  negb (startArmed d) && startArmed (snd (detect (fst sm) (snd sm) ps d)).

Fixpoint sense_all (l : list Sample) (st : Sensing) : Sensing :=
  match l with
  | [] => st
  | sm :: r => sense_all r (sense sm st)
  end.

Fixpoint start_events (l : list Sample) (st : Sensing) : nat :=
  match l with
  | [] => O
  | sm :: r =>
      ((if fires sm st then 1 else 0) + start_events r (sense sm st))%nat
  end.

Fixpoint rearm_count (l : list Sample) (st : Sensing) : nat :=
  match l with
  | [] => O
  | sm :: r =>
      ((if rearms sm st then 1 else 0) + rearm_count r (sense sm st))%nat
  end.

(** A valid sample: positive, and within what the [uint16_t] cast keeps. *)
Definition valid_sample (tof_cm : Z) : Prop := 0 < tof_cm < 2 ^ 16.

(** Every sample of the run is valid and shows a drop of at least
    [MIN_DROP_CM] when it is processed. *)
Fixpoint all_dropped (l : list Sample) (st : Sensing) : Prop :=
  match l with
  | [] => True
  | sm :: r =>
      valid_sample (snd sm)
      /\ MIN_DROP_CM <= sample_drop (sensing_det st) (snd sm)
      /\ all_dropped r (sense sm st)
  end.

(** Every sample of the run is valid and, when it is processed, either
    shows a drop of at least [MIN_DROP_CM] or falls inside the hold
    window. *)
Fixpoint all_suppressed (l : list Sample) (st : Sensing) : Prop :=
  match l with
  | [] => True
  | sm :: r =>
      valid_sample (snd sm)
      /\ (MIN_DROP_CM <= sample_drop (sensing_det st) (snd sm)
          \/ inHoldWindow (fst sm) (sensing_det st) = true)
      /\ all_suppressed r (sense sm st)
  end.

(** Every sample of the run is valid, shows a drop below [MIN_DROP_CM]
    when it is processed, and comes once the hold window has elapsed. *)
Fixpoint all_clear (l : list Sample) (st : Sensing) : Prop :=
  match l with
  | [] => True
  | sm :: r =>
      valid_sample (snd sm)
      /\ sample_drop (sensing_det st) (snd sm) < MIN_DROP_CM
      /\ inHoldWindow (fst sm) (sensing_det st) = false
      /\ all_clear r (sense sm st)
  end.

(** ** Mode transitions *)

(** The triggers of the transition table. *)
Inductive Event : Set :=
| EvWakeButton            (* wake interrupt: short button press *)
| EvWakeCharger           (* wake interrupt: charger voltage rise *)
| EvShortPress            (* button released before 5000 ms *)
| EvShortPressUnplugged   (* the same, charger seen disconnected *)
| EvLongPress             (* button held for 5000 ms *)
| EvStart                 (* the detector triggers *)
| EvRearm                 (* the detector re-arms *)
| EvChargerDisconnected   (* charger seen disconnected, no press completed *)
| EvEnterPairing          (* pairing-enter command *)
| EvPairingComplete.      (* network configuration written *)


Definition all_events : list Event :=
  [EvWakeButton; EvWakeCharger; EvShortPress; EvShortPressUnplugged;
   EvLongPress; EvStart; EvRearm; EvChargerDisconnected; EvEnterPairing;
   EvPairingComplete].


(** The transition table as the specification words it (section 4.2):
    the listed rows, every other pair a no-op.  The awake modes are
    standby and running. *)
Definition spec_transition (m : PowerState) (e : Event) : PowerState :=
  match m, e with
  | DEEP_SLEEP, EvWakeButton => AWAKE_STANDBY
  | DEEP_SLEEP, EvWakeCharger => CHARGING
  | (AWAKE_STANDBY | AWAKE_RUNNING), (EvShortPress | EvShortPressUnplugged) =>
      DEEP_SLEEP
  | (AWAKE_STANDBY | AWAKE_RUNNING), EvLongPress => OTA_MODE
  | AWAKE_STANDBY, EvStart => AWAKE_RUNNING
  | AWAKE_RUNNING, EvRearm => AWAKE_STANDBY
  | CHARGING, EvChargerDisconnected => DEEP_SLEEP
  | CHARGING, EvShortPressUnplugged => AWAKE_STANDBY
  | (AWAKE_STANDBY | AWAKE_RUNNING), EvEnterPairing => PAIRING_MODE
  | PAIRING_MODE, EvPairingComplete => AWAKE_STANDBY
  | _, _ => m
  end.




(** The button as a pass of [loop] sees it in mode [m]: the charging block
    and the awake part keep separate statics; the other modes do not read
    the button. *)
Definition btn_was (s : Device) : bool :=
  match powerState (power s) with
  | CHARGING => chg_btnWasPressed (statics s)
  | _ => awk_btnWasPressed (statics s)
  end.

Definition btn_held (i : LoopInput) (s : Device) : Z :=
  match powerState (power s) with
  | CHARGING => u32 (in_now i - chg_btnPressStart (statics s))
  | _ => u32 (in_now i - awk_btnPressStart (statics s))
  end.

(** The pass sees the button released less than 5000 ms after the press. *)
Definition short_press_seen (i : LoopInput) (s : Device) : bool :=
  negb (in_btnPressed i) && btn_was s && (btn_held i s <? 5000).

(** The pass sees the button still down 5000 ms after the press. *)
Definition long_press_seen (i : LoopInput) (s : Device) : bool :=
  in_btnPressed i && btn_was s && (5000 <=? btn_held i s).

(** Is a battery refresh due in this pass? *)
Definition refresh_due (i : LoopInput) (s : Device) : bool :=
  match powerState (power s) with
  | CHARGING => 1000 <=? u32 (in_now i - chg_lastBattUpdate (statics s))
  | _ => 5000 <=? u32 (in_now i - awk_lastBattUpdate (statics s))
  end.

(** The charger as the pass sees it. *)
Definition charger_seen (i : LoopInput) (s : Device) : bool :=
  if refresh_due i s then in_isCharging i else isCharging (power s).

(** The sample the detection block of the pass works on. *)
Definition tof_seen (i : LoopInput) (s : Device) : Z :=
  match in_tof i with
  | Some dist_mm => to_int32 (Z.quot dist_mm 10)
  | None => tof_cm s
  end.

Definition mode_of_device (s : Device) : PowerState := powerState (power s).

Definition awake (m : PowerState) : bool :=
  match m with
  | AWAKE_STANDBY | AWAKE_RUNNING => true
  | _ => false
  end.



(** ** The re-arm rule *)



(** The state of the detection globals right after boot. *)
Definition sensing_boot : Sensing := (AWAKE_STANDBY, detector_boot, edge_boot).

(** ** A concrete device *)

(** A paired device booted by a power-on reset, button up, no charger,
    battery full, UWB module silent. *)
Definition demo_nvs : gmap string PrefVal :=
  <["paired" := PBool true]>
    (<["anchor_addr" := PString "ANCH0001"]>
       (<["uwb_network" := PString "REYAX123"]> ∅)).

Definition demo_boot : BootInput :=
  {| boot_wakeup := WAKEUP_OTHER; boot_batteryPercent := 100;
     boot_isCharging := false; boot_isFullyCharged := false;
     boot_mac := (171, 205, 239); boot_button := None |}.

Definition demo_device : Device := device_of (setup demo_boot demo_nvs []).

(** A pass at time [now] with the button up, reading [tof] from the
    sensor and nothing from the UART. *)
Definition quiet_pass (now : Z) (tof : option Z) : LoopInput :=
  {| in_now := now; in_pollNow := now; in_btnPressed := false;
     in_batteryPercent := 100; in_isCharging := false;
     in_isFullyCharged := false; in_tof := tof; in_rx := "" |}.

(** The same device once a BLE client has connected. *)
Definition demo_connected : Device := SvrCB_onConnect demo_device.

(** ** Byte streams *)

Fixpoint repeat_char (c : ascii) (n : nat) : string :=
  match n with
  | O => ""
  | S k => String c (repeat_char c k)
  end.

(** A text without its carriage returns. *)
Fixpoint strip_cr (s : string) : string :=
  match s with
  | "" => ""
  | String c r => if Ascii.eqb c CR then strip_cr r else String c (strip_cr r)
  end.

Fixpoint has_lf (s : string) : bool :=
  match s with
  | "" => false
  | String c r => Ascii.eqb c LF || has_lf r
  end.

(** The bytes of a list of polls, in order. *)
Fixpoint poll_bytes (polls : list (Z * string)) : string :=
  match polls with
  | [] => ""
  | (_, chunk) :: rest => chunk +:+ poll_bytes rest
  end.

(** Every poll of the list happens before the timeout. *)
Definition in_time (start timeoutMs : Z) (polls : list (Z * string)) : Prop :=
  Forall (fun p => u32 (fst p - start) < timeoutMs) polls.



(** A pass at time [now] on the charger, nothing from sensor or UART. *)
Definition charging_pass (now : Z) (btn : bool) : LoopInput :=
  {| in_now := now; in_pollNow := now; in_btnPressed := btn;
     in_batteryPercent := 50; in_isCharging := true;
     in_isFullyCharged := false; in_tof := None; in_rx := "" |}.


(** ** Invariant of the detection globals *)

(** What holds of the detection and start-edge globals in every state the
    detection block can reach from boot: the counts stay within their
    thresholds, an armed detector has counted at most one drop and its
    previous pass did not trigger, a disarmed one has counted at most one
    clear sample. *)
Definition sensing_inv (st : Sensing) : Prop :=
  let d := sensing_det st in
  0 <= belowConsec d <= BELOW_CONSEC_REQUIRED
  /\ 0 <= aboveConsec d <= ABOVE_CONSEC_REQUIRED
  /\ (startArmed d = true ->
      belowConsec d < BELOW_CONSEC_REQUIRED
      /\ prevStartTriggered (sensing_edge st) = false)
  /\ (startArmed d = false -> aboveConsec d < ABOVE_CONSEC_REQUIRED).

(** The baseline is within the clamp. *)
Definition baseline_ok (s : Device) : Prop :=
  baseline_cm (det s) <= BASELINE_MAX_CM.

(** ** The scenario of the documentation *)

(** Baseline 183 cm, one sample every 20 ms: the runner enters the beam at
    40 ms and has left it by 100 ms. *)
Definition scenario_crossing : list Sample :=
  [(0, 183); (20, 175); (40, 165); (60, 160); (80, 170); (100, 180)].

(** Clear samples from 120 ms to 560 ms. *)
Definition scenario_hold : list Sample :=
  map (fun k => (120 + 20 * Z.of_nat k, 182)) (seq 0 23).

(** The [powerState] variable does not hold [DEEP_SLEEP]. *)
Definition mode_ok (s : Device) : Prop := mode_of_device s <> DEEP_SLEEP.

(** * Further definitions *)

(** ** Answers of the UWB module *)

(** What a complete line means to a [sendAT] call that waits for an
    acknowledgement: [Some true] for a line that starts with ["+READY"] or
    ["+OK"], [Some false] for one that starts with ["+ERR"], [None] for any
    other line, which is skipped. *)
Definition answer_of (line : string) : option bool :=
  if startsWith line "+READY" then Some true
  else if startsWith line "+OK" then Some true
  else if startsWith line "+ERR" then Some false
  else None.

(** The number of ["AT"] probes [uwbSync] sends: it stops at the first
    probe that is answered. *)
Fixpoint probes_sent (n : nat) (u : Uart) : nat :=
  match n with
  | O => O
  | S k =>
      let '(ok, u') := sendAT "AT" 500 true u in
      if ok then 1%nat else S (probes_sent k u')
  end.

(** Complete lines, each closed by a line feed. *)
Fixpoint join_lines (ls : list string) : string :=
  match ls with
  | [] => ""
  | l :: r => l +:+ String LF (join_lines r)
  end.

(** A line [sendAT] skips while it waits for an acknowledgement. *)
Definition skipped_line (l : string) : Prop :=
  has_lf l = false /\ answer_of (trim (strip_cr l)) = None.

(** The observations the next [sendAT] call will make. *)
Definition next_sched (u : Uart) : Sched := fst (uart_next u).

(** ** Reading a telemetry frame *)

(** The value of a hexadecimal digit as [%X] prints it. *)
Definition hex_digit_value (c : ascii) : option Z :=
  let n := Z.of_nat (nat_of_ascii c) in
  if (48 <=? n) && (n <=? 57) then Some (n - 48)
  else if (65 <=? n) && (n <=? 70) then Some (n - 55)
  else None.

(** The number a text of hexadecimal digits denotes, most significant
    digit first. *)
Fixpoint hex_value (acc : Z) (s : string) : option Z :=
  match s with
  | "" => Some acc
  | String c r =>
      match hex_digit_value c with
      | Some v => hex_value (16 * acc + v) r
      | None => None
      end
  end.

(** The frame a receiver reads from the 14 hexadecimal digits of
    [hexData], following the layout [pollUWB] documents: battery (1 byte),
    distance (2 bytes, big-endian), start age (4 bytes, big-endian,
    signed). *)
Definition frame_of_hex (h : string) : option Frame :=
  if (String.length h =? 14)%nat then
    match hex_value 0 (substring 0 2 h), hex_value 0 (substring 2 4 h),
          hex_value 0 (substring 6 8 h) with
    | Some b, Some d, Some a =>
        Some {| f_battery := b; f_distance := d; f_startAge := to_int32 a |}
    | _, _, _ => None
    end
  else None.

(** ** Invariants of a running device *)

(** [uwb_distance_cm] holds its initialiser or a distance [pollUWB]
    accepted. *)
Definition distance_ok (r : Radio) : Prop :=
  uwb_distance_cm r = -1 \/ 0 < uwb_distance_cm r < 65535.

(** A text that a [char buf[16]] holds with its terminator. *)
Definition fits16 (s : string) : Prop := (String.length s <= 15)%nat.

(** The longest command the firmware builds:
    ["AT+TAG_SEND=<15 characters>,7,<14 digits>"]. *)
Definition cmd_ok (c : string) : Prop := (String.length c <= 44)%nat.

(** What a reboot would read back from the NVS is what the pairing globals
    hold. *)
Definition persisted (p : Pairing) : Prop := load_pairing (prefs p) = p.

Definition sound (s : Device) : Prop :=
  distance_ok (radio s)
  /\ (fits16 (ANCHOR_UWB_NETWORK (pairing s))
      /\ fits16 (ANCHOR_UWB_ADDRESS (pairing s))
      /\ fits16 (MY_UWB_ADDRESS s))
  /\ Forall cmd_ok (uwb_tx (uart (radio s)))
  /\ persisted (pairing s).

(** ** Button presses over several passes *)

(** The awake part is timing a press that began at [t]. *)
Definition pressing (t : Z) (s : Device) : Prop :=
  awake (mode_of_device s) = true
  /\ awk_btnWasPressed (statics s) = true
  /\ awk_btnPressStart (statics s) = t.

(** A pass that finds the button still down, less than 5000 ms after the
    press began at [t]. *)
Definition held_pass (t : Z) (i : LoopInput) : Prop :=
  in_btnPressed i = true /\ u32 (in_now i - t) < 5000.

(** The BLE stack was never started. *)
Definition ble_off (s : Device) : Prop :=
  chStatus (ble s) = None /\ notified (ble s) = [].

(** A pass at time [now] off the charger, with the button down or up, no
    ranging result and nothing from the UART. *)
Definition button_pass (now : Z) (btn : bool) : LoopInput :=
  {| in_now := now; in_pollNow := now; in_btnPressed := btn;
     in_batteryPercent := 100; in_isCharging := false;
     in_isFullyCharged := false; in_tof := None; in_rx := "" |}.

(** ** Texts *)

Fixpoint has_char (c : ascii) (s : string) : bool :=
  match s with
  | "" => false
  | String x r => Ascii.eqb x c || has_char c r
  end.


(** The payload the network-config characteristic documents:
    [{"network_id":"<N>","anchor_address":"<A>"}]. *)
Definition network_payload (N A : string) : string :=
  "{" +:+ quoted "network_id" +:+ ":" +:+ quoted N +:+ ","
  +:+ quoted "anchor_address" +:+ ":" +:+ quoted A +:+ "}".

(** ** The LED matrix *)

Record CRGB : Set := mkCRGB { red : Z; green : Z; blue : Z }.

Definition Black : CRGB := mkCRGB 0 0 0.

Definition CRGB_eqb (a b : CRGB) : bool :=
  (red a =? red b) && (green a =? green b) && (blue a =? blue b).

Definition NUM_LEDS : nat := 64.

(** [fill_solid(leds, NUM_LEDS, c)] *)
Definition fill_solid (c : CRGB) : list CRGB := replicate NUM_LEDS c.

(** [XY(x, y)] on [uint8_t] arguments: [(uint16_t)y * 8u + x]. *)
Definition XY (x y : Z) : Z := u16 (u32 (u16 y * 8 + x)).

(** [leds[i] = c]: a write outside the array is undefined, [None]. *)
Definition led_set (i : Z) (c : CRGB) (leds : list CRGB)
  : option (list CRGB) :=
  if (0 <=? i) && (i <? Z.of_nat (length leds))
  then Some (<[Z.to_nat i := c]> leds) else None.

Fixpoint led_set_all (cells : list Z) (c : CRGB) (leds : list CRGB)
  : option (list CRGB) :=
  match cells with
  | [] => Some leds
  | i :: r =>
      match led_set i c leds with
      | Some leds' => led_set_all r c leds'
      | None => None
      end
  end.

(** [ledsStandby]: one blue row, which moves on every 250 ms. *)
Definition ledsStandby (now : Z) : option (list CRGB) :=
  let row := u8 ((now / 250) mod 8) in
  led_set_all (map (fun x => XY x row) (seqZ 0 8)) (mkCRGB 20 100 255)
    (fill_solid Black).

(** The cells of the four rings of [ledsChargingRings], in the order the
    loops write them. *)
Definition ring_cells (ring : Z) : list Z :=
  match ring with
  | 0 => flat_map (fun y => map (fun x => XY x y) (seqZ 3 2)) (seqZ 3 2)
  | 1 => flat_map (fun x => [XY x 2; XY x 5]) (seqZ 2 4)
         ++ flat_map (fun y => [XY 2 y; XY 5 y]) (seqZ 3 2)
  | 2 => flat_map (fun x => [XY x 1; XY x 6]) (seqZ 1 6)
         ++ flat_map (fun y => [XY 1 y; XY 6 y]) (seqZ 2 4)
  | 3 => flat_map (fun x => [XY x 0; XY x 7]) (seqZ 0 8)
         ++ flat_map (fun y => [XY 0 y; XY 7 y]) (seqZ 1 6)
  | _ => []
  end.

(** [targetRing]: the ring the battery level reaches. *)
Definition targetRing (pct : Z) : Z :=
  let t := u8 (pct * 8 / 100) in if 7 <? t then 7 else t.

(** [ledsChargingRings]: the ring of the current step of the 2000 ms cycle,
    and all four rings from the fifth step on.  A division by zero is
    undefined, [None]. *)
Definition ledsChargingRings (now pct : Z) : option (list CRGB) :=
  let target := targetRing pct in
  let cycleMs := 2000 in
  if target + 1 =? 0 then None
  else
    let stepMs := u32 (cycleMs / (target + 1)) in
    if stepMs =? 0 then None
    else
      let cur := u8 ((now mod cycleMs) / stepMs) in
      let currentRing := if target <? cur then target else cur in
      let cells :=
        if (0 <=? currentRing) && (currentRing <=? 3) then ring_cells currentRing
        else flat_map ring_cells (seqZ 0 4) in
      led_set_all cells (mkCRGB 0 100 255) (fill_solid Black).

(** The number of LEDs that are not black. *)
Definition lit (leds : list CRGB) : nat :=
  length (filter (fun c => negb (CRGB_eqb c Black)) leds).
(** * Properties *)

(** ** Machine integers *)

Lemma u8_small z : 0 <= z < 2 ^ 8 -> u8 z = z.
Proof. intros H. unfold u8. now apply Z.mod_small. Qed.

Lemma u16_bounds z : 0 <= u16 z < 2 ^ 16.
Proof. unfold u16. apply Z.mod_pos_bound. lia. Qed.

Lemma u16_small z : 0 <= z < 2 ^ 16 -> u16 z = z.
Proof. intros H. unfold u16. now apply Z.mod_small. Qed.

Lemma u32_bounds z : 0 <= u32 z < 2 ^ 32.
Proof. unfold u32. apply Z.mod_pos_bound. lia. Qed.

Lemma u32_small z : 0 <= z < 2 ^ 32 -> u32 z = z.
Proof. intros H. unfold u32. now apply Z.mod_small. Qed.

Lemma to_int32_small z : 0 <= z < 2 ^ 31 -> to_int32 z = z.
Proof.
  intros H. unfold to_int32. rewrite u32_small by lia.
  destruct (Z.ltb_spec z (2 ^ 31)); lia.
Qed.

Lemma to_int32_high z : 2 ^ 31 <= z < 2 ^ 32 -> to_int32 z = z - 2 ^ 32.
Proof.
  intros H. unfold to_int32. rewrite u32_small by lia.
  destruct (Z.ltb_spec z (2 ^ 31)); lia.
Qed.

(** ** Start detection *)

Section Detection.

Variables (now tof_cm : Z) (ps : PowerState) (d : Detector).

Lemma clamp_cm_bounds : 0 <= clamp_cm tof_cm <= BASELINE_MAX_CM.
Proof.
  unfold clamp_cm, BASELINE_MAX_CM. pose proof (u16_bounds tof_cm).
  destruct (Z.ltb_spec 183 (u16 tof_cm)); lia.
Qed.

Lemma clamp_cm_valid : valid_sample tof_cm -> MIN_ABS_CM <= clamp_cm tof_cm.
Proof.
  unfold valid_sample, clamp_cm, BASELINE_MAX_CM, MIN_ABS_CM. intros H.
  rewrite u16_small by lia. destruct (Z.ltb_spec 183 tof_cm); lia.
Qed.

(** For a valid sample the code's test is the test on the drop alone. *)
Lemma significant_drop_valid :
  valid_sample tof_cm ->
  significant_drop d tof_cm = (MIN_DROP_CM <=? sample_drop d tof_cm).
Proof.
  intros H. unfold significant_drop.
  destruct (Z.leb_spec MIN_ABS_CM (clamp_cm tof_cm)) as [|Hlt]; [reflexivity|].
  pose proof (clamp_cm_valid H). lia.
Qed.

Lemma significant_drop_below :
  sample_drop d tof_cm < MIN_DROP_CM -> significant_drop d tof_cm = false.
Proof.
  intros H. unfold significant_drop.
  destruct (Z.leb_spec MIN_DROP_CM (sample_drop d tof_cm)); [lia|].
  apply andb_false_r.
Qed.

(** An ignored sample changes nothing. *)
Lemma detect_invalid : tof_cm <= 0 -> detect now tof_cm ps d = (false, ps, d).
Proof.
  intros H. unfold detect. destruct (Z.ltb_spec 0 tof_cm); [lia|reflexivity].
Qed.

Lemma detect_baseline_bound :
  baseline_cm d <= BASELINE_MAX_CM ->
  baseline_cm (snd (detect now tof_cm ps d)) <= BASELINE_MAX_CM.
Proof.
  intros H. pose proof clamp_cm_bounds as Hc.
  assert (learn_baseline (baseline_cm d) (clamp_cm tof_cm) <= BASELINE_MAX_CM)
    as Hl by (unfold learn_baseline; case_match; lia).
  unfold detect. repeat case_match; simpl; lia.
Qed.

(** A trigger needs an armed detector, and disarms it. *)
Lemma detect_trigger_armed :
  fst (fst (detect now tof_cm ps d)) = true ->
  startArmed d = true /\ startArmed (snd (detect now tof_cm ps d)) = false.
Proof.
  unfold detect. repeat case_match; simpl; intros; try discriminate; auto.
Qed.

End Detection.

(** ** Decay of the below-count *)

(** C6. While the detector is armed, a valid sample whose drop is below
    [MIN_DROP_CM] takes one off [belowConsec] when it is positive and leaves
    it at zero otherwise; the count is not reset, and the detector stays
    armed. *)
Theorem below_count_decays (now tof_cm : Z) (ps : PowerState) (d : Detector) :
  startArmed d = true -> 0 < tof_cm -> sample_drop d tof_cm < MIN_DROP_CM ->
  let d' := snd (detect now tof_cm ps d) in
  (0 < belowConsec d -> belowConsec d' = belowConsec d - 1)
  /\ (belowConsec d = 0 -> belowConsec d' = 0)
  /\ startArmed d' = true.
Proof.
  intros Harm Hpos Hdrop. unfold detect.
  rewrite (significant_drop_below _ _ Hdrop), Harm.
  destruct (Z.ltb_spec 0 tof_cm); [|lia]. simpl.
  destruct (Z.ltb_spec 0 (belowConsec d)); repeat split; intros; lia || auto.
Qed.

Lemma below_count_decays_witness :
  let d := {| baseline_cm := 183; belowConsec := 1; aboveConsec := 2;
              startArmed := true; lastTriggerDetectionMs := 40 |} in
  belowConsec (snd (detect 60 180 AWAKE_STANDBY d)) = 0.
Proof.
  intros d.
  destruct (below_count_decays 60 180 AWAKE_STANDBY d) as [Hdec _].
  - reflexivity.
  - lia.
  - vm_compute. reflexivity.
  - apply Hdec. simpl. lia.
Defined.

(** ** Hold window and re-arm *)




(** Any other valid sample leaves the window where it was: the window
    runs from the last significant drop. *)
Lemma clear_keeps_hold (now tof_cm : Z) (ps : PowerState) (d : Detector) :
  significant_drop d tof_cm = false ->
  lastTriggerDetectionMs (snd (detect now tof_cm ps d))
  = lastTriggerDetectionMs d.
Proof.
  intros Hs. unfold detect. rewrite Hs. repeat case_match; reflexivity.
Qed.





(** ** One crossing, one start event *)

Lemma start_events_app (l1 l2 : list Sample) (st : Sensing) :
  start_events (l1 ++ l2) st
  = (start_events l1 st + start_events l2 (sense_all l1 st))%nat.
Proof.
  revert st. induction l1 as [|sm l1 IH]; intros st; simpl; [reflexivity|].
  rewrite IH. lia.
Qed.

Lemma rearm_count_app (l1 l2 : list Sample) (st : Sensing) :
  rearm_count (l1 ++ l2) st
  = (rearm_count l1 st + rearm_count l2 (sense_all l1 st))%nat.
Proof.
  revert st. induction l1 as [|sm l1 IH]; intros st; simpl; [reflexivity|].
  rewrite IH. lia.
Qed.

Lemma sense_all_app (l1 l2 : list Sample) (st : Sensing) :
  sense_all (l1 ++ l2) st = sense_all l2 (sense_all l1 st).
Proof.
  revert st. induction l1 as [|sm l1 IH]; intros st; simpl; [reflexivity|].
  apply IH.
Qed.

(** The start edge only fires on an armed detector. *)
Lemma fires_needs_armed (sm : Sample) (st : Sensing) :
  startArmed (sensing_det st) = false -> fires sm st = false.
Proof.
  destruct st as [[ps d] e]. unfold sensing_det, fires. simpl. intros Hd.
  destruct (fst (fst (detect (fst sm) (snd sm) ps d))) eqn:Ht.
  - apply detect_trigger_armed in Ht. destruct Ht. congruence.
  - reflexivity.
Qed.

Section Crossing.

Variables (now tof_cm : Z) (ps : PowerState) (d : Detector) (e : StartEdge).

Hypothesis Hvalid : valid_sample tof_cm.

Lemma tof_cm_positive : (0 <? tof_cm) = true.
Proof. destruct Hvalid. now apply Z.ltb_lt. Qed.

(** First qualifying sample of an arm cycle: counted, nothing fires. *)
Lemma drop_counted :
  MIN_DROP_CM <= sample_drop d tof_cm ->
  startArmed d = true -> belowConsec d = 0 ->
  startArmed (sensing_det (sense (now, tof_cm) (ps, d, e))) = true
  /\ belowConsec (sensing_det (sense (now, tof_cm) (ps, d, e))) = 1
  /\ prevStartTriggered (sensing_edge (sense (now, tof_cm) (ps, d, e)))
     = false
  /\ fires (now, tof_cm) (ps, d, e) = false
  /\ rearms (now, tof_cm) (ps, d, e) = false.
Proof.
  intros Hdrop Harm Hb.
  unfold sense, fires, rearms, detect. simpl fst. simpl snd.
  rewrite tof_cm_positive, (significant_drop_valid _ _ Hvalid), Harm, Hb.
  destruct (Z.leb_spec MIN_DROP_CM (sample_drop d tof_cm)); [|lia].
  vm_compute. auto.
Qed.

(** Second qualifying sample: the detector triggers and the edge fires. *)
Lemma drop_triggers :
  MIN_DROP_CM <= sample_drop d tof_cm ->
  startArmed d = true -> belowConsec d = 1 ->
  prevStartTriggered e = false ->
  startArmed (sensing_det (sense (now, tof_cm) (ps, d, e))) = false
  /\ aboveConsec (sensing_det (sense (now, tof_cm) (ps, d, e))) = 0
  /\ fires (now, tof_cm) (ps, d, e) = true
  /\ rearms (now, tof_cm) (ps, d, e) = false.
Proof.
  intros Hdrop Harm Hb Hprev.
  unfold sense, fires, rearms, detect, start_edge. simpl fst. simpl snd.
  rewrite tof_cm_positive, (significant_drop_valid _ _ Hvalid), Harm, Hb, Hprev.
  destruct (Z.leb_spec MIN_DROP_CM (sample_drop d tof_cm)); [|lia].
  vm_compute. auto.
Qed.

(** Further qualifying samples while disarmed change no count. *)
Lemma drop_while_disarmed :
  MIN_DROP_CM <= sample_drop d tof_cm -> startArmed d = false ->
  startArmed (sensing_det (sense (now, tof_cm) (ps, d, e))) = false
  /\ aboveConsec (sensing_det (sense (now, tof_cm) (ps, d, e)))
     = aboveConsec d
  /\ fires (now, tof_cm) (ps, d, e) = false
  /\ rearms (now, tof_cm) (ps, d, e) = false.
Proof.
  intros Hdrop Harm.
  unfold sense, fires, rearms, detect, start_edge. simpl fst. simpl snd.
  rewrite tof_cm_positive, (significant_drop_valid _ _ Hvalid), Harm.
  destruct (Z.leb_spec MIN_DROP_CM (sample_drop d tof_cm)); [|lia].
  simpl. auto.
Qed.

(** A clear sample inside the window: the above-count goes back to 0. *)
Lemma clear_held :
  sample_drop d tof_cm < MIN_DROP_CM -> inHoldWindow now d = true ->
  startArmed d = false ->
  startArmed (sensing_det (sense (now, tof_cm) (ps, d, e))) = false
  /\ aboveConsec (sensing_det (sense (now, tof_cm) (ps, d, e))) = 0
  /\ fires (now, tof_cm) (ps, d, e) = false
  /\ rearms (now, tof_cm) (ps, d, e) = false.
Proof.
  intros Hdrop Hw Harm.
  unfold sense, fires, rearms, detect, start_edge. simpl fst. simpl snd.
  rewrite tof_cm_positive, (significant_drop_below _ _ Hdrop), Harm, Hw.
  simpl. auto.
Qed.

(** First clear sample after the window: counted, still disarmed. *)
Lemma clear_counted :
  sample_drop d tof_cm < MIN_DROP_CM -> inHoldWindow now d = false ->
  startArmed d = false -> aboveConsec d = 0 ->
  startArmed (sensing_det (sense (now, tof_cm) (ps, d, e))) = false
  /\ aboveConsec (sensing_det (sense (now, tof_cm) (ps, d, e))) = 1
  /\ fires (now, tof_cm) (ps, d, e) = false
  /\ rearms (now, tof_cm) (ps, d, e) = false.
Proof.
  intros Hdrop Hw Harm Ha.
  unfold sense, fires, rearms, detect, start_edge. simpl fst. simpl snd.
  rewrite tof_cm_positive, (significant_drop_below _ _ Hdrop), Harm, Hw, Ha.
  vm_compute. auto.
Qed.

(** Second clear sample after the window: the detector re-arms. *)
Lemma clear_rearms :
  sample_drop d tof_cm < MIN_DROP_CM -> inHoldWindow now d = false ->
  startArmed d = false -> aboveConsec d = 1 ->
  startArmed (sensing_det (sense (now, tof_cm) (ps, d, e))) = true
  /\ fires (now, tof_cm) (ps, d, e) = false
  /\ rearms (now, tof_cm) (ps, d, e) = true.
Proof.
  intros Hdrop Hw Harm Ha.
  unfold sense, fires, rearms, detect, start_edge. simpl fst. simpl snd.
  rewrite tof_cm_positive, (significant_drop_below _ _ Hdrop), Harm, Hw, Ha.
  vm_compute. auto.
Qed.

(** Clear samples on an armed detector: nothing fires, nothing re-arms. *)
Lemma clear_while_armed :
  sample_drop d tof_cm < MIN_DROP_CM -> startArmed d = true ->
  startArmed (sensing_det (sense (now, tof_cm) (ps, d, e))) = true
  /\ fires (now, tof_cm) (ps, d, e) = false
  /\ rearms (now, tof_cm) (ps, d, e) = false.
Proof.
  intros Hdrop Harm.
  unfold sense, fires, rearms, detect, start_edge. simpl fst. simpl snd.
  rewrite tof_cm_positive, (significant_drop_below _ _ Hdrop), Harm.
  simpl. auto.
Qed.

End Crossing.

Lemma suppressed_while_disarmed (l : list Sample) (st : Sensing) :
  startArmed (sensing_det st) = false -> aboveConsec (sensing_det st) = 0 ->
  all_suppressed l st ->
  startArmed (sensing_det (sense_all l st)) = false
  /\ aboveConsec (sensing_det (sense_all l st)) = 0
  /\ start_events l st = O /\ rearm_count l st = O.
Proof.
  revert st. induction l as [|[now tof] l IH]; intros [[ps d] e] Hd Ha Hall.
  - simpl. auto.
  - destruct Hall as (Hv & Hcase & Hall).
    cbn [sensing_det sensing_edge fst snd] in *.
    assert (startArmed (sensing_det (sense (now, tof) (ps, d, e))) = false
            /\ aboveConsec (sensing_det (sense (now, tof) (ps, d, e))) = 0
            /\ fires (now, tof) (ps, d, e) = false
            /\ rearms (now, tof) (ps, d, e) = false) as (Hd' & Ha' & Hf & Hr).
    { destruct (Z.le_gt_cases MIN_DROP_CM (sample_drop d tof))
        as [Hdrop|Hclear].
      - destruct (drop_while_disarmed now tof ps d e Hv Hdrop Hd)
          as (? & Ha' & ? & ?).
        rewrite Ha in Ha'. auto.
      - destruct Hcase as [Hdrop|Hw]; [lia|].
        apply clear_held; trivial; lia. }
    destruct (IH _ Hd' Ha' Hall) as (? & ? & He & Hc).
    cbn [sense_all start_events rearm_count]. rewrite Hf, Hr, He, Hc. auto.
Qed.

Lemma dropped_suppressed (l : list Sample) (st : Sensing) :
  all_dropped l st -> all_suppressed l st.
Proof.
  revert st. induction l as [|sm l IH]; intros st H; [exact I|].
  destruct H as (Hv & Hd & H). split; [exact Hv|].
  split; [left; exact Hd|apply IH, H].
Qed.

Lemma drops_while_disarmed (l : list Sample) (st : Sensing) :
  startArmed (sensing_det st) = false -> aboveConsec (sensing_det st) = 0 ->
  all_dropped l st ->
  startArmed (sensing_det (sense_all l st)) = false
  /\ aboveConsec (sensing_det (sense_all l st)) = 0
  /\ start_events l st = O /\ rearm_count l st = O.
Proof.
  intros Hd Ha Hall. apply suppressed_while_disarmed; trivial.
  now apply dropped_suppressed.
Qed.

Lemma drops_from_one (l : list Sample) (st : Sensing) :
  startArmed (sensing_det st) = true -> belowConsec (sensing_det st) = 1 ->
  prevStartTriggered (sensing_edge st) = false ->
  (1 <= length l)%nat -> all_dropped l st ->
  startArmed (sensing_det (sense_all l st)) = false
  /\ aboveConsec (sensing_det (sense_all l st)) = 0
  /\ start_events l st = 1%nat /\ rearm_count l st = O.
Proof.
  destruct l as [|[now tof] l]; intros Hd Hb Hp Hlen Hall;
    [simpl in Hlen; lia|].
  destruct st as [[ps d] e]. destruct Hall as (Hv & Hdrop & Hall).
  cbn [sensing_det sensing_edge fst snd] in *.
  destruct (drop_triggers now tof ps d e Hv Hdrop Hd Hb Hp)
    as (Hd' & Ha' & Hf & Hr).
  destruct (drops_while_disarmed l _ Hd' Ha' Hall) as (? & ? & He & Hc).
  cbn [sense_all start_events rearm_count]. rewrite Hf, Hr, He, Hc. auto.
Qed.

Lemma drops_from_zero (l : list Sample) (st : Sensing) :
  startArmed (sensing_det st) = true -> belowConsec (sensing_det st) = 0 ->
  (2 <= length l)%nat -> all_dropped l st ->
  startArmed (sensing_det (sense_all l st)) = false
  /\ aboveConsec (sensing_det (sense_all l st)) = 0
  /\ start_events l st = 1%nat /\ rearm_count l st = O.
Proof.
  destruct l as [|[now tof] l]; intros Hd Hb Hlen Hall; [simpl in Hlen; lia|].
  destruct st as [[ps d] e]. destruct Hall as (Hv & Hdrop & Hall).
  cbn [sensing_det sensing_edge fst snd] in *.
  destruct (drop_counted now tof ps d e Hv Hdrop Hd Hb)
    as (Hd' & Hb' & Hp' & Hf & Hr).
  assert (1 <= length l)%nat as Hlen' by (simpl in Hlen; lia).
  destruct (drops_from_one l _ Hd' Hb' Hp' Hlen' Hall) as (? & ? & He & Hc).
  cbn [sense_all start_events rearm_count]. rewrite Hf, Hr, He, Hc. auto.
Qed.

Lemma clears_while_armed (l : list Sample) (st : Sensing) :
  startArmed (sensing_det st) = true -> all_clear l st ->
  startArmed (sensing_det (sense_all l st)) = true
  /\ start_events l st = O /\ rearm_count l st = O.
Proof.
  revert st. induction l as [|[now tof] l IH]; intros [[ps d] e] Hd Hall.
  - simpl. auto.
  - destruct Hall as (Hv & Hdrop & _ & Hall).
    cbn [sensing_det sensing_edge fst snd] in *.
    destruct (clear_while_armed now tof ps d e Hv Hdrop Hd) as (Hd' & Hf & Hr).
    destruct (IH _ Hd' Hall) as (? & He & Hc).
    cbn [sense_all start_events rearm_count]. rewrite Hf, Hr, He, Hc. auto.
Qed.

Lemma clears_after_trigger (l : list Sample) (st : Sensing) :
  startArmed (sensing_det st) = false -> aboveConsec (sensing_det st) = 0 ->
  (2 <= length l)%nat -> all_clear l st ->
  startArmed (sensing_det (sense_all l st)) = true
  /\ start_events l st = O /\ rearm_count l st = 1%nat.
Proof.
  destruct l as [|[now1 tof1] [|[now2 tof2] l]]; intros Hd Ha Hlen Hall;
    [simpl in Hlen; lia|simpl in Hlen; lia|].
  destruct st as [[ps d] e].
  destruct Hall as (Hv1 & Hdrop1 & Hw1 & Hall). 
  cbn [sensing_det sensing_edge fst snd] in *.
  destruct (clear_counted now1 tof1 ps d e Hv1 Hdrop1 Hw1 Hd Ha)
    as (Hd1 & Ha1 & Hf1 & Hr1).
  destruct (sense (now1, tof1) (ps, d, e)) as [[ps1 d1] e1] eqn:Hst1.
  destruct Hall as (Hv2 & Hdrop2 & Hw2 & Hall). 
  cbn [sensing_det sensing_edge fst snd] in *.
  destruct (clear_rearms now2 tof2 ps1 d1 e1 Hv2 Hdrop2 Hw2 Hd1 Ha1)
    as (Hd2 & Hf2 & Hr2).
  destruct (clears_while_armed l _ Hd2 Hall) as (? & He & Hc).
  cbn [sense_all start_events rearm_count].
  rewrite Hf1, Hr1, Hst1. cbn [sense_all start_events rearm_count].
  rewrite Hf2, Hr2, He, Hc. auto.
Qed.

(** ** Reachable detector states *)

Lemma sense_preserves_inv (sm : Sample) (st : Sensing) :
  sensing_inv st -> sensing_inv (sense sm st).
Proof.
  destruct st as [[ps d] e], sm as [now tof].
  unfold sensing_inv, sensing_det, sensing_edge, sense.
  cbn [fst snd]. unfold BELOW_CONSEC_REQUIRED, ABOVE_CONSEC_REQUIRED.
  intros (Hb & Ha & Harm & Hdis).
  assert (u8 (belowConsec d + 1) = belowConsec d + 1) as Eb
      by (apply u8_small; lia).
  assert (u8 (aboveConsec d + 1) = aboveConsec d + 1) as Ea
      by (apply u8_small; lia).
  unfold detect, handle_start_edge, start_edge.
  unfold BELOW_CONSEC_REQUIRED, ABOVE_CONSEC_REQUIRED. rewrite Eb, Ea.
  destruct (0 <? tof);
    [|cbn [fst snd andb prevStartTriggered]; intuition auto].
  destruct (startArmed d) eqn:Hd;
    [destruct (Harm eq_refl) as [Hb1 Hp]|specialize (Hdis eq_refl)];
    destruct (significant_drop d tof);
    destruct (Z.leb_spec 2 (belowConsec d + 1));
    destruct (Z.leb_spec 2 (aboveConsec d + 1));
    destruct (Z.ltb_spec 0 (belowConsec d));
    destruct (inHoldWindow now d);
    cbn [fst snd belowConsec aboveConsec startArmed prevStartTriggered
         andb negb]; rewrite ?Hp; cbn [negb andb];
    cbn [fst snd belowConsec aboveConsec startArmed prevStartTriggered];
    repeat apply conj; intros; try discriminate; try reflexivity; lia.
Qed.

(** Every state reached from boot satisfies the invariant. *)
Lemma reachable_inv (l : list Sample) : sensing_inv (sense_all l sensing_boot).
Proof.
  assert (forall l st, sensing_inv st -> sensing_inv (sense_all l st)) as H.
  { clear l. induction l as [|sm l IH]; intros st Hst; [exact Hst|].
    apply IH, sense_preserves_inv, Hst. }
  apply H. unfold sensing_inv. vm_compute. intuition congruence.
Qed.

(** In a reachable state an armed detector has counted at most one drop:
    there, taking one off the count and resetting it give the same
    result. *)
Lemma armed_below_at_most_one (l : list Sample) :
  startArmed (sensing_det (sense_all l sensing_boot)) = true ->
  0 <= belowConsec (sensing_det (sense_all l sensing_boot)) <= 1.
Proof.
  intros Harm. destruct (reachable_inv l) as (Hb & _ & H & _).
  destruct (H Harm) as [Hlt _]. unfold BELOW_CONSEC_REQUIRED in *. lia.
Qed.

(** C1. From an armed detector, in any state the detection block can be
    in ([sensing_inv]), a crossing
    -- at least two valid samples with drop >= [MIN_DROP_CM]; then any
    samples that still show such a drop or fall inside the hold window;
    then at least two valid samples with drop < [MIN_DROP_CM] that come
    once the hold window has elapsed -- fires the start edge exactly once
    and re-arms exactly once, leaving the detector armed; and no sample
    fires the start edge while the detector is disarmed, so one arm cycle
    holds at most one event. *)
Theorem single_crossing_single_event
    (drops mid clears : list Sample) (ps : PowerState) (d : Detector)
    (e : StartEdge) :
  sensing_inv (ps, d, e) -> startArmed d = true ->
  (2 <= length drops)%nat -> all_dropped drops (ps, d, e) ->
  all_suppressed mid (sense_all drops (ps, d, e)) ->
  (2 <= length clears)%nat ->
  all_clear clears (sense_all (drops ++ mid) (ps, d, e)) ->
  start_events (drops ++ mid ++ clears) (ps, d, e) = 1%nat
  /\ rearm_count (drops ++ mid ++ clears) (ps, d, e) = 1%nat
  /\ startArmed (sensing_det (sense_all (drops ++ mid ++ clears) (ps, d, e)))
     = true
  /\ (forall sm st, startArmed (sensing_det st) = false -> fires sm st = false).
Proof.
  intros Hinv Hd Hlen1 Hdrops Hmid Hlen2 Hclears.
  rewrite sense_all_app in Hclears.
  assert (startArmed (sensing_det (sense_all drops (ps, d, e))) = false
          /\ aboveConsec (sensing_det (sense_all drops (ps, d, e))) = 0
          /\ start_events drops (ps, d, e) = 1%nat
          /\ rearm_count drops (ps, d, e) = O) as (Hd1 & Ha1 & He1 & Hr1).
  { destruct Hinv as (Hb & _ & Harm & _).
    destruct (Harm Hd) as [Hb1 Hp].
    unfold sensing_det, BELOW_CONSEC_REQUIRED in Hb, Hb1.
    cbn [fst snd] in Hb, Hb1.
    destruct (Z.eq_dec (belowConsec d) 0) as [Hz|Hnz].
    - now apply drops_from_zero.
    - apply drops_from_one; trivial; [cbn; lia|lia]. }
  destruct (suppressed_while_disarmed mid _ Hd1 Ha1 Hmid)
    as (Hd2 & Ha2 & He2 & Hr2).
  destruct (clears_after_trigger clears _ Hd2 Ha2 Hlen2 Hclears)
    as (Hd3 & He3 & Hr3).
  rewrite !start_events_app, !rearm_count_app, !sense_all_app.
  rewrite He1, He2, He3, Hr1, Hr2, Hr3.
  repeat split; trivial. apply fires_needs_armed.
Qed.

(** The scenario of the specification: baseline 183, a sample every 20 ms. *)
Lemma single_crossing_single_event_witness :
  let d := {| baseline_cm := 183; belowConsec := 0; aboveConsec := 2;
              startArmed := true; lastTriggerDetectionMs := 0 |} in
  let run := ([(40, 165); (60, 160)] ++ [(80, 170); (100, 180); (560, 182)]
              ++ [(580, 182); (600, 183)])%list in
  start_events run (AWAKE_STANDBY, d, edge_boot) = 1%nat
  /\ rearm_count run (AWAKE_STANDBY, d, edge_boot) = 1%nat.
Proof.
  intros d run.
  destruct (single_crossing_single_event
              [(40, 165); (60, 160)] [(80, 170); (100, 180); (560, 182)]
              [(580, 182); (600, 183)]
              AWAKE_STANDBY d edge_boot) as (He & Hr & _).
  - unfold sensing_inv. vm_compute. intuition congruence.
  - reflexivity.
  - simpl. lia.
  - unfold valid_sample. vm_compute. intuition congruence.
  - unfold valid_sample. vm_compute. intuition congruence.
  - simpl. lia.
  - unfold valid_sample. vm_compute. intuition congruence.
  - split; assumption.
Defined.

(** The scenario of the documentation, run on the code: the start edge
    fires on the sample at 60 ms; the drop still seen at 80 ms restarts the
    hold window, so the clear samples up to 560 ms are not counted, the one
    at 580 ms is the first counted and the one at 600 ms re-arms, with the
    baseline learned again from it. *)
Example scenario_timeline :
  let st60 := sense_all [(0, 183); (20, 175); (40, 165)] sensing_boot in
  let st560 := sense_all (scenario_crossing ++ scenario_hold) sensing_boot in
  let st580 := sense (580, 183) st560 in
  let st600 := sense (600, 181) st580 in
  fires (60, 160) st60 = true
  /\ start_events (scenario_crossing ++ scenario_hold
                   ++ [(580, 183); (600, 181)]) sensing_boot = 1%nat
  /\ lastTriggerDetectionMs (sensing_det st560) = 80
  /\ aboveConsec (sensing_det st560) = 0
  /\ startArmed (sensing_det st580) = false
  /\ aboveConsec (sensing_det st580) = 1
  /\ startArmed (sensing_det st600) = true
  /\ baseline_cm (sensing_det st600) = 181.
Proof. vm_compute. repeat split; reflexivity. Qed.

(** ** The baseline stays clamped *)

Lemma det_refresh_battery i s : det (refresh_battery i s) = det s.
Proof. reflexivity. Qed.

Lemma loop_sense_baseline i s : baseline_ok s -> baseline_ok (loop_sense i s).
Proof.
  unfold baseline_ok, loop_sense. intros H.
  destruct (pollUWB _ _ _ _ _ _ _) as [[f e] r].
  pose proof (detect_baseline_bound (in_now i)
                match in_tof i with
                | Some dist_mm => to_int32 (Z.quot dist_mm 10)
                | None => tof_cm s
                end (powerState (power s)) (det s) H) as Hb.
  destruct (detect _ _ _ _) as [[t ps] d']. exact Hb.
Qed.

Lemma wake_from_charging_baseline s : baseline_ok (wake_from_charging s).
Proof.
  unfold baseline_ok, wake_from_charging.
  destruct (uwbSync _) as [ok u]. simpl. unfold BASELINE_MAX_CM. lia.
Qed.

Lemma loop_baseline i s :
  baseline_ok s -> baseline_ok (device_of (loop i s)).
Proof.
  intros H. unfold loop, loop_charging, loop_pairing, loop_awake,
    charging_refresh, awake_refresh, charging_note_button, awake_note_button.
  repeat case_match; simpl;
    solve [ exact H
          | apply wake_from_charging_baseline
          | apply loop_sense_baseline; exact H ].
Qed.

Lemma apply_op_baseline o s :
  baseline_ok s -> baseline_ok (device_of (apply_op o s)).
Proof.
  intros H. destruct o as [i| | |v|v]; simpl; try exact H.
  - now apply loop_baseline.
  - unfold CtrlCB_handleWrite. repeat case_match; exact H.
Qed.

Lemma run_baseline ops o :
  baseline_ok (device_of o) -> baseline_ok (device_of (run ops o)).
Proof.
  revert o. induction ops as [|op ops IH]; intros o H; [destruct o; exact H|].
  destruct o as [s|s]; simpl; [|exact H].
  apply IH. now apply apply_op_baseline.
Qed.

Lemma setup_baseline b nvs io : baseline_ok (device_of (setup b nvs io)).
Proof.
  unfold baseline_ok, setup, init_peripherals.
  repeat case_match; simpl; unfold BASELINE_MAX_CM; lia.
Qed.

(** C7. Whatever the device reads after a boot -- raw ranging results of
    any magnitude, button, charger, UART bytes, BLE writes -- [baseline_cm]
    never exceeds [BASELINE_MAX_CM]: the sample is clamped before the
    baseline is learned or re-learned. *)
Theorem baseline_never_exceeds_max
    (b : BootInput) (nvs : gmap string PrefVal) (io : list Sched)
    (ops : list Op) :
  baseline_cm (det (device_of (run ops (setup b nvs io)))) <= BASELINE_MAX_CM.
Proof. apply run_baseline, setup_baseline. Qed.

(** ** Telemetry: reporting the start event *)

(** A pending timestamp goes into the next frame and is cleared with it:
    the frame after that carries [-1]. *)
Lemma pending_reported_once (now1 now2 b1 b2 u1 u2 : Z) (e : StartEdge) :
  0 <= startTimestamp e ->
  let r1 := assemble_frame now1 b1 u1 e in
  let r2 := assemble_frame now2 b2 u2 (snd r1) in
  f_startAge (fst r1) = to_int32 (now1 - u32 (startTimestamp e))
  /\ startTimestamp (snd r1) = -1
  /\ f_startAge (fst r2) = -1
  /\ startTimestamp (snd r2) = -1.
Proof.
  intros Hts r1 r2. subst r2 r1. unfold assemble_frame.
  destruct (Z.leb_spec 0 (startTimestamp e)); [|lia]. simpl. auto.
Qed.

(** While the clock is below [2^31] a start edge leaves a pending
    timestamp, and the next frame, assembled less than [2^31] ms later,
    carries the age of the event. *)
Lemma start_edge_reported (now now1 b u : Z) (e : StartEdge) :
  0 <= now < 2 ^ 31 -> now <= now1 < now + 2 ^ 31 ->
  prevStartTriggered e = false ->
  let e1 := handle_start_edge now true e in
  startTimestamp e1 = now
  /\ f_startAge (fst (assemble_frame now1 b u e1)) = now1 - now
  /\ 0 <= f_startAge (fst (assemble_frame now1 b u e1)).
Proof.
  intros Hnow Hnow1 Hprev e1. subst e1.
  unfold handle_start_edge, start_edge. rewrite Hprev. simpl.
  unfold assemble_frame. simpl. rewrite (to_int32_small now) by lia.
  destruct (Z.leb_spec 0 now); [|lia]. simpl.
  rewrite (u32_small now) by lia. rewrite to_int32_small by lia. lia.
Qed.

(** From [2^31] ms of uptime on, the start edge stores a negative
    [startTimestamp], and [pollUWB] takes it for "none pending": every
    later frame carries [-1]. *)
Lemma start_edge_lost (now now1 b u : Z) (e : StartEdge) :
  2 ^ 31 <= now < 2 ^ 32 -> prevStartTriggered e = false ->
  let e1 := handle_start_edge now true e in
  startTimestamp e1 < 0
  /\ f_startAge (fst (assemble_frame now1 b u e1)) = -1
  /\ snd (assemble_frame now1 b u e1) = e1.
Proof.
  intros Hnow Hprev e1. subst e1.
  unfold handle_start_edge, start_edge. rewrite Hprev. simpl.
  unfold assemble_frame. simpl. rewrite (to_int32_high now) by lia.
  destruct (Z.leb_spec 0 (now - 2 ^ 32)); [lia|]. simpl.
  repeat split. lia.
Qed.

(** C3 (where the code departs from it). A paired device that has been up
    for [2^31] ms sees a crossing: the detector triggers, the start edge
    fires, but the timestamp it stores is negative, and the frame sent 300
    ms later carries the age [FFFFFFFF], that is [-1]: the start event is
    not reported. *)
Theorem start_event_lost_at_2p31 :
  let passes :=
    [OpLoop (quiet_pass (2 ^ 31 - 40) (Some 1830));
     OpLoop (quiet_pass (2 ^ 31 - 20) (Some 1000));
     OpLoop (quiet_pass (2 ^ 31) None)] in
  let s3 := device_of (run passes (Returned demo_device)) in
  let s4 := device_of (loop (quiet_pass (2 ^ 31 + 300) None) s3) in
  powerState (power s3) = AWAKE_RUNNING
  /\ tStartTriggeredTime (edge s3) = 2 ^ 31
  /\ startTimestamp (edge s3) = - 2 ^ 31
  /\ last (uwb_tx (uart (radio s4)))
     = Some "AT+TAG_SEND=ANCH0001,7,64FFFFFFFFFFFF"
  /\ length (uwb_tx (uart (radio s4)))
     = S (length (uwb_tx (uart (radio s3)))).
Proof. vm_compute. repeat split; reflexivity. Qed.

(** ** Pairing writes *)

Lemma sendAT_tx cmd timeoutMs waitForOK u :
  uwb_tx (snd (sendAT cmd timeoutMs waitForOK u)) = (uwb_tx u ++ [cmd])%list.
Proof.
  unfold sendAT, uart_next, uart_print. simpl.
  destruct (uwb_io u); reflexivity.
Qed.

(** The configuration sequence: five commands, in this order, whatever the
    module answers. *)
Lemma configureUWB_tx network my_address u :
  uwb_tx (configureUWB network my_address u)
  = (uwb_tx u ++ ["AT"; "AT+MODE=0"; "AT+NETWORKID=" +:+ network;
                   "AT+ADDRESS=" +:+ my_address; "AT+RSSI=1"])%list.
Proof.
  unfold configureUWB. rewrite !sendAT_tx, <- !app_assoc. reflexivity.
Qed.

Lemma extract_field_absent key v :
  contains v (quoted key) = false -> extract_field key v = None.
Proof.
  unfold contains, extract_field.
  destruct (String.index 0 (quoted key) v); [discriminate|reflexivity].
Qed.

(** C4. For every payload written to the network-config characteristic:
    each field is extracted on its own, and a field whose quoted name is
    not in the payload leaves its in-memory value as it was; and whatever
    was found, the handler stores the two strings and [paired = true] in
    the NVS, sets [isPaired], sends the UWB configuration sequence with
    the network now in memory, sets the status characteristic and notifies
    it to the connected client, and puts the device in standby. *)
Theorem network_cfg_write (v : string) (s : Device) :
  let s' := NetworkCfgCB_handleWrite v s in
  let network := ANCHOR_UWB_NETWORK (pairing s') in
  let anchor := ANCHOR_UWB_ADDRESS (pairing s') in
  let js := snprintf 256 (paired_json network anchor) in
  network = from_option strncpy16 (ANCHOR_UWB_NETWORK (pairing s))
              (extract_field "network_id" v)
  /\ anchor = from_option strncpy16 (ANCHOR_UWB_ADDRESS (pairing s))
                (extract_field "anchor_address" v)
  /\ (contains v (quoted "network_id") = false ->
      network = ANCHOR_UWB_NETWORK (pairing s))
  /\ (contains v (quoted "anchor_address") = false ->
      anchor = ANCHOR_UWB_ADDRESS (pairing s))
  /\ prefs (pairing s') !! "uwb_network" = Some (PString network)
  /\ prefs (pairing s') !! "anchor_addr" = Some (PString anchor)
  /\ prefs (pairing s') !! "paired" = Some (PBool true)
  /\ isPaired (pairing s') = true
  /\ uwb_tx (uart (radio s'))
     = (uwb_tx (uart (radio s))
        ++ ["AT"; "AT+MODE=0"; "AT+NETWORKID=" +:+ network;
            "AT+ADDRESS=" +:+ MY_UWB_ADDRESS s; "AT+RSSI=1"])%list
  /\ (chStatus (ble s) <> None -> chStatus (ble s') = Some js)
  /\ (chStatus (ble s) <> None -> bleClientConnected (ble s) = true ->
      notified (ble s') = (notified (ble s) ++ [js])%list)
  /\ powerState (power s') = AWAKE_STANDBY.
Proof.
  intros s' network anchor js. subst js anchor network s'.
  unfold NetworkCfgCB_handleWrite. cbn [pairing ANCHOR_UWB_NETWORK
    ANCHOR_UWB_ADDRESS isPaired prefs radio ble power].
  repeat apply conj.
  - destruct (extract_field "network_id" v); reflexivity.
  - destruct (extract_field "anchor_address" v); reflexivity.
  - intros H. now rewrite (extract_field_absent _ _ H).
  - intros H. now rewrite (extract_field_absent _ _ H).
  - rewrite lookup_insert_ne by discriminate.
    rewrite lookup_insert_ne by discriminate. apply lookup_insert_eq.
  - rewrite lookup_insert_ne by discriminate. apply lookup_insert_eq.
  - apply lookup_insert_eq.
  - reflexivity.
  - simpl. apply configureUWB_tx.
  - intros H. unfold status_set_notify.
    destruct (chStatus (ble s)); [reflexivity|congruence].
  - intros H Hc. unfold status_set_notify.
    destruct (chStatus (ble s)); [|congruence]. simpl. now rewrite Hc.
  - reflexivity.
Qed.

Lemma network_cfg_write_witness :
  let v := "{" +:+ quoted "network_id" +:+ ":" +:+ quoted "REYAX999" +:+ "}" in
  let s' := NetworkCfgCB_handleWrite v demo_connected in
  ANCHOR_UWB_NETWORK (pairing s') = "REYAX999"
  /\ ANCHOR_UWB_ADDRESS (pairing s') = "ANCH0001"
  /\ notified (ble s')
     = [snprintf 256 (paired_json "REYAX999" "ANCH0001")].
Proof.
  intros v s'.
  destruct (network_cfg_write v demo_connected)
    as (Hn & _ & _ & Ha & _ & _ & _ & _ & _ & _ & Hnot & _).
  fold s' in Hn, Ha, Hnot. split; [|split].
  - rewrite Hn. vm_compute. reflexivity.
  - rewrite Ha; [vm_compute; reflexivity|]. vm_compute. reflexivity.
  - rewrite Hnot.
    + rewrite Hn, Ha; [vm_compute; reflexivity|]. vm_compute. reflexivity.
    + vm_compute. discriminate.
    + vm_compute. reflexivity.
Defined.

(** ** Unpairing *)

(** C10. A control write that takes the unpair branch clears the two peer
    strings, removes the two persisted strings, stores and sets
    [paired = false] and puts the acknowledgement in the status
    characteristic; every other NVS key, the power state, the detector, the
    start-edge globals, the radio globals (the UART among them: no command
    is sent to the module) and the loop statics are left as they were. *)
Theorem unpair_frame (v : string) (s : Device) :
  contains v (quoted "enter_pairing_mode" +:+ ":true") = false ->
  contains v (quoted "pairing" +:+ ":true") = false ->
  contains v (quoted "unpair" +:+ ":true") = true ->
  let s' := CtrlCB_handleWrite v s in
  ANCHOR_UWB_NETWORK (pairing s') = ""
  /\ ANCHOR_UWB_ADDRESS (pairing s') = ""
  /\ isPaired (pairing s') = false
  /\ prefs (pairing s') !! "uwb_network" = None
  /\ prefs (pairing s') !! "anchor_addr" = None
  /\ prefs (pairing s') !! "paired" = Some (PBool false)
  /\ (forall k : string,
        k <> "uwb_network" -> k <> "anchor_addr" -> k <> "paired" ->
        prefs (pairing s') !! k = prefs (pairing s) !! k)
  /\ ble s' = status_set_notify (ack_json "unpaired") (ble s)
  /\ power s' = power s
  /\ det s' = det s /\ tof_cm s' = tof_cm s /\ edge s' = edge s
  /\ radio s' = radio s
  /\ MY_UWB_ADDRESS s' = MY_UWB_ADDRESS s
  /\ statics s' = statics s.
Proof.
  intros H1 H2 H3 s'. subst s'. unfold CtrlCB_handleWrite.
  rewrite H1, H2, H3. cbn [orb pairing ANCHOR_UWB_NETWORK ANCHOR_UWB_ADDRESS
    isPaired prefs ble power det tof_cm edge radio MY_UWB_ADDRESS statics].
  repeat apply conj; try reflexivity.
  - rewrite lookup_insert_ne by discriminate.
    rewrite lookup_delete_ne by discriminate. apply lookup_delete_eq.
  - rewrite lookup_insert_ne by discriminate. apply lookup_delete_eq.
  - apply lookup_insert_eq.
  - intros k Hk1 Hk2 Hk3.
    rewrite lookup_insert_ne by congruence.
    rewrite lookup_delete_ne by congruence.
    now rewrite lookup_delete_ne by congruence.
Qed.

Lemma unpair_frame_witness :
  let v := "{" +:+ quoted "unpair" +:+ ":true}" in
  let s' := CtrlCB_handleWrite v demo_connected in
  isPaired (pairing s') = false
  /\ prefs (pairing s') !! "uwb_network" = None
  /\ power s' = power demo_connected
  /\ radio s' = radio demo_connected.
Proof.
  intros v s'.
  destruct (unpair_frame v demo_connected)
    as (_ & _ & Hp & Hn & _ & _ & _ & _ & Hpw & _ & _ & _ & Hr & _).
  - vm_compute. reflexivity.
  - vm_compute. reflexivity.
  - vm_compute. reflexivity.
  - fold s' in Hp, Hn, Hpw, Hr. auto.
Defined.

(** ** Waiting for the module's answer *)

Lemma append_nil_r (s : string) : s +:+ "" = s.
Proof.
  induction s as [|c s IH]; [reflexivity|].
  cbv [append]. fold append. now rewrite IH.
Qed.

Lemma append_assoc (a b c : string) : (a +:+ b) +:+ c = a +:+ (b +:+ c).
Proof.
  induction a as [|x a IH]; [reflexivity|].
  cbv [append]. fold append. now rewrite IH.
Qed.

Lemma append_snoc (a : string) (c : ascii) (b : string) :
  (a +:+ String c "") +:+ b = a +:+ String c b.
Proof. now rewrite append_assoc. Qed.

Lemma length_append (a b : string) :
  String.length (a +:+ b) = (String.length a + String.length b)%nat.
Proof.
  induction a as [|x a IH]; [reflexivity|].
  cbv [append]. fold append. simpl. now rewrite IH.
Qed.

Lemma length_repeat_char (c : ascii) (n : nat) :
  String.length (repeat_char c n) = n.
Proof. induction n as [|n IH]; simpl; [reflexivity|now rewrite IH]. Qed.

(** Draining two chunks in a row is draining their concatenation. *)
Lemma drain_app (w : bool) (line a b : string) :
  drain w line (a +:+ b)
  = match drain w line a with
    | (Some r, l) => (Some r, l)
    | (None, l) => drain w l b
    end.
Proof.
  revert line. induction a as [|c a IH]; intros line; [reflexivity|].
  cbv [append]. fold append. cbn [drain].
  destruct (Ascii.eqb c LF).
  - destruct (startsWith (trim line) "+READY"); [reflexivity|].
    destruct w; [|reflexivity].
    destruct (startsWith (trim line) "+OK"); [reflexivity|].
    destruct (startsWith (trim line) "+ERR"); [reflexivity|apply IH].
  - destruct (negb (Ascii.eqb c CR)); apply IH.
Qed.

(** Bytes without a line feed only extend the line buffer. *)
Lemma drain_no_lf (w : bool) (line body : string) :
  has_lf body = false -> drain w line body = (None, line +:+ strip_cr body).
Proof.
  revert line. induction body as [|c body IH]; intros line H.
  - simpl. now rewrite append_nil_r.
  - simpl in H. apply orb_false_iff in H as [Hc Hb].
    cbn [drain strip_cr]. rewrite Hc.
    destruct (Ascii.eqb c CR); cbn [negb]; rewrite IH by exact Hb;
      [reflexivity|now rewrite append_snoc].
Qed.

(** A line that starts with ["+READY"] ends the wait with success. *)
Lemma drain_ready (w : bool) (line rest : string) :
  startsWith (trim line) "+READY" = true ->
  fst (drain w line (String LF rest)) = Some true.
Proof. intros H. cbn [drain]. rewrite Ascii.eqb_refl, H. reflexivity. Qed.

(** While the polls come before the timeout, the wait sees their bytes as
    one stream. *)
Lemma sendAT_wait_in_time (start timeoutMs : Z) (w : bool)
    (polls after : list (Z * string)) (line : string) :
  in_time start timeoutMs polls ->
  sendAT_wait start timeoutMs w line (polls ++ after)
  = match drain w line (poll_bytes polls) with
    | (Some b, l) => (b, l)
    | (None, l) => sendAT_wait start timeoutMs w l after
    end.
Proof.
  revert line. induction polls as [|[t chunk] polls IH]; intros line Hin.
  - reflexivity.
  - apply Forall_cons in Hin as [Ht Hin]. simpl in Ht.
    cbn [app sendAT_wait poll_bytes]. rewrite drain_app.
    destruct (Z.ltb_spec (u32 (t - start)) timeoutMs); [|lia].
    destruct (drain w line chunk) as [[b|] l]; [reflexivity|].
    now apply IH.
Qed.

(** C9. Whatever [waitForOK] is: when the bytes read before the timeout
    hold a line that starts with ["+READY"] (after trimming), and the bytes
    before that line left the call waiting at the start of a line -- no
    ["+OK"] among them -- [sendAT] returns [true] at the end of that
    line. *)
Theorem sendAT_ready_returns_true
    (cmd : string) (timeoutMs : Z) (waitForOK : bool) (u : Uart)
    (start : Z) (polls after : list (Z * string)) (ios : list Sched)
    (pre body rest : string) :
  uwb_io u = {| sched_start := start; sched_polls := polls ++ after |} :: ios ->
  in_time start timeoutMs polls ->
  poll_bytes polls = pre +:+ body +:+ String LF rest ->
  drain waitForOK "" pre = (None, "") ->
  has_lf body = false ->
  startsWith (trim (strip_cr body)) "+READY" = true ->
  fst (sendAT cmd timeoutMs waitForOK u) = true.
Proof.
  intros Hio Hin Hbytes Hpre Hbody Hready.
  unfold sendAT, uart_next, uart_print. cbn [uwb_io]. rewrite Hio.
  cbn [fst snd sched_start sched_polls].
  rewrite (sendAT_wait_in_time _ _ _ _ _ _ Hin), Hbytes.
  rewrite drain_app, Hpre, drain_app, (drain_no_lf _ _ _ Hbody).
  pose proof (drain_ready waitForOK ("" +:+ strip_cr body) rest Hready) as H.
  destruct (drain waitForOK ("" +:+ strip_cr body) (String LF rest))
    as [[b|] l]; simpl in H; [|discriminate].
  now injection H as ->.
Qed.

Lemma sendAT_ready_returns_true_witness :
  fst (sendAT "AT+MODE=0" 2000 true
         {| uwb_tx := [];
            uwb_io := [{| sched_start := 1000;
                          sched_polls :=
                            [(1004, "+REA");
                             (1005, "DY" +:+ String CR (String LF ""))] |}] |})
  = true.
Proof.
  apply (sendAT_ready_returns_true _ _ _ _ 1000
           [(1004, "+REA"); (1005, "DY" +:+ String CR (String LF ""))] [] []
           "" ("+READY" +:+ String CR "") "").
  - reflexivity.
  - unfold in_time. repeat constructor; vm_compute; reflexivity.
  - reflexivity.
  - reflexivity.
  - reflexivity.
  - reflexivity.
Defined.

(** ** Line buffers *)

Lemma repeat_char_plain (n : nat) :
  has_lf (repeat_char "A" n) = false
  /\ strip_cr (repeat_char "A" n) = repeat_char "A" n.
Proof.
  induction n as [|n [IH1 IH2]]; [split; reflexivity|].
  split; simpl; [exact IH1|now rewrite IH2].
Qed.

(** The receive loop of [pollUWB] never lets its line buffer grow past 120
    characters. *)
Lemma poll_rx_line_bound (rx line : string) (dist : Z) :
  (String.length line <= 120)%nat ->
  (String.length (fst (poll_rx line dist rx)) <= 120)%nat.
Proof.
  revert line dist. induction rx as [|c rx IH]; intros line dist H; [exact H|].
  cbn [poll_rx]. destruct (Ascii.eqb c CR || Ascii.eqb c LF).
  - apply IH. simpl. lia.
  - apply IH. destruct (Nat.ltb_spec (String.length line) 120); [|exact H].
    rewrite length_append. simpl. lia.
Qed.

Lemma pollUWB_line_bound now rx paired anchor b e (r : Radio) :
  (String.length (rx_line r) <= 120)%nat ->
  (String.length (rx_line (snd (pollUWB now rx paired anchor b e r)))
   <= 120)%nat.
Proof.
  intros H. unfold pollUWB, pollUWB_send.
  destruct (paired && (300 <=? u32 (now - lastSend r))).
  - destruct (assemble_frame _ _ _ _) as [f e']. unfold pollUWB_recv. simpl.
    pose proof (poll_rx_line_bound rx (rx_line r) (uwb_distance_cm r) H) as Hb.
    destruct (poll_rx _ _ _). exact Hb.
  - unfold pollUWB_recv. simpl.
    pose proof (poll_rx_line_bound rx (rx_line r) (uwb_distance_cm r) H) as Hb.
    destruct (poll_rx _ _ _). exact Hb.
Qed.

(** C8 (where the code departs from it). [sendAT] keeps every byte of an
    unterminated line: after [n] bytes without a line feed, read before the
    timeout, its line buffer holds [n] characters, for every [n]. Nothing
    truncates it; only [pollUWB] caps its buffer, at 120. *)
Theorem sendAT_line_unbounded (n : nat) :
  sendAT_wait 0 2000 true "" [(0, repeat_char "A" n)]
  = (false, repeat_char "A" n)
  /\ String.length (snd (sendAT_wait 0 2000 true "" [(0, repeat_char "A" n)]))
     = n.
Proof.
  destruct (repeat_char_plain n) as [Hlf Hcr].
  assert (sendAT_wait 0 2000 true "" [(0, repeat_char "A" n)]
          = (false, repeat_char "A" n)) as H.
  { cbn [sendAT_wait]. change (u32 (0 - 0) <? 2000) with true. cbn iota.
    rewrite (drain_no_lf _ _ _ Hlf), Hcr. reflexivity. }
  rewrite H. split; [reflexivity|apply length_repeat_char].
Qed.

(** ** Mode transitions *)



Lemma mode_loop_sense i s :
  mode_of_device (loop_sense i s)
  = snd (fst (detect (in_now i) (tof_seen i s) (mode_of_device s) (det s))).
Proof.
  unfold mode_of_device, loop_sense, tof_seen.
  destruct (pollUWB _ _ _ _ _ _ _) as [[f e] r].
  destruct (detect _ _ _ _) as [[t ps] d']. reflexivity.
Qed.

(** The awake part of a pass runs the detection and start-edge blocks on
    the globals: [sense] is what [loop] does to them, up to the
    [startTimestamp] that [pollUWB] may have cleared just before. *)
Lemma loop_sense_detect i s :
  det (loop_sense i s)
  = snd (detect (in_now i) (tof_seen i s) (mode_of_device s) (det s))
  /\ prevStartTriggered (edge (loop_sense i s))
     = fst (fst (detect (in_now i) (tof_seen i s) (mode_of_device s) (det s))).
Proof.
  unfold mode_of_device, loop_sense, tof_seen.
  destruct (pollUWB _ _ _ _ _ _ _) as [[f e] r].
  destruct (detect _ _ _ _) as [[t ps] d']. cbn [det edge fst snd].
  unfold handle_start_edge. destruct (start_edge t e); auto.
Qed.

(** The battery refresh leaves mode, detector, sample and button statics
    alone, and makes the charger what [charger_seen] says. *)
Lemma awake_refresh_facts i s :
  let s1 := awake_refresh i s in
  mode_of_device s1 = mode_of_device s /\ det s1 = det s
  /\ tof_cm s1 = tof_cm s
  /\ awk_btnWasPressed (statics s1) = awk_btnWasPressed (statics s)
  /\ awk_btnPressStart (statics s1) = awk_btnPressStart (statics s).
Proof.
  unfold awake_refresh.
  destruct (5000 <=? u32 (in_now i - awk_lastBattUpdate (statics s)));
    simpl; auto.
Qed.

Lemma charging_refresh_facts i s :
  mode_of_device s = CHARGING ->
  let s1 := charging_refresh i s in
  mode_of_device s1 = CHARGING
  /\ chg_btnWasPressed (statics s1) = chg_btnWasPressed (statics s)
  /\ chg_btnPressStart (statics s1) = chg_btnPressStart (statics s)
  /\ isCharging (power s1) = charger_seen i s.
Proof.
  intros Hm. unfold charging_refresh, charger_seen, refresh_due.
  unfold mode_of_device in *. rewrite Hm.
  destruct (1000 <=? u32 (in_now i - chg_lastBattUpdate (statics s)));
    simpl; auto.
Qed.

Lemma loop_awake_mode i s :
  awake (mode_of_device s) = true -> loop i s = loop_awake i s.
Proof.
  unfold loop, mode_of_device.
  destruct (powerState (power s)); simpl; intros; congruence.
Qed.

Lemma loop_charging_mode i s :
  mode_of_device s = CHARGING -> loop i s = loop_charging i s.
Proof. unfold loop, mode_of_device. now intros ->. Qed.


Lemma mode_wake_from_charging s :
  mode_of_device (wake_from_charging s) = AWAKE_STANDBY.
Proof.
  unfold mode_of_device, wake_from_charging.
  destruct (uwbSync _) as [ok u]. reflexivity.
Qed.










(** A running device never holds [DEEP_SLEEP] in [powerState]: deep sleep
    is entered by [esp_deep_sleep_start], not by an assignment. *)
Lemma detect_mode_ok now tof ps d :
  ps <> DEEP_SLEEP -> snd (fst (detect now tof ps d)) <> DEEP_SLEEP.
Proof.
  intros H. unfold detect. repeat case_match; simpl; congruence.
Qed.

Lemma loop_charging_mode_ok i s :
  mode_of_device s = CHARGING -> mode_ok (device_of (loop_charging i s)).
Proof.
  intros Hm. unfold mode_ok, loop_charging. cbv zeta.
  destruct (charging_refresh_facts i s Hm) as (Hmode & _).
  repeat case_match; cbn [device_of].
  - discriminate.
  - rewrite mode_wake_from_charging. discriminate.
  - unfold mode_of_device, charging_note_button in *. cbn. congruence.
  - unfold mode_of_device, charging_note_button in *. cbn. congruence.
Qed.

Lemma loop_awake_mode_ok i s :
  awake (mode_of_device s) = true -> mode_ok (device_of (loop_awake i s)).
Proof.
  intros Hm. unfold mode_ok, loop_awake. cbv zeta.
  destruct (awake_refresh_facts i s) as (Hmode & _).
  assert (mode_of_device (awake_refresh i s) <> DEEP_SLEEP) as Hs
      by (rewrite Hmode; destruct (mode_of_device s); simpl in Hm; congruence).
  repeat case_match; cbn [device_of].
  - discriminate.
  - exact Hs.
  - rewrite mode_loop_sense. apply detect_mode_ok. exact Hs.
Qed.

Lemma loop_mode_ok i s : mode_ok s -> mode_ok (device_of (loop i s)).
Proof.
  intros H. unfold mode_ok in H.
  destruct (mode_of_device s) eqn:Hps; try congruence.
  - rewrite (loop_charging_mode _ _ Hps). now apply loop_charging_mode_ok.
  - rewrite loop_awake_mode by now rewrite Hps.
    apply loop_awake_mode_ok. now rewrite Hps.
  - rewrite loop_awake_mode by now rewrite Hps.
    apply loop_awake_mode_ok. now rewrite Hps.
  - unfold mode_ok, loop, loop_pairing. unfold mode_of_device in Hps.
    rewrite Hps. cbn [PowerState_eqb].
    case_match; cbn; unfold mode_of_device; cbn; congruence.
  - unfold mode_ok, loop. unfold mode_of_device in Hps. rewrite Hps.
    cbn. unfold mode_of_device. congruence.
Qed.

Lemma apply_op_mode_ok o s : mode_ok s -> mode_ok (device_of (apply_op o s)).
Proof.
  intros H. destruct o as [i| | |v|v]; simpl; try exact H.
  - now apply loop_mode_ok.
  - discriminate.
  - unfold CtrlCB_handleWrite. repeat case_match; try exact H. discriminate.
Qed.

Lemma setup_mode_ok b nvs io : mode_ok (device_of (setup b nvs io)).
Proof.
  unfold mode_ok, mode_of_device, setup, init_peripherals.
  repeat case_match; simpl; discriminate.
Qed.

Lemma running_mode_ok b nvs io ops :
  mode_ok (device_of (run ops (setup b nvs io))).
Proof.
  assert (forall ops o, mode_ok (device_of o) ->
                        mode_ok (device_of (run ops o))) as H.
  { clear ops. induction ops as [|op ops IH]; intros o Ho;
      [destruct o; exact Ho|].
    destruct o as [s|s]; simpl; [|exact Ho].
    apply IH. now apply apply_op_mode_ok. }
  apply H, setup_mode_ok.
Qed.



(** A network-config write puts a running device in standby. *)
Lemma network_write_leaves_running (v : string) (s : Device) :
  mode_of_device s = AWAKE_RUNNING ->
  mode_of_device (NetworkCfgCB_handleWrite v s) = AWAKE_STANDBY
  /\ spec_transition AWAKE_RUNNING EvPairingComplete = AWAKE_RUNNING.
Proof. intros _. split; reflexivity. Qed.



(** * Further properties *)

(** ** Strings *)

Lemma has_lf_app (a b : string) : has_lf (a +:+ b) = has_lf a || has_lf b.
Proof.
  induction a as [|c a IH]; [reflexivity|].
  change (String c a +:+ b) with (String c (a +:+ b)).
  cbn [has_lf]. rewrite IH. apply orb_assoc.
Qed.

(** ** Waiting for an answer *)

(** Bytes without a line feed never end the wait: the call runs into its
    timeout. *)
Lemma sendAT_wait_no_line (start timeoutMs : Z) (w : bool) (line : string)
    (polls : list (Z * string)) :
  has_lf (poll_bytes polls) = false ->
  fst (sendAT_wait start timeoutMs w line polls) = false.
Proof.
  revert line. induction polls as [|[t chunk] polls IH]; intros line H.
  - reflexivity.
  - cbn [sendAT_wait]. destruct (u32 (t - start) <? timeoutMs); [|reflexivity].
    cbn [poll_bytes] in H. rewrite has_lf_app in H.
    apply orb_false_iff in H as [Hc Hr].
    rewrite (drain_no_lf _ _ _ Hc). now apply IH.
Qed.

Lemma sendAT_unfold cmd timeoutMs w u :
  sendAT cmd timeoutMs w u
  = (fst (sendAT_wait (sched_start (next_sched u)) timeoutMs w ""
            (sched_polls (next_sched u))),
     snd (uart_next (uart_print cmd u))).
Proof.
  unfold sendAT, next_sched, uart_next, uart_print. cbn [uwb_io].
  destruct (uwb_io u); reflexivity.
Qed.

(** X1. When no line feed arrives, whatever else does, [sendAT] returns
    [false]; the command has been written once. *)
Theorem sendAT_times_out (cmd : string) (timeoutMs : Z) (w : bool) (u : Uart) :
  has_lf (poll_bytes (sched_polls (next_sched u))) = false ->
  fst (sendAT cmd timeoutMs w u) = false
  /\ uwb_tx (snd (sendAT cmd timeoutMs w u)) = (uwb_tx u ++ [cmd])%list.
Proof.
  intros H. split; [|apply sendAT_tx].
  rewrite sendAT_unfold. cbn [fst]. now apply sendAT_wait_no_line.
Qed.

Lemma sendAT_times_out_witness :
  fst (sendAT "AT" 500 true
         {| uwb_tx := [];
            uwb_io := [{| sched_start := 0;
                          sched_polls := [(1, "+O"); (2, "K")] |}] |})
  = false.
Proof.
  apply (sendAT_times_out "AT" 500 true). reflexivity.
Defined.

(** A line that is no answer is skipped, and the buffer starts afresh. *)
Lemma drain_skipped (l : string) :
  skipped_line l -> drain true "" (l +:+ String LF "") = (None, "").
Proof.
  intros [Hlf Hans]. rewrite drain_app, (drain_no_lf _ _ _ Hlf).
  cbn [drain]. rewrite Ascii.eqb_refl.
  change ("" +:+ strip_cr l) with (strip_cr l).
  unfold answer_of in Hans.
  destruct (startsWith (trim (strip_cr l)) "+READY"); [discriminate|].
  destruct (startsWith (trim (strip_cr l)) "+OK"); [discriminate|].
  destruct (startsWith (trim (strip_cr l)) "+ERR"); [discriminate|].
  reflexivity.
Qed.

Lemma drain_skipped_lines (ls : list string) :
  Forall skipped_line ls -> drain true "" (join_lines ls) = (None, "").
Proof.
  induction 1 as [|l ls Hl _ IH]; [reflexivity|].
  cbn [join_lines].
  change (l +:+ String LF (join_lines ls))
    with (l +:+ (String LF "" +:+ join_lines ls)).
  rewrite <- append_assoc, drain_app, (drain_skipped _ Hl). exact IH.
Qed.

(** The first answer ends the wait with its verdict. *)
Lemma drain_answer (body rest : string) (b : bool) :
  has_lf body = false -> answer_of (trim (strip_cr body)) = Some b ->
  fst (drain true "" (body +:+ String LF rest)) = Some b.
Proof.
  intros Hlf Hans. rewrite drain_app, (drain_no_lf _ _ _ Hlf).
  cbn [drain]. rewrite Ascii.eqb_refl.
  change ("" +:+ strip_cr body) with (strip_cr body).
  unfold answer_of in Hans.
  destruct (startsWith (trim (strip_cr body)) "+READY");
    [now injection Hans as <-|].
  destruct (startsWith (trim (strip_cr body)) "+OK");
    [now injection Hans as <-|].
  destruct (startsWith (trim (strip_cr body)) "+ERR");
    [now injection Hans as <-|discriminate].
Qed.

(** X2. A [sendAT] call that waits for an acknowledgement skips every line
    that is no answer and returns the verdict of the first line that is
    one, read before the timeout: [true] for ["+OK"] (or ["+READY"]),
    [false] for ["+ERR"], whatever follows it. *)
Theorem sendAT_first_answer_decides
    (cmd : string) (timeoutMs : Z) (u : Uart)
    (polls after : list (Z * string))
    (others : list string) (body rest : string) (b : bool) :
  sched_polls (next_sched u) = (polls ++ after)%list ->
  in_time (sched_start (next_sched u)) timeoutMs polls ->
  poll_bytes polls = join_lines others +:+ body +:+ String LF rest ->
  Forall skipped_line others ->
  has_lf body = false -> answer_of (trim (strip_cr body)) = Some b ->
  fst (sendAT cmd timeoutMs true u) = b.
Proof.
  intros Hio Hin Hbytes Hothers Hbody Hans.
  rewrite sendAT_unfold. cbn [fst]. rewrite Hio.
  rewrite (sendAT_wait_in_time _ _ _ _ _ _ Hin), Hbytes.
  rewrite drain_app, (drain_skipped_lines _ Hothers).
  pose proof (drain_answer body rest b Hbody Hans) as H.
  destruct (drain true "" (body +:+ String LF rest)) as [[r|] l];
    simpl in H; [|discriminate].
  now injection H as ->.
Qed.

Lemma sendAT_first_answer_decides_witness :
  fst (sendAT "AT+MODE=0" 2000 true
         {| uwb_tx := [];
            uwb_io :=
              [{| sched_start := 0;
                  sched_polls :=
                    [(3, "AT+MODE=0" +:+ String CR (String LF "+ERR=4")
                         +:+ String CR (String LF "+OK"
                         +:+ String CR (String LF "")))] |}] |})
  = false.
Proof.
  apply (sendAT_first_answer_decides _ _ _
           [(3, "AT+MODE=0" +:+ String CR (String LF "+ERR=4")
                +:+ String CR (String LF "+OK"
                +:+ String CR (String LF "")))] []
           ["AT+MODE=0" +:+ String CR ""] ("+ERR=4" +:+ String CR "")
           ("+OK" +:+ String CR (String LF ""))).
  - reflexivity.
  - unfold in_time. repeat constructor; vm_compute; reflexivity.
  - reflexivity.
  - repeat constructor; vm_compute; reflexivity.
  - reflexivity.
  - reflexivity.
Defined.

(** X3. A [sendAT] call that does not wait for an acknowledgement returns
    [true] at the first line feed read before the timeout, whatever the
    line says -- an error line included. *)
Theorem sendAT_no_wait_first_line
    (cmd : string) (timeoutMs : Z) (u : Uart)
    (polls after : list (Z * string)) (body rest : string) :
  sched_polls (next_sched u) = (polls ++ after)%list ->
  in_time (sched_start (next_sched u)) timeoutMs polls ->
  poll_bytes polls = body +:+ String LF rest ->
  has_lf body = false ->
  fst (sendAT cmd timeoutMs false u) = true.
Proof.
  intros Hio Hin Hbytes Hbody.
  rewrite sendAT_unfold. cbn [fst]. rewrite Hio.
  rewrite (sendAT_wait_in_time _ _ _ _ _ _ Hin), Hbytes.
  rewrite drain_app, (drain_no_lf _ _ _ Hbody). cbn [drain].
  rewrite Ascii.eqb_refl.
  destruct (startsWith (trim ("" +:+ strip_cr body)) "+READY"); reflexivity.
Qed.

Lemma sendAT_no_wait_first_line_witness :
  fst (sendAT "AT" 500 false
         {| uwb_tx := [];
            uwb_io := [{| sched_start := 0;
                          sched_polls :=
                            [(1, "+ERR=1" +:+ String LF "")] |}] |})
  = true.
Proof.
  apply (sendAT_no_wait_first_line _ _ _ [(1, "+ERR=1" +:+ String LF "")] []
           "+ERR=1" "").
  - reflexivity.
  - unfold in_time. repeat constructor; vm_compute; reflexivity.
  - reflexivity.
  - reflexivity.
Defined.

(** X4. An answer that comes once the timeout has elapsed is not read: if
    the polls before it brought no line feed, [sendAT] returns [false]. *)
Theorem sendAT_late_answer
    (cmd : string) (timeoutMs : Z) (w : bool) (u : Uart)
    (polls after : list (Z * string)) (t : Z) (chunk : string) :
  sched_polls (next_sched u) = (polls ++ (t, chunk) :: after)%list ->
  in_time (sched_start (next_sched u)) timeoutMs polls ->
  has_lf (poll_bytes polls) = false ->
  timeoutMs <= u32 (t - sched_start (next_sched u)) ->
  fst (sendAT cmd timeoutMs w u) = false.
Proof.
  intros Hio Hin Hbytes Hlate.
  rewrite sendAT_unfold. cbn [fst]. rewrite Hio.
  rewrite (sendAT_wait_in_time _ _ _ _ _ _ Hin), (drain_no_lf _ _ _ Hbytes).
  cbn [sendAT_wait].
  destruct (Z.ltb_spec (u32 (t - sched_start (next_sched u))) timeoutMs);
    [lia|reflexivity].
Qed.

Lemma sendAT_late_answer_witness :
  fst (sendAT "AT" 500 true
         {| uwb_tx := [];
            uwb_io := [{| sched_start := 100;
                          sched_polls :=
                            [(300, "+O");
                             (600, "K" +:+ String LF "")] |}] |})
  = false.
Proof.
  apply (sendAT_late_answer _ _ _ _ [(300, "+O")] [] 600 ("K" +:+ String LF "")).
  - reflexivity.
  - unfold in_time. repeat constructor; vm_compute; reflexivity.
  - reflexivity.
  - vm_compute. discriminate.
Defined.

(** ** Module sync *)

Lemma sendAT_io cmd timeoutMs w u :
  uwb_io (snd (sendAT cmd timeoutMs w u)) = drop 1 (uwb_io u).
Proof.
  unfold sendAT, uart_next, uart_print. cbn [uwb_io].
  destruct (uwb_io u); reflexivity.
Qed.

Lemma uwbSync_attempts_spec (n : nat) (u : Uart) :
  let k := probes_sent n u in
  (k <= n)%nat
  /\ uwb_tx (snd (uwbSync_attempts n u)) = (uwb_tx u ++ replicate k "AT")%list
  /\ uwb_io (snd (uwbSync_attempts n u)) = drop k (uwb_io u)
  /\ (fst (uwbSync_attempts n u) = true -> (1 <= k)%nat)
  /\ (fst (uwbSync_attempts n u) = false -> k = n).
Proof.
  revert u. induction n as [|n IH]; intros u;
    cbn [probes_sent uwbSync_attempts].
  - cbn. rewrite app_nil_r.
    split; [lia|]. split; [reflexivity|]. split; [reflexivity|].
    split; [discriminate|reflexivity].
  - pose proof (sendAT_tx "AT" 500 true u) as Htx.
    pose proof (sendAT_io "AT" 500 true u) as Hio.
    destruct (sendAT "AT" 500 true u) as [ok u']. cbn [snd] in Htx, Hio.
    destruct ok.
    + cbn [fst snd replicate]. rewrite Htx, Hio.
      split; [lia|]. split; [reflexivity|]. split; [reflexivity|].
      split; [intros; lia|discriminate].
    + destruct (IH u') as (Hk & Ht & Hi & Hs & Hf).
      rewrite Ht, Hi, Htx, Hio. cbn [replicate].
      rewrite <- app_assoc, drop_drop. cbn [app].
      split; [lia|]. split; [reflexivity|]. split; [reflexivity|].
      split; [intros; lia|]. intros H. now rewrite (Hf H).
Qed.

(** X5. [uwbSync] probes the module with ["AT"] at most five times and
    stops at the first probe that is answered: it writes between one and
    five probes and nothing else, uses up one set of observations per
    probe, and reports failure only after exactly five probes. *)
Theorem uwbSync_bounded (u : Uart) :
  let k := probes_sent 5 u in
  (1 <= k <= 5)%nat
  /\ uwb_tx (snd (uwbSync u)) = (uwb_tx u ++ replicate k "AT")%list
  /\ uwb_io (snd (uwbSync u)) = drop k (uwb_io u)
  /\ (fst (uwbSync u) = false -> k = 5%nat).
Proof.
  destruct (uwbSync_attempts_spec 5 u) as (Hk & Ht & Hi & Hs & Hf).
  unfold uwbSync. split; [|auto].
  split; [|exact Hk].
  destruct (fst (uwbSync_attempts 5 u)) eqn:E; [now apply Hs|].
  rewrite (Hf eq_refl). lia.
Qed.

(** X6. A module that answers no probe with a line makes [uwbSync] fail,
    after exactly five probes. *)
Theorem uwbSync_silent (u : Uart) :
  Forall (fun io => has_lf (poll_bytes (sched_polls io)) = false)
    (take 5 (uwb_io u)) ->
  fst (uwbSync u) = false
  /\ uwb_tx (snd (uwbSync u)) = (uwb_tx u ++ replicate 5 "AT")%list.
Proof.
  intros H.
  assert (forall n u, Forall (fun io => has_lf (poll_bytes (sched_polls io))
                                         = false) (take n (uwb_io u)) ->
                      fst (uwbSync_attempts n u) = false) as Hall.
  { clear. induction n as [|n IH]; intros u H; [reflexivity|].
    cbn [uwbSync_attempts].
    assert (has_lf (poll_bytes (sched_polls (next_sched u))) = false) as Hn.
    { unfold next_sched, uart_next. destruct (uwb_io u) as [|io ios];
        [reflexivity|]. cbn in H. now apply Forall_cons in H as [H _]. }
    assert (fst (sendAT "AT" 500 true u) = false) as Hf
        by (rewrite sendAT_unfold; cbn [fst]; now apply sendAT_wait_no_line).
    pose proof (sendAT_io "AT" 500 true u) as Hio.
    destruct (sendAT "AT" 500 true u) as [ok u']. cbn [fst snd] in *.
    subst ok. apply IH. rewrite Hio.
    destruct (uwb_io u) as [|io ios];
      [cbn [drop]; rewrite take_nil; constructor|].
    cbn in H. apply Forall_cons in H as [_ H]. exact H. }
  specialize (Hall 5%nat u H).
  destruct (uwbSync_attempts_spec 5 u) as (_ & Ht & _ & _ & Hf).
  split; [exact Hall|]. unfold uwbSync. rewrite Ht, (Hf Hall). reflexivity.
Qed.

Lemma uwbSync_silent_witness :
  fst (uwbSync {| uwb_tx := []; uwb_io := [] |}) = false.
Proof.
  apply (uwbSync_silent {| uwb_tx := []; uwb_io := [] |}). constructor.
Defined.

(** ** Telemetry frame *)

Lemma length_hex_fixed (n : nat) (z : Z) : String.length (hex_fixed n z) = n.
Proof.
  revert z. induction n as [|n IH]; intros z; [reflexivity|].
  cbn [hex_fixed]. rewrite length_append, IH. simpl. lia.
Qed.

Lemma hex_digit_roundtrip (v : Z) :
  0 <= v < 16 -> hex_digit_value (hex_digit v) = Some v.
Proof.
  intros H.
  assert (v = 0 \/ v = 1 \/ v = 2 \/ v = 3 \/ v = 4 \/ v = 5 \/ v = 6
          \/ v = 7 \/ v = 8 \/ v = 9 \/ v = 10 \/ v = 11 \/ v = 12
          \/ v = 13 \/ v = 14 \/ v = 15) as Hv by lia.
  repeat (destruct Hv as [->|Hv]; [reflexivity|]). subst. reflexivity.
Qed.

Lemma hex_value_app (a b : string) (acc : Z) :
  hex_value acc (a +:+ b)
  = match hex_value acc a with
    | Some v => hex_value v b
    | None => None
    end.
Proof.
  revert acc. induction a as [|c a IH]; intros acc; [reflexivity|].
  change (String c a +:+ b) with (String c (a +:+ b)). cbn [hex_value].
  destruct (hex_digit_value c); [apply IH|reflexivity].
Qed.

(** Reading back [n] digits gives the value modulo [16^n]. *)
Lemma hex_value_fixed (n : nat) (z acc : Z) :
  hex_value acc (hex_fixed n z)
  = Some (acc * 16 ^ Z.of_nat n + z mod 16 ^ Z.of_nat n).
Proof.
  revert z acc. induction n as [|n IH]; intros z acc.
  - cbn. f_equal. rewrite Z.mod_1_r. lia.
  - cbn [hex_fixed]. rewrite hex_value_app, IH. cbn [hex_value].
    rewrite hex_digit_roundtrip by (apply Z.mod_pos_bound; lia).
    f_equal. rewrite Nat2Z.inj_succ, Z.pow_succ_r by lia.
    pose proof (Z.pow_pos_nonneg 16 (Z.of_nat n) ltac:(lia) ltac:(lia)) as Hp.
    rewrite (Z.rem_mul_r z 16 (16 ^ Z.of_nat n)) by lia. ring.
Qed.

Lemma substring_app_l (a b : string) :
  substring 0 (String.length a) (a +:+ b) = a.
Proof.
  induction a as [|c a IH]; [destruct b; reflexivity|].
  change (String c a +:+ b) with (String c (a +:+ b)). cbn. now rewrite IH.
Qed.

Lemma substring_app_skip (a b : string) (n m : nat) :
  substring (String.length a + n) m (a +:+ b) = substring n m b.
Proof.
  induction a as [|c a IH]; [reflexivity|].
  change (String c a +:+ b) with (String c (a +:+ b)). cbn. exact IH.
Qed.

Lemma substring_all (a : string) : substring 0 (String.length a) a = a.
Proof. induction a as [|c a IH]; [reflexivity|]. cbn. now rewrite IH. Qed.

Lemma to_int32_bounds (z : Z) : - 2 ^ 31 <= to_int32 z < 2 ^ 31.
Proof.
  unfold to_int32. pose proof (u32_bounds z).
  destruct (Z.ltb_spec (u32 z) (2 ^ 31)); lia.
Qed.

Lemma to_int32_u32 (a : Z) : - 2 ^ 31 <= a < 2 ^ 31 -> to_int32 (u32 a) = a.
Proof.
  intros H. unfold to_int32. cbv zeta.
  assert (u32 (u32 a) = u32 a) as -> by (unfold u32; apply Z.mod_mod; lia).
  destruct (Z_lt_le_dec a 0) as [Hneg|Hpos].
  - assert (u32 a = a + 2 ^ 32) as ->.
    { unfold u32. symmetry. apply (Z.mod_unique_pos a (2 ^ 32) (-1)); lia. }
    destruct (Z.ltb_spec (a + 2 ^ 32) (2 ^ 31)); lia.
  - rewrite u32_small by lia. destruct (Z.ltb_spec a (2 ^ 31)); lia.
Qed.

(** The three fields are read back from the 14 digits. *)
Lemma frame_of_hex_frame_hex (f : Frame) :
  frame_of_hex (frame_hex f)
  = Some {| f_battery := f_battery f mod 2 ^ 8;
            f_distance := f_distance f mod 2 ^ 16;
            f_startAge := to_int32 (u32 (f_startAge f)) |}.
Proof.
  unfold frame_of_hex, frame_hex.
  set (h2 := hex_fixed 2 (f_battery f)).
  set (h4 := hex_fixed 4 (f_distance f)).
  set (h8 := hex_fixed 8 (u32 (f_startAge f))).
  assert (String.length h2 = 2%nat) as L2 by apply length_hex_fixed.
  assert (String.length h4 = 4%nat) as L4 by apply length_hex_fixed.
  assert (String.length h8 = 8%nat) as L8 by apply length_hex_fixed.
  rewrite !length_append, L2, L4, L8. cbn [Nat.add Nat.eqb].
  assert (substring 0 2 (h2 +:+ h4 +:+ h8) = h2) as ->
      by (rewrite <- L2 at 1; apply substring_app_l).
  assert (substring 2 4 (h2 +:+ h4 +:+ h8) = h4) as ->.
  { change 2%nat with (2 + 0)%nat. rewrite <- L2 at 1.
    rewrite substring_app_skip. rewrite <- L4 at 1. apply substring_app_l. }
  assert (substring 6 8 (h2 +:+ h4 +:+ h8) = h8) as ->.
  { change 6%nat with (2 + 4)%nat. rewrite <- L2 at 1.
    rewrite substring_app_skip. change 4%nat with (4 + 0)%nat.
    rewrite <- L4 at 1. rewrite substring_app_skip.
    rewrite <- L8 at 1. apply substring_all. }
  subst h2 h4 h8. rewrite !hex_value_fixed. cbn [Z.of_nat Pos.of_succ_nat
    Pos.succ]. do 2 f_equal; try reflexivity.
  rewrite Z.mul_0_l, Z.add_0_l. f_equal. apply Z.mod_small. apply u32_bounds.
Qed.

(** X7. The frame [pollUWB] assembles is written as exactly 14 hexadecimal
    digits, and reading them back by the documented layout gives the frame
    again: battery, distance (or the sentinel 65535) and the start age (or
    [-1]), with its sign. *)
Theorem frame_roundtrip (now batteryPercent uwb_distance_cm : Z)
    (e : StartEdge) :
  0 <= batteryPercent < 2 ^ 8 ->
  let f := fst (assemble_frame now batteryPercent uwb_distance_cm e) in
  String.length (frame_hex f) = 14%nat
  /\ frame_of_hex (frame_hex f) = Some f.
Proof.
  intros Hb f. split.
  - unfold frame_hex. rewrite !length_append, !length_hex_fixed. reflexivity.
  - rewrite frame_of_hex_frame_hex. f_equal.
    assert (f_battery f = batteryPercent) as Eb
        by (subst f; unfold assemble_frame; case_match; reflexivity).
    assert (0 <= f_distance f < 2 ^ 16) as Hd.
    { subst f. unfold assemble_frame.
      pose proof (u16_bounds uwb_distance_cm).
      repeat case_match; cbn [fst f_distance]; lia. }
    assert (- 2 ^ 31 <= f_startAge f < 2 ^ 31) as Ha.
    { subst f. unfold assemble_frame.
      pose proof (to_int32_bounds (now - u32 (startTimestamp e))).
      case_match; cbn [fst f_startAge]; lia. }
    destruct f as [b d a]. cbn [f_battery f_distance f_startAge] in *.
    rewrite to_int32_u32 by exact Ha. rewrite !Z.mod_small by lia.
    reflexivity.
Qed.

Lemma frame_roundtrip_witness :
  frame_of_hex "64012C00000104"
  = Some {| f_battery := 100; f_distance := 300; f_startAge := 260 |}.
Proof.
  destruct (frame_roundtrip 1260 100 300
              {| prevStartTriggered := false; tStartTriggeredTime := 1000;
                 startTimestamp := 1000 |}) as [_ H]; [lia|].
  exact H.
Defined.

(** ** Invariants of a running device *)

Lemma length_substring_le (n m : nat) (s : string) :
  (String.length (substring n m s) <= m)%nat.
Proof.
  revert n m. induction s as [|c s IH]; intros [|n] [|m]; cbn; try lia.
  - specialize (IH 0%nat m). lia.
  - apply (IH n 0%nat).
  - apply (IH n (S m)).
Qed.

Lemma strncpy16_fits (x : string) : fits16 (strncpy16 x).
Proof. apply length_substring_le. Qed.

Lemma c_str_prefix (x : string) (m : nat) :
  c_str (substring 0 m (c_str x)) = substring 0 m (c_str x).
Proof.
  revert m. induction x as [|c x IH]; intros [|m]; cbn; try reflexivity.
  - destruct (Ascii.eqb c NUL); reflexivity.
  - destruct (Ascii.eqb c NUL) eqn:E; [reflexivity|].
    cbn. rewrite E. now rewrite IH.
Qed.

Lemma strncpy16_idem (x : string) : strncpy16 (strncpy16 x) = strncpy16 x.
Proof.
  unfold strncpy16. rewrite c_str_prefix.
  generalize (c_str x). intros y. generalize 15%nat. intros m. revert m.
  induction y as [|c y IH]; intros [|m]; cbn; try reflexivity.
  now rewrite IH.
Qed.

Lemma parse_distance_range (line : string) (val : Z) :
  parse_distance line = Some val -> 0 < val < 65535.
Proof.
  unfold parse_distance. intros H.
  repeat case_match; try discriminate. injection H as <-. lia.
Qed.

Lemma poll_rx_distance (rx line : string) (dist : Z) :
  (dist = -1 \/ 0 < dist < 65535) ->
  snd (poll_rx line dist rx) = -1 \/ 0 < snd (poll_rx line dist rx) < 65535.
Proof.
  revert line dist. induction rx as [|c rx IH]; intros line dist H; [exact H|].
  cbn [poll_rx]. destruct (Ascii.eqb c CR || Ascii.eqb c LF); apply IH;
    [|exact H].
  destruct (0 <? String.length line)%nat; [|exact H].
  destruct (parse_distance line) as [val|] eqn:E; [|exact H].
  right. now apply parse_distance_range with line.
Qed.

Lemma frame_hex_length (f : Frame) : String.length (frame_hex f) = 14%nat.
Proof.
  unfold frame_hex. rewrite !length_append, !length_hex_fixed. reflexivity.
Qed.

Lemma TAG_SEND_fits (anchor : string) (f : Frame) :
  fits16 anchor ->
  cmd_ok ("AT+TAG_SEND=" +:+ anchor +:+ ",7," +:+ frame_hex f).
Proof.
  unfold fits16, cmd_ok. intros H.
  rewrite !length_append, frame_hex_length. cbn [String.length]. lia.
Qed.

Lemma pollUWB_radio now rx paired anchor b e (r : Radio) :
  fits16 anchor -> distance_ok r -> Forall cmd_ok (uwb_tx (uart r)) ->
  let r' := snd (pollUWB now rx paired anchor b e r) in
  distance_ok r' /\ Forall cmd_ok (uwb_tx (uart r')).
Proof.
  intros Ha Hd Ht. unfold pollUWB, pollUWB_send.
  pose proof (poll_rx_distance rx (rx_line r) (uwb_distance_cm r) Hd) as Hp.
  destruct (paired && (300 <=? u32 (now - lastSend r))).
  - destruct (assemble_frame _ _ _ _) as [f e']. unfold pollUWB_recv.
    cbn [rx_line uwb_distance_cm uart lastSend].
    destruct (poll_rx _ _ _) as [l d]. cbn [snd] in *. split; [exact Hp|].
    cbn [uart uart_print uwb_tx]. apply Forall_app. split; [exact Ht|].
    constructor; [now apply TAG_SEND_fits|constructor].
  - unfold pollUWB_recv. destruct (poll_rx _ _ _) as [l d]. cbn [snd] in *.
    split; [exact Hp|exact Ht].
Qed.

Lemma uwbSync_cmd_ok (u : Uart) :
  Forall cmd_ok (uwb_tx u) -> Forall cmd_ok (uwb_tx (snd (uwbSync u))).
Proof.
  intros H. destruct (uwbSync_attempts_spec 5 u) as (_ & Ht & _).
  unfold uwbSync. rewrite Ht. apply Forall_app. split; [exact H|].
  apply Forall_replicate. unfold cmd_ok. cbn. lia.
Qed.

Lemma sendAT_cmd_ok cmd t w (u : Uart) :
  cmd_ok cmd -> Forall cmd_ok (uwb_tx u) ->
  Forall cmd_ok (uwb_tx (snd (sendAT cmd t w u))).
Proof.
  intros Hc H. rewrite sendAT_tx. apply Forall_app. split; [exact H|].
  constructor; [exact Hc|constructor].
Qed.

Lemma configureUWB_cmd_ok network my (u : Uart) :
  fits16 network -> fits16 my -> Forall cmd_ok (uwb_tx u) ->
  Forall cmd_ok (uwb_tx (configureUWB network my u)).
Proof.
  unfold fits16. intros Hn Hm H. rewrite configureUWB_tx.
  apply Forall_app. split; [exact H|].
  repeat (apply List.Forall_cons); try apply List.Forall_nil;
    unfold cmd_ok; rewrite ?length_append; cbn [String.length]; lia.
Qed.

(** A step that touches the UART only, with commands that fit. *)
Lemma sound_uart (s s' : Device) (u : Uart) :
  sound s -> Forall cmd_ok (uwb_tx u) ->
  radio s' = set_uart u (radio s) -> pairing s' = pairing s ->
  MY_UWB_ADDRESS s' = MY_UWB_ADDRESS s -> sound s'.
Proof.
  intros (Hd & Hf & Ht & Hp) Hu Hr Hpa Hm. unfold sound.
  rewrite Hr, Hpa, Hm. repeat apply conj; try tauto; assumption.
Qed.

Lemma sound_same (s s' : Device) :
  sound s -> radio s' = radio s -> pairing s' = pairing s ->
  MY_UWB_ADDRESS s' = MY_UWB_ADDRESS s -> sound s'.
Proof.
  intros H Hr Hpa Hm. unfold sound. rewrite Hr, Hpa, Hm. exact H.
Qed.

Lemma loop_sense_sound i s : sound s -> sound (loop_sense i s).
Proof.
  intros (Hd & (Hn & Ha & Hm) & Ht & Hp). unfold loop_sense.
  pose proof (pollUWB_radio (in_pollNow i) (in_rx i) (isPaired (pairing s))
                (ANCHOR_UWB_ADDRESS (pairing s)) (batteryPercent (power s))
                (edge s) (radio s) Ha Hd Ht) as [Hd' Ht'].
  destruct (pollUWB _ _ _ _ _ _ _) as [[f e] r].
  destruct (detect _ _ _ _) as [[t ps] d']. cbn [snd] in *.
  unfold sound. cbn [radio pairing MY_UWB_ADDRESS]. tauto.
Qed.

Lemma wake_from_charging_sound s : sound s -> sound (wake_from_charging s).
Proof.
  intros H. pose proof H as (Hd & (Hn & Ha & Hm) & Ht & Hp).
  unfold wake_from_charging.
  pose proof (uwbSync_cmd_ok (uart (radio s)) Ht) as Hs.
  cbn [radio set_power]. destruct (uwbSync _) as [ok u]. cbn [snd] in Hs.
  eapply (sound_uart s _ _ H); [|reflexivity|reflexivity|reflexivity].
  cbn [pairing set_power MY_UWB_ADDRESS].
  destruct (ok && isPaired (pairing s)); [|exact Hs].
  now apply configureUWB_cmd_ok.
Qed.

Lemma refresh_battery_sound i s : sound s -> sound (refresh_battery i s).
Proof. intros H. now apply (sound_same s). Qed.

Lemma loop_sound i s : sound s -> sound (device_of (loop i s)).
Proof.
  intros H.
  assert (sound (charging_refresh i s)) as Hc.
  { unfold charging_refresh. case_match; [|exact H].
    apply refresh_battery_sound. now apply (sound_same s). }
  assert (sound (awake_refresh i s)) as Ha.
  { unfold awake_refresh. case_match; [|exact H].
    apply refresh_battery_sound. now apply (sound_same s). }
  unfold loop, loop_charging, loop_pairing, loop_awake.
  repeat case_match; cbn [device_of];
    first [ exact H
          | now apply wake_from_charging_sound
          | apply loop_sense_sound; now apply (sound_same (awake_refresh i s))
          | now apply (sound_same (charging_refresh i s))
          | now apply (sound_same (awake_refresh i s))
          | now apply (sound_same s) ].
Qed.

Lemma NetworkCfgCB_sound v s : sound s -> sound (NetworkCfgCB_handleWrite v s).
Proof.
  intros (Hd & (Hn & Ha & Hm) & Ht & Hp).
  set (network := match extract_field "network_id" v with
                  | Some netId => strncpy16 netId
                  | None => ANCHOR_UWB_NETWORK (pairing s)
                  end).
  set (anchor := match extract_field "anchor_address" v with
                 | Some addr => strncpy16 addr
                 | None => ANCHOR_UWB_ADDRESS (pairing s)
                 end).
  assert (fits16 network) as Hn'
      by (subst network; case_match; [apply strncpy16_fits|exact Hn]).
  assert (fits16 anchor) as Ha'
      by (subst anchor; case_match; [apply strncpy16_fits|exact Ha]).
  assert (strncpy16 network = network) as In.
  { subst network. case_match; [apply strncpy16_idem|].
    unfold persisted, load_pairing in Hp. destruct (getBool _ _ _).
    - rewrite <- Hp at 2. cbn [ANCHOR_UWB_NETWORK]. rewrite <- Hp at 1.
      cbn [ANCHOR_UWB_NETWORK]. apply strncpy16_idem.
    - rewrite <- Hp. reflexivity. }
  assert (strncpy16 anchor = anchor) as Ia.
  { subst anchor. case_match; [apply strncpy16_idem|].
    unfold persisted, load_pairing in Hp. destruct (getBool _ _ _).
    - rewrite <- Hp at 2. cbn [ANCHOR_UWB_ADDRESS]. rewrite <- Hp at 1.
      cbn [ANCHOR_UWB_ADDRESS]. apply strncpy16_idem.
    - rewrite <- Hp. reflexivity. }
  unfold sound, NetworkCfgCB_handleWrite. fold network anchor.
  cbn [radio pairing MY_UWB_ADDRESS ANCHOR_UWB_NETWORK ANCHOR_UWB_ADDRESS
       set_uart uart uwb_distance_cm].
  split; [exact Hd|]. split; [tauto|].
  split; [now apply configureUWB_cmd_ok|].
  unfold persisted, load_pairing, getBool, getString. cbn [prefs].
  rewrite lookup_insert_eq.
  rewrite (lookup_insert_ne _ "paired" "uwb_network") by discriminate.
  rewrite (lookup_insert_ne _ "anchor_addr" "uwb_network") by discriminate.
  rewrite lookup_insert_eq.
  rewrite (lookup_insert_ne _ "paired" "anchor_addr") by discriminate.
  rewrite lookup_insert_eq. now rewrite In, Ia.
Qed.

Lemma CtrlCB_sound v s : sound s -> sound (CtrlCB_handleWrite v s).
Proof.
  intros H. pose proof H as (Hd & (Hn & Ha & Hm) & Ht & Hp).
  unfold CtrlCB_handleWrite.
  destruct (_ || _); [now apply (sound_same s)|].
  destruct (contains _ _); [|exact H].
  unfold sound. cbn [radio pairing MY_UWB_ADDRESS ANCHOR_UWB_NETWORK
                     ANCHOR_UWB_ADDRESS].
  split; [exact Hd|]. split; [unfold fits16; cbn; split; [lia|split; [lia|exact Hm]]|].
  split; [exact Ht|].
  unfold persisted, load_pairing, getBool. cbn [prefs].
  rewrite lookup_insert_eq. reflexivity.
Qed.

Lemma apply_op_sound o s : sound s -> sound (device_of (apply_op o s)).
Proof.
  intros H. destruct o as [i| | |v|v]; cbn [apply_op device_of].
  - now apply loop_sound.
  - now apply (sound_same s).
  - now apply (sound_same s).
  - now apply NetworkCfgCB_sound.
  - now apply CtrlCB_sound.
Qed.

Lemma run_sound ops o : sound (device_of o) -> sound (device_of (run ops o)).
Proof.
  revert o. induction ops as [|op ops IH]; intros o H; [destruct o; exact H|].
  destruct o as [s|s]; simpl; [|exact H].
  apply IH. now apply apply_op_sound.
Qed.

Lemma load_pairing_fits nvs :
  fits16 (ANCHOR_UWB_NETWORK (load_pairing nvs))
  /\ fits16 (ANCHOR_UWB_ADDRESS (load_pairing nvs)).
Proof.
  unfold load_pairing. destruct (getBool _ _ _); cbn.
  - split; apply strncpy16_fits.
  - unfold fits16. cbn. lia.
Qed.

Lemma device_boot_sound b nvs io : sound (device_boot b nvs io).
Proof.
  unfold sound. cbn [device_boot radio pairing MY_UWB_ADDRESS uart uwb_tx].
  split; [left; reflexivity|].
  split; [split; [apply load_pairing_fits|split; [apply load_pairing_fits|]]|].
  - unfold uwb_address_of_mac. destruct (boot_mac b) as [[m3 m4] m5].
    apply length_substring_le.
  - split; [constructor|].
    unfold persisted.
    assert (prefs (load_pairing nvs) = nvs) as ->
        by (unfold load_pairing; destruct (getBool _ _ _); reflexivity).
    reflexivity.
Qed.

Lemma init_peripherals_sound s : sound s -> sound (init_peripherals s).
Proof.
  intros H. pose proof H as (Hd & (Hn & Ha & Hm) & Ht & Hp).
  unfold init_peripherals.
  pose proof (uwbSync_cmd_ok (uart (radio s)) Ht) as Hs.
  destruct (uwbSync _) as [ok u]. cbn [snd] in Hs.
  eapply (sound_uart s _ _ H); [|reflexivity|reflexivity|reflexivity].
  destruct ok; [|exact Hs]. destruct (isPaired (pairing s)).
  - now apply configureUWB_cmd_ok.
  - apply sendAT_cmd_ok; [unfold cmd_ok; cbn; lia|exact Hs].
Qed.

Lemma setup_sound b nvs io : sound (device_of (setup b nvs io)).
Proof.
  pose proof (device_boot_sound b nvs io) as H.
  assert (forall s, sound s ->
            sound (if rail3V3On (power s) then init_peripherals s else s))
    as Hi by (intros s Hs; case_match; [now apply init_peripherals_sound|exact Hs]).
  unfold setup. repeat case_match; cbn [device_of];
    first [ now apply (sound_same (device_boot b nvs io))
          | eapply sound_same; [apply Hi; eapply sound_same; [exact H|..]|..];
            reflexivity ].
Qed.

Lemma reachable_sound b nvs io ops :
  sound (device_of (run ops (setup b nvs io))).
Proof. apply run_sound, setup_sound. Qed.

(** X8. Whatever a booted device reads and receives, [uwb_distance_cm] holds
    [-1] or a distance between 1 and 65534 cm: the cast to [uint16_t] in
    [pollUWB] never truncates, and the distance field of a frame is the
    sentinel [0xFFFF] exactly when no distance was ever accepted. *)
Theorem distance_in_range
    (b : BootInput) (nvs : gmap string PrefVal) (io : list Sched)
    (ops : list Op) (now batt : Z) (e : StartEdge) :
  let d := uwb_distance_cm (radio (device_of (run ops (setup b nvs io)))) in
  (d = -1 \/ 0 < d < 65535)
  /\ f_distance (fst (assemble_frame now batt d e))
     = (if d =? -1 then 65535 else d).
Proof.
  intros d. destruct (reachable_sound b nvs io ops) as (Hd & _).
  unfold distance_ok in Hd. fold d in Hd. split; [exact Hd|].
  unfold assemble_frame. destruct Hd as [->|Hd].
  - cbn. destruct (0 <=? startTimestamp e); reflexivity.
  - destruct (Z.ltb_spec 0 d); [|lia]. destruct (Z.ltb_spec d 65535); [|lia].
    destruct (Z.eqb_spec d (-1)); [lia|]. cbn [andb].
    rewrite u16_small by lia. destruct (0 <=? startTimestamp e); reflexivity.
Qed.

(** X9. Whatever a booted device is sent -- NVS content at boot and
    network-config and control writes of any length -- the two peer strings
    and the device's own address never exceed 15 characters: each fits its
    [char[16]] buffer with the terminator. *)
Theorem peer_strings_fit
    (b : BootInput) (nvs : gmap string PrefVal) (io : list Sched)
    (ops : list Op) :
  let s := device_of (run ops (setup b nvs io)) in
  (String.length (ANCHOR_UWB_NETWORK (pairing s)) <= 15)%nat
  /\ (String.length (ANCHOR_UWB_ADDRESS (pairing s)) <= 15)%nat
  /\ (String.length (MY_UWB_ADDRESS s) <= 15)%nat.
Proof.
  intros s. destruct (reachable_sound b nvs io ops) as (_ & H & _). exact H.
Qed.

(** X10. Every command a booted device ever writes to the UWB module is at
    most 44 characters long; the [sprintf] of [pollUWB] into [cmd[128]]
    never overflows, whatever peer address was configured. *)
Theorem commands_fit_buffer
    (b : BootInput) (nvs : gmap string PrefVal) (io : list Sched)
    (ops : list Op) :
  Forall (fun c => (String.length c <= 44)%nat)
    (uwb_tx (uart (radio (device_of (run ops (setup b nvs io)))))).
Proof.
  destruct (reachable_sound b nvs io ops) as (_ & _ & H & _). exact H.
Qed.

(** X11. At every point of a run the NVS and the pairing globals agree: a
    reboot at that point would read back exactly the peer strings and the
    [isPaired] flag the device holds in memory. *)
Theorem pairing_survives_reboot
    (b : BootInput) (nvs : gmap string PrefVal) (io : list Sched)
    (ops : list Op) :
  let p := pairing (device_of (run ops (setup b nvs io))) in
  load_pairing (prefs p) = p.
Proof.
  destruct (reachable_sound b nvs io ops) as (_ & _ & _ & H). exact H.
Qed.

(** ** BLE after a boot on the charger *)

Lemma ble_off_same (s s' : Device) :
  ble_off s -> ble s' = ble s -> ble_off s'.
Proof. unfold ble_off. now intros H ->. Qed.

Lemma updateBLEStatus_off s : ble_off s -> updateBLEStatus s = ble s.
Proof. unfold ble_off, updateBLEStatus. now intros [-> _]. Qed.

Lemma refresh_battery_off i s : ble_off s -> ble_off (refresh_battery i s).
Proof.
  intros H. unfold refresh_battery. cbn [set_ble].
  unfold ble_off. cbn [ble]. rewrite updateBLEStatus_off; exact H.
Qed.

Lemma status_set_notify_off js s :
  ble_off s -> status_set_notify js (ble s) = ble s.
Proof. unfold ble_off, status_set_notify. now intros [-> _]. Qed.

Lemma loop_sense_ble i s : ble (loop_sense i s) = ble s.
Proof.
  unfold loop_sense. destruct (pollUWB _ _ _ _ _ _ _) as [[f e] r].
  destruct (detect _ _ _ _) as [[t ps] d']. reflexivity.
Qed.

Lemma wake_from_charging_ble s : ble (wake_from_charging s) = ble s.
Proof. unfold wake_from_charging. destruct (uwbSync _). reflexivity. Qed.

Lemma loop_off i s : ble_off s -> ble_off (device_of (loop i s)).
Proof.
  intros H.
  assert (ble_off (charging_refresh i s)) as Hc.
  { unfold charging_refresh. case_match; [|exact H].
    apply refresh_battery_off. now apply (ble_off_same s). }
  assert (ble_off (awake_refresh i s)) as Ha.
  { unfold awake_refresh. case_match; [|exact H].
    apply refresh_battery_off. now apply (ble_off_same s). }
  unfold loop, loop_charging, loop_pairing, loop_awake.
  repeat case_match; cbn [device_of];
    first [ exact H
          | apply (ble_off_same (charging_refresh i s));
            [exact Hc|rewrite ?wake_from_charging_ble; reflexivity]
          | apply (ble_off_same (awake_refresh i s));
            [exact Ha|rewrite ?loop_sense_ble; reflexivity]
          | unfold ble_off; cbn [set_ble ble];
            rewrite updateBLEStatus_off; [exact H|now apply (ble_off_same s)] ].
Qed.

Lemma apply_op_off o s : ble_off s -> ble_off (device_of (apply_op o s)).
Proof.
  intros H. destruct o as [i| | |v|v]; cbn [apply_op device_of].
  - now apply loop_off.
  - destruct H as [H1 H2]. split; [exact H1|exact H2].
  - destruct H as [H1 H2]. split; [exact H1|exact H2].
  - apply (ble_off_same s); [exact H|].
    unfold NetworkCfgCB_handleWrite. cbn [ble].
    now apply status_set_notify_off.
  - unfold CtrlCB_handleWrite. repeat case_match;
      first [ exact H
            | apply (ble_off_same s); [exact H|]; cbn [ble];
              now apply status_set_notify_off ].
Qed.

Lemma run_off ops o : ble_off (device_of o) -> ble_off (device_of (run ops o)).
Proof.
  revert o. induction ops as [|op ops IH]; intros o H; [destruct o; exact H|].
  destruct o as [s|s]; simpl; [|exact H].
  apply IH. now apply apply_op_off.
Qed.

(** X12. A device that boots on the charger with the button up leaves the
    3V3 rail off and skips the peripheral bring-up, and no later pass starts
    the BLE stack -- not even the wake-up by a short press: for the rest of
    the run there is no status characteristic and nothing is ever
    notified. *)
Theorem charger_boot_never_starts_ble
    (b : BootInput) (nvs : gmap string PrefVal) (io : list Sched)
    (ops : list Op) :
  boot_button b = None ->
  woke_from_charger b || boot_isCharging b = true ->
  let s := device_of (run ops (setup b nvs io)) in
  chStatus (ble s) = None /\ notified (ble s) = [].
Proof.
  intros Hb Hc s. apply run_off. unfold setup. rewrite Hb, Hc.
  cbn. split; reflexivity.
Qed.

Lemma charger_boot_never_starts_ble_witness :
  chStatus (ble (device_of
     (run [OpLoop (charging_pass 100 true); OpLoop (charging_pass 600 false);
           OpLoop (quiet_pass 700 (Some 1500))]
        (setup {| boot_wakeup := WAKEUP_EXT1; boot_batteryPercent := 80;
                  boot_isCharging := true; boot_isFullyCharged := false;
                  boot_mac := (171, 205, 239); boot_button := None |}
           demo_nvs [])))) = None.
Proof.
  refine (proj1 (charger_boot_never_starts_ble _ _ _ _ _ _));
    reflexivity.
Defined.

(** ** Button presses over several passes *)

Lemma run_app (a b : list Op) (o : Outcome) :
  run (a ++ b) o = run b (run a o).
Proof.
  revert o. induction a as [|op a IH]; intros o.
  - destruct o; destruct b; reflexivity.
  - destruct o as [s|s]; cbn [app run]; [apply IH|].
    destruct b; reflexivity.
Qed.

Lemma detect_awake now tof ps d :
  awake ps = true -> awake (snd (fst (detect now tof ps d))) = true.
Proof.
  intros H. unfold detect. repeat case_match; cbn [fst snd]; auto;
    destruct ps; simpl in *; congruence.
Qed.

(** A pass of the awake part that ends neither in OTA nor asleep goes
    through [loop_sense], and the button statics record what it saw. *)
Lemma awake_pass_noted i s :
  awake (mode_of_device s) = true ->
  long_press_seen i s = false -> short_press_seen i s = false ->
  exists s', loop i s = Returned s'
    /\ awake (mode_of_device s') = true
    /\ awk_btnWasPressed (statics s') = in_btnPressed i
    /\ awk_btnPressStart (statics s')
       = (if in_btnPressed i && negb (awk_btnWasPressed (statics s))
          then in_now i else awk_btnPressStart (statics s)).
Proof.
  intros Hm Hl Hs. rewrite (loop_awake_mode _ _ Hm).
  destruct (awake_refresh_facts i s) as (Hmode & Hdet & Htof & Hwas & Hstart).
  assert (btn_was s = awk_btnWasPressed (statics s)
          /\ btn_held i s = u32 (in_now i - awk_btnPressStart (statics s)))
    as [Hbw Hbh].
  { unfold btn_was, btn_held, mode_of_device in *.
    destruct (powerState (power s)); simpl in Hm; try discriminate; auto. }
  unfold long_press_seen, short_press_seen in Hl, Hs.
  rewrite Hbw, Hbh in Hl, Hs.
  unfold loop_awake. cbv zeta. rewrite Hwas, Hstart, Hl, Hs.
  eexists. split; [reflexivity|].
  split.
  - rewrite mode_loop_sense. apply detect_awake.
    unfold mode_of_device, awake_note_button. cbn [power set_statics].
    fold (mode_of_device (awake_refresh i s)). now rewrite Hmode.
  - unfold loop_sense. destruct (pollUWB _ _ _ _ _ _ _) as [[f e] r].
    destruct (detect _ _ _ _) as [[t ps] d']. cbn [statics].
    unfold awake_note_button. cbn [statics set_statics awk_btnWasPressed
      awk_btnPressStart]. rewrite Hwas, Hstart. split; reflexivity.
Qed.

Lemma press_pass i s :
  awake (mode_of_device s) = true ->
  awk_btnWasPressed (statics s) = false -> in_btnPressed i = true ->
  exists s', loop i s = Returned s' /\ pressing (in_now i) s'.
Proof.
  intros Hm Hw Hp.
  assert (btn_was s = false) as Hb.
  { unfold btn_was, mode_of_device in *.
    destruct (powerState (power s)); simpl in Hm; try discriminate; auto. }
  destruct (awake_pass_noted i s Hm) as (s' & Hr & Ha & Hw' & Hs').
  - unfold long_press_seen. now rewrite Hb, Hp.
  - unfold short_press_seen. now rewrite Hb, Hp.
  - exists s'. split; [exact Hr|]. unfold pressing.
    rewrite Hw', Hs', Hp, Hw. auto.
Qed.

Lemma pressing_btn t i s :
  pressing t s -> btn_was s = true /\ btn_held i s = u32 (in_now i - t).
Proof.
  intros (Hm & Hw & Hs). unfold btn_was, btn_held, mode_of_device in *.
  destruct (powerState (power s)); simpl in Hm; try discriminate;
    rewrite Hw, Hs; auto.
Qed.

Lemma hold_pass t i s :
  pressing t s -> held_pass t i ->
  exists s', loop i s = Returned s' /\ pressing t s'.
Proof.
  intros Hp [Hi Hh]. pose proof Hp as (Hm & Hw & Hs).
  destruct (pressing_btn t i s Hp) as [Hb Hd].
  destruct (awake_pass_noted i s Hm) as (s' & Hr & Ha & Hw' & Hs').
  - unfold long_press_seen. rewrite Hb, Hd, Hi. cbn.
    destruct (Z.leb_spec 5000 (u32 (in_now i - t))); [lia|reflexivity].
  - unfold short_press_seen. now rewrite Hi.
  - exists s'. split; [exact Hr|]. unfold pressing.
    rewrite Hw', Hs', Hi, Hw. cbn. auto.
Qed.

Lemma hold_passes t holds s :
  pressing t s -> Forall (held_pass t) holds ->
  exists s', run (map OpLoop holds) (Returned s) = Returned s'
             /\ pressing t s'.
Proof.
  revert s. induction holds as [|i holds IH]; intros s Hp Hf.
  - exists s. split; [reflexivity|exact Hp].
  - apply Forall_cons in Hf as [Hi Hf].
    destruct (hold_pass t i s Hp Hi) as (s1 & Hr & Hp1).
    destruct (IH s1 Hp1 Hf) as (s2 & Hr2 & Hp2).
    exists s2. split; [|exact Hp2]. cbn [map run apply_op]. now rewrite Hr.
Qed.

Lemma press_and_hold press holds s :
  awake (mode_of_device s) = true ->
  awk_btnWasPressed (statics s) = false -> in_btnPressed press = true ->
  Forall (held_pass (in_now press)) holds ->
  exists s', run (map OpLoop (press :: holds)) (Returned s) = Returned s'
             /\ pressing (in_now press) s'.
Proof.
  intros Hm Hw Hp Hf.
  destruct (press_pass press s Hm Hw Hp) as (s1 & Hr & Hp1).
  destruct (hold_passes _ holds s1 Hp1 Hf) as (s2 & Hr2 & Hp2).
  exists s2. split; [|exact Hp2]. cbn [map run apply_op]. now rewrite Hr.
Qed.

(** X13. A short press, seen over any number of passes: an awake device
    with the button up that sees the button go down, stay down over further
    passes and come up less than 5000 ms after it went down, goes to deep
    sleep on the pass that sees the release, with the 3V3 rail off. *)
Theorem short_press_sleeps
    (s : Device) (press : LoopInput) (holds : list LoopInput)
    (release : LoopInput) :
  awake (mode_of_device s) = true ->
  awk_btnWasPressed (statics s) = false ->
  in_btnPressed press = true ->
  Forall (held_pass (in_now press)) holds ->
  in_btnPressed release = false ->
  u32 (in_now release - in_now press) < 5000 ->
  exists s',
    run (map OpLoop (press :: holds ++ [release])) (Returned s) = Asleep s'
    /\ rail3V3On (power s') = false.
Proof.
  intros Hm Hw Hp Hf Hr Ht.
  destruct (press_and_hold press holds s Hm Hw Hp Hf) as (s1 & Hrun & Hp1).
  change (press :: holds ++ [release])%list
    with ((press :: holds) ++ [release])%list.
  rewrite map_app, run_app, Hrun. cbn [map run apply_op].
  pose proof Hp1 as (Hm1 & Hw1 & Hs1).
  rewrite (loop_awake_mode _ _ Hm1).
  destruct (awake_refresh_facts release s1) as (_ & _ & _ & Hwas & Hstart).
  unfold loop_awake. cbv zeta. rewrite Hwas, Hstart, Hw1, Hs1, Hr.
  cbn [andb negb].
  destruct (Z.ltb_spec (u32 (in_now release - in_now press)) 5000); [|lia].
  eexists. split; [reflexivity|reflexivity].
Qed.

Lemma short_press_sleeps_witness :
  mode_of (run [OpLoop (button_pass 1000 true);
                OpLoop (button_pass 1400 true);
                OpLoop (button_pass 1800 false)] (Returned demo_device))
  = DEEP_SLEEP.
Proof.
  destruct (short_press_sleeps demo_device (button_pass 1000 true)
              [button_pass 1400 true] (button_pass 1800 false))
    as (s' & Hrun & _).
  - reflexivity.
  - reflexivity.
  - reflexivity.
  - repeat constructor; vm_compute; reflexivity.
  - reflexivity.
  - vm_compute. reflexivity.
  - cbn [map app] in Hrun. rewrite Hrun. reflexivity.
Defined.

(** X14. A long press, seen over any number of passes: an awake device
    with the button up that sees the button go down and stay down enters OTA
    mode on the first pass that finds it still down 5000 ms or more after it
    went down; a release is not needed. *)
Theorem long_press_enters_ota
    (s : Device) (press : LoopInput) (holds : list LoopInput)
    (last : LoopInput) :
  awake (mode_of_device s) = true ->
  awk_btnWasPressed (statics s) = false ->
  in_btnPressed press = true ->
  Forall (held_pass (in_now press)) holds ->
  in_btnPressed last = true ->
  5000 <= u32 (in_now last - in_now press) ->
  mode_of (run (map OpLoop (press :: holds ++ [last])) (Returned s))
  = OTA_MODE.
Proof.
  intros Hm Hw Hp Hf Hl Ht.
  destruct (press_and_hold press holds s Hm Hw Hp Hf) as (s1 & Hrun & Hp1).
  change (press :: holds ++ [last])%list
    with ((press :: holds) ++ [last])%list.
  rewrite map_app, run_app, Hrun. cbn [map run apply_op].
  pose proof Hp1 as (Hm1 & Hw1 & Hs1).
  rewrite (loop_awake_mode _ _ Hm1).
  destruct (awake_refresh_facts last s1) as (_ & _ & _ & Hwas & Hstart).
  unfold loop_awake. cbv zeta. rewrite Hwas, Hstart, Hw1, Hs1, Hl.
  cbn [andb].
  destruct (Z.leb_spec 5000 (u32 (in_now last - in_now press))); [|lia].
  reflexivity.
Qed.

Lemma long_press_enters_ota_witness :
  mode_of (run [OpLoop (button_pass 1000 true);
                OpLoop (button_pass 3000 true);
                OpLoop (button_pass 6000 true)] (Returned demo_device))
  = OTA_MODE.
Proof.
  apply (long_press_enters_ota demo_device (button_pass 1000 true)
           [button_pass 3000 true] (button_pass 6000 true)).
  - reflexivity.
  - reflexivity.
  - reflexivity.
  - repeat constructor; vm_compute; reflexivity.
  - reflexivity.
  - vm_compute. discriminate.
Defined.

(** ** Telemetry *)

Lemma pollUWB_recv_keeps rx r :
  uart (pollUWB_recv rx r) = uart r
  /\ lastSend (pollUWB_recv rx r) = lastSend r.
Proof. unfold pollUWB_recv. destruct (poll_rx _ _ _). split; reflexivity. Qed.

Lemma loop_sense_unpaired i s :
  isPaired (pairing s) = false ->
  uart (radio (loop_sense i s)) = uart (radio s)
  /\ lastSend (radio (loop_sense i s)) = lastSend (radio s).
Proof.
  intros Hp. unfold loop_sense, pollUWB, pollUWB_send. rewrite Hp. cbn [andb].
  destruct (pollUWB_recv_keeps (in_rx i) (radio s)) as [Hu Hl].
  destruct (detect _ _ _ _) as [[t ps] d']. cbn [radio].
  split; [exact Hu|exact Hl].
Qed.

(** X15. An unpaired device sends no telemetry and no configuration: a pass
    of [loop] in any mode writes nothing to the UWB module but the ["AT"]
    probes of a wake-up from charging (at most five), leaves the frame timer
    as it was, and leaves the device unpaired. *)
Theorem unpaired_pass_sends_no_frame (i : LoopInput) (s : Device) :
  isPaired (pairing s) = false ->
  let s' := device_of (loop i s) in
  exists k : nat,
    (k <= 5)%nat
    /\ uwb_tx (uart (radio s'))
       = (uwb_tx (uart (radio s)) ++ replicate k "AT")%list
    /\ lastSend (radio s') = lastSend (radio s)
    /\ isPaired (pairing s') = false.
Proof.
  intros Hp.
  assert (radio (charging_refresh i s) = radio s
          /\ pairing (charging_refresh i s) = pairing s) as [Hcr Hcp]
      by (unfold charging_refresh; case_match; split; reflexivity).
  assert (radio (awake_refresh i s) = radio s
          /\ pairing (awake_refresh i s) = pairing s) as [Har Hap]
      by (unfold awake_refresh; case_match; split; reflexivity).
  assert (forall s1 : Device, radio s1 = radio s -> pairing s1 = pairing s ->
            exists k : nat, (k <= 5)%nat
              /\ uwb_tx (uart (radio s1))
                 = (uwb_tx (uart (radio s)) ++ replicate k "AT")%list
              /\ lastSend (radio s1) = lastSend (radio s)
              /\ isPaired (pairing s1) = false) as Hsame.
  { intros s1 -> ->. exists 0%nat. cbn [replicate]. rewrite app_nil_r.
    split; [lia|]. auto. }
  unfold loop, loop_charging, loop_pairing, loop_awake. cbv zeta.
  repeat case_match; cbn [device_of]; try (apply Hsame; assumption || reflexivity).
  - (* wake-up from charging *)
    unfold wake_from_charging. cbn [radio pairing set_power].
    rewrite Hcr, Hcp, Hp.
    destruct (uwbSync_attempts_spec 5 (uart (radio s))) as (Hk & Ht & _).
    fold (uwbSync (uart (radio s))) in Ht.
    destruct (uwbSync (uart (radio s))) as [ok u]. cbn [snd] in Ht.
    rewrite andb_false_r. cbn [radio set_radio set_det set_uart uart lastSend
                               pairing].
    exists (probes_sent 5 (uart (radio s))).
    cbn [set_power pairing]. rewrite Hcp. auto.
  - (* awake: the sensing part *)
    assert (isPaired (pairing (awake_note_button i (awake_refresh i s))) = false)
      as Hp' by (cbn [awake_note_button set_statics pairing]; now rewrite Hap).
    destruct (loop_sense_unpaired i _ Hp') as (Hu & Hl).
    exists 0%nat. cbn [replicate]. rewrite app_nil_r, Hu, Hl.
    cbn [awake_note_button set_statics radio]. rewrite Har.
    split; [lia|]. split; [reflexivity|]. split; [reflexivity|].
    unfold loop_sense. destruct (pollUWB _ _ _ _ _ _ _) as [[f e] r].
    destruct (detect _ _ _ _) as [[t ps] d']. exact Hp'.
Qed.

Lemma unpaired_pass_sends_no_frame_witness :
  uwb_tx (uart (radio (device_of
     (loop (quiet_pass 5000 (Some 1500))
        (CtrlCB_handleWrite ("{" +:+ quoted "unpair" +:+ ":true}")
           demo_device)))))
  = uwb_tx (uart (radio demo_device)).
Proof.
  destruct (unpaired_pass_sends_no_frame (quiet_pass 5000 (Some 1500))
              (CtrlCB_handleWrite ("{" +:+ quoted "unpair" +:+ ":true}")
                 demo_device)) as (k & _ & Ht & _).
  - reflexivity.
  - vm_compute. reflexivity.
Defined.



(** ** Searching a text *)

Lemma prefix_app (pat rest : string) : String.prefix pat (pat +:+ rest) = true.
Proof.
  induction pat as [|c pat IH]; [destruct rest; reflexivity|].
  change (String c pat +:+ rest) with (String c (pat +:+ rest)). cbn.
  destruct (Ascii.ascii_dec c c); [exact IH|congruence].
Qed.

Lemma prefix_first_char (c x : ascii) (p s : string) :
  Ascii.eqb x c = false -> String.prefix (String c p) (String x s) = false.
Proof.
  intros H. cbn. destruct (Ascii.ascii_dec c x) as [->|]; [|reflexivity].
  now rewrite Ascii.eqb_refl in H.
Qed.

(** A pattern is found right after a text that does not hold the pattern's
    first character. *)
Lemma index_first (c : ascii) (p a rest : string) :
  has_char c a = false ->
  String.index 0 (String c p) (a +:+ String c p +:+ rest)
  = Some (String.length a).
Proof.
  induction a as [|x a IH]; intros H.
  - change ("" +:+ String c p +:+ rest) with (String c p +:+ rest).
    pose proof (prefix_app (String c p) rest) as Hp.
    change (String c p +:+ rest) with (String c (p +:+ rest)) in *.
    cbn [String.index]. now rewrite Hp.
  - cbn [has_char] in H. apply orb_false_iff in H as [Hx Ha].
    change (String x a +:+ String c p +:+ rest)
      with (String x (a +:+ String c p +:+ rest)).
    cbn [String.index]. rewrite (prefix_first_char c x p _ Hx).
    now rewrite (IH Ha).
Qed.

Lemma index_skip (a b pat : string) (n : nat) :
  String.index (String.length a + n) pat (a +:+ b)
  = option_map (Nat.add (String.length a)) (String.index n pat b).
Proof.
  induction a as [|x a IH].
  - change ("" +:+ b) with b. cbn. now destruct (String.index n pat b).
  - change (String x a +:+ b) with (String x (a +:+ b)).
    cbn [String.length Nat.add String.index]. rewrite IH.
    now destruct (String.index n pat b).
Qed.





Lemma has_char_app (c : ascii) (a b : string) :
  has_char c (a +:+ b) = has_char c a || has_char c b.
Proof.
  induction a as [|x a IH]; [reflexivity|].
  change (String x a +:+ b) with (String x (a +:+ b)). cbn.
  now rewrite IH, orb_assoc.
Qed.




(** ** Reading a field of the pairing payload *)

Lemma index_step (pat : string) (x : ascii) (s : string) :
  String.prefix pat (String x s) = false ->
  String.index 0 pat (String x s) = option_map S (String.index 0 pat s).
Proof. intros H. cbn [String.index]. rewrite H. now destruct (String.index 0 pat s). Qed.

Lemma prefix_quoted_neq (k N r1 r2 : string) :
  has_char DQUOTE N = false -> has_char DQUOTE k = false -> N <> k ->
  String.prefix (k +:+ String DQUOTE r1) (N +:+ String DQUOTE r2) = false.
Proof.
  revert N. induction k as [|y k IH]; intros N HN Hk Hne.
  - destruct N as [|x N]; [congruence|].
    change ("" +:+ String DQUOTE r1) with (String DQUOTE r1).
    change (String x N +:+ String DQUOTE r2)
      with (String x (N +:+ String DQUOTE r2)).
    apply prefix_first_char. cbn [has_char] in HN.
    now apply orb_false_iff in HN as [HN _].
  - cbn [has_char] in Hk. apply orb_false_iff in Hk as [Hy Hk].
    change (String y k +:+ String DQUOTE r1)
      with (String y (k +:+ String DQUOTE r1)).
    destruct N as [|x N].
    + change ("" +:+ String DQUOTE r2) with (String DQUOTE r2).
      cbn [String.prefix].
      destruct (Ascii.ascii_dec y DQUOTE) as [->|]; [|reflexivity].
      now rewrite Ascii.eqb_refl in Hy.
    + change (String x N +:+ String DQUOTE r2)
        with (String x (N +:+ String DQUOTE r2)).
      cbn [String.prefix]. destruct (Ascii.ascii_dec y x) as [->|]; [|reflexivity].
      cbn [has_char] in HN. apply orb_false_iff in HN as [_ HN].
      apply IH; [exact HN|exact Hk|congruence].
Qed.

Lemma quoted_app (X rest : string) :
  quoted X +:+ rest = String DQUOTE (X +:+ String DQUOTE rest).
Proof.
  unfold quoted.
  change (String DQUOTE (X +:+ String DQUOTE "") +:+ rest)
    with (String DQUOTE ((X +:+ String DQUOTE "") +:+ rest)).
  now rewrite append_snoc.
Qed.

(** The field that starts where its quoted name is first found. *)
Lemma field_at (key pre X rest : string) :
  has_char ":" key = false -> has_char DQUOTE X = false ->
  String.index 0 (quoted key)
    (pre +:+ quoted key +:+ ":" +:+ quoted X +:+ rest)
  = Some (String.length pre) ->
  extract_field key (pre +:+ quoted key +:+ ":" +:+ quoted X +:+ rest)
  = Some X.
Proof.
  intros Hk HX Hi. unfold extract_field. rewrite Hi. clear Hi.
  remember (pre +:+ quoted key +:+ ":" +:+ quoted X +:+ rest) as v eqn:Ev.
  set (p1 := (String.length pre + String.length (quoted key))%nat).
  assert (v = pre +:+ (quoted key +:+ String ":" "" +:+ quoted X +:+ rest))
    as E1 by (rewrite Ev; reflexivity).
  assert (v = (pre +:+ quoted key) +:+ String ":" "" +:+ String DQUOTE ""
              +:+ (X +:+ String DQUOTE rest)) as E2.
  { rewrite Ev, (quoted_app X rest), append_assoc. reflexivity. }
  assert (v = ((pre +:+ quoted key) +:+ String ":" (String DQUOTE ""))
              +:+ X +:+ String DQUOTE "" +:+ rest) as E3.
  { rewrite Ev, (quoted_app X rest), !append_assoc. reflexivity. }
  assert (String.length (pre +:+ quoted key) = p1) as L1
      by (subst p1; now rewrite length_append).
  assert (String.length ((pre +:+ quoted key) +:+ String ":" (String DQUOTE ""))
          = S (S p1)) as L2.
  { rewrite length_append, L1. cbn. lia. }
  assert (String.index (String.length pre) ":" v = Some p1) as Hc.
  { rewrite E1. rewrite <- (Nat.add_0_r (String.length pre)) at 1.
    rewrite index_skip.
    rewrite (index_first ":" "" (quoted key) (quoted X +:+ rest)); [reflexivity|].
    unfold quoted. cbn [has_char]. rewrite has_char_app, Hk. reflexivity. }
  assert (String.index p1 (String DQUOTE "") v = Some (S p1)) as Hq1.
  { rewrite E2, <- L1.
    rewrite <- (Nat.add_0_r (String.length (pre +:+ quoted key))) at 1.
    rewrite index_skip.
    rewrite (index_first DQUOTE "" ":" _ eq_refl). cbn [option_map String.length].
    f_equal. lia. }
  assert (String.index (S (S p1)) (String DQUOTE "") v
          = Some (S (S p1) + String.length X)%nat) as Hq2.
  { rewrite E3, <- L2.
    rewrite <- (Nat.add_0_r (String.length _)) at 1.
    rewrite index_skip.
    rewrite (index_first DQUOTE "" X rest HX). reflexivity. }
  rewrite Hc. cbn [find_from]. rewrite Hq1. cbn [pos_succ find_from].
  rewrite Hq2. f_equal.
  replace (S (S p1) + String.length X - S p1 - 1)%nat with (String.length X)
    by lia.
  rewrite E3, <- L2. rewrite <- (Nat.add_0_r (String.length _)) at 1.
  rewrite substring_app_skip. apply substring_app_l.
Qed.

Lemma index_skip_free (c : ascii) (p a s : string) :
  has_char c a = false ->
  String.index 0 (String c p) (a +:+ s)
  = option_map (Nat.add (String.length a)) (String.index 0 (String c p) s).
Proof.
  induction a as [|x a IH]; intros H.
  - change ("" +:+ s) with s. now destruct (String.index 0 (String c p) s).
  - cbn [has_char] in H. apply orb_false_iff in H as [Hx Ha].
    change (String x a +:+ s) with (String x (a +:+ s)).
    rewrite index_step by (now apply prefix_first_char).
    rewrite (IH Ha). now destruct (String.index 0 (String c p) s).
Qed.

Lemma anchor_key_position (N rest : string) :
  has_char DQUOTE N = false -> N <> "anchor_address" ->
  String.index 0 (quoted "anchor_address")
    (("{" +:+ quoted "network_id" +:+ ":" +:+ quoted N +:+ ",")
     +:+ quoted "anchor_address" +:+ rest)
  = Some (String.length
            ("{" +:+ quoted "network_id" +:+ ":" +:+ quoted N +:+ ",")).
Proof.
  intros HN Hne.
  set (pat := quoted "anchor_address").
  assert (("{" +:+ quoted "network_id" +:+ ":" +:+ quoted N +:+ ",")
          +:+ pat +:+ rest
          = "{" +:+ quoted "network_id" +:+ ":"
            +:+ String DQUOTE (N +:+ String DQUOTE (String "," (pat +:+ rest))))
    as ->.
  { rewrite !append_assoc, (quoted_app N). reflexivity. }
  assert (String.length ("{" +:+ quoted "network_id" +:+ ":" +:+ quoted N +:+ ",")
          = (17 + String.length N)%nat) as ->.
  { rewrite (quoted_app N). rewrite !length_append. cbn [String.length quoted].
    rewrite !length_append. cbn [String.length]. lia. }
  cbv [append quoted]. fold append.
  do 14 (rewrite index_step by reflexivity).
  rewrite index_step.
  2:{ subst pat. unfold quoted. cbn [String.prefix].
      destruct (Ascii.ascii_dec DQUOTE DQUOTE); [|congruence].
      apply (prefix_quoted_neq "anchor_address" N "" _ HN eq_refl Hne). }
  subst pat. unfold quoted.
  rewrite (index_skip_free DQUOTE _ N _ HN).
  rewrite index_step by reflexivity.
  rewrite index_step by reflexivity.
  pose proof (prefix_app (String DQUOTE ("anchor_address" +:+ String DQUOTE ""))
                rest) as Hp.
  change (String DQUOTE ("anchor_address" +:+ String DQUOTE "") +:+ rest)
    with (String DQUOTE (("anchor_address" +:+ String DQUOTE "") +:+ rest))
    in *.
  cbn [String.index]. rewrite Hp. cbn [option_map]. f_equal. lia.
Qed.

(** X18. The documented network-config payload
    [{"network_id":"<N>","anchor_address":"<A>"}] is read as intended: both
    fields are found, whatever the two values hold besides a double quote,
    and the handler stores the first 15 characters of each up to a NUL.  (A
    network id that is itself the text [anchor_address] is left out.) *)
Theorem network_payload_fields (N A : string) (s : Device) :
  has_char DQUOTE N = false -> has_char DQUOTE A = false ->
  N <> "anchor_address" ->
  let v := network_payload N A in
  let s' := NetworkCfgCB_handleWrite v s in
  extract_field "network_id" v = Some N
  /\ extract_field "anchor_address" v = Some A
  /\ ANCHOR_UWB_NETWORK (pairing s') = strncpy16 N
  /\ ANCHOR_UWB_ADDRESS (pairing s') = strncpy16 A.
Proof.
  intros HN HA Hne v s'.
  assert (extract_field "network_id" v = Some N) as H1.
  { subst v. unfold network_payload.
    apply (field_at "network_id" "{" N); [reflexivity|exact HN|].
    apply (index_first DQUOTE ("network_id" +:+ String DQUOTE "") "{").
    reflexivity. }
  assert (extract_field "anchor_address" v = Some A) as H2.
  { subst v. unfold network_payload.
    assert ("{" +:+ quoted "network_id" +:+ ":" +:+ quoted N +:+ ","
            +:+ quoted "anchor_address" +:+ ":" +:+ quoted A +:+ "}"
            = ("{" +:+ quoted "network_id" +:+ ":" +:+ quoted N +:+ ",")
              +:+ quoted "anchor_address" +:+ ":" +:+ quoted A +:+ "}") as ->
        by (now rewrite !append_assoc).
    apply field_at; [reflexivity|exact HA|].
    now apply anchor_key_position. }
  split; [exact H1|]. split; [exact H2|].
  subst s'. unfold NetworkCfgCB_handleWrite.
  cbn [pairing ANCHOR_UWB_NETWORK ANCHOR_UWB_ADDRESS]. rewrite H1, H2.
  split; reflexivity.
Qed.

Lemma network_payload_fields_witness :
  let s' := NetworkCfgCB_handleWrite
              (network_payload "REYAX123" "ANCHOR_WITH_A_LONG_NAME")
              demo_device in
  ANCHOR_UWB_NETWORK (pairing s') = "REYAX123"
  /\ ANCHOR_UWB_ADDRESS (pairing s') = "ANCHOR_WITH_A_L".
Proof.
  intros s'.
  destruct (network_payload_fields "REYAX123" "ANCHOR_WITH_A_LONG_NAME"
              demo_device) as (_ & _ & Hn & Ha).
  - reflexivity.
  - reflexivity.
  - discriminate.
  - fold s' in Hn, Ha. rewrite Hn, Ha. split; reflexivity.
Defined.

(** ** The LED matrix *)

Lemma targetRing_range (pct : Z) : 0 <= targetRing pct <= 7.
Proof.
  unfold targetRing. pose proof (Z.mod_pos_bound (pct * 8 / 100) (2 ^ 8)).
  unfold u8. destruct (Z.ltb_spec 7 ((pct * 8 / 100) mod 2 ^ 8)); lia.
Qed.

Lemma currentRing_range (target cur : Z) :
  0 <= target -> 0 <= cur ->
  0 <= (if target <? cur then target else cur) <= target.
Proof. intros. destruct (Z.ltb_spec target cur); lia. Qed.

Lemma stepMs_positive (pct : Z) :
  250 <= u32 (2000 / (targetRing pct + 1)) <= 2000.
Proof.
  pose proof (targetRing_range pct) as H.
  assert (targetRing pct = 0 \/ targetRing pct = 1 \/ targetRing pct = 2
          \/ targetRing pct = 3 \/ targetRing pct = 4 \/ targetRing pct = 5
          \/ targetRing pct = 6 \/ targetRing pct = 7) as Hc by lia.
  destruct Hc as [->|[->|[->|[->|[->|[->|[->| ->]]]]]]]; vm_compute;
    split; discriminate.
Qed.

(** The ring [ledsChargingRings] shows at [now] for battery level [pct]. *)
Lemma ledsChargingRings_ring (now pct : Z) :
  exists r : Z,
    0 <= r <= targetRing pct
    /\ ledsChargingRings now pct
       = led_set_all
           (if (0 <=? r) && (r <=? 3) then ring_cells r
            else flat_map ring_cells (seqZ 0 4))
           (mkCRGB 0 100 255) (fill_solid Black).
Proof.
  pose proof (targetRing_range pct) as Ht.
  pose proof (stepMs_positive pct) as Hs.
  unfold ledsChargingRings. cbv zeta.
  destruct (Z.eqb_spec (targetRing pct + 1) 0) as [E|_]; [lia|].
  destruct (Z.eqb_spec (u32 (2000 / (targetRing pct + 1))) 0) as [E|_]; [lia|].
  set (cur := u8 (now mod 2000 / u32 (2000 / (targetRing pct + 1)))).
  assert (0 <= cur) as Hc by (subst cur; unfold u8; apply Z.mod_pos_bound; lia).
  exists (if targetRing pct <? cur then targetRing pct else cur).
  split; [apply currentRing_range; lia|reflexivity].
Qed.

(** X19. The two LED animations that index the matrix never write outside
    it and never divide by zero: for every clock value and every battery
    level, [ledsStandby] and [ledsChargingRings] return a frame of all 64
    LEDs. *)
Theorem led_writes_in_bounds (now pct : Z) :
  (exists f, ledsStandby now = Some f /\ length f = NUM_LEDS)
  /\ (exists f, ledsChargingRings now pct = Some f /\ length f = NUM_LEDS).
Proof.
  split.
  - unfold ledsStandby. cbv zeta.
    assert (0 <= u8 ((now / 250) mod 8) < 8) as H.
    { pose proof (Z.mod_pos_bound (now / 250) 8). unfold u8.
      rewrite Z.mod_small by lia. lia. }
    set (row := u8 ((now / 250) mod 8)) in *.
    assert (row = 0 \/ row = 1 \/ row = 2 \/ row = 3 \/ row = 4 \/ row = 5
            \/ row = 6 \/ row = 7) as Hc by lia.
    destruct Hc as [->|[->|[->|[->|[->|[->|[->| ->]]]]]]];
      eexists; (split; [vm_compute; reflexivity|reflexivity]).
  - destruct (ledsChargingRings_ring now pct) as (r & Hr & ->).
    destruct ((0 <=? r) && (r <=? 3)) eqn:E.
    + assert (r = 0 \/ r = 1 \/ r = 2 \/ r = 3) as Hc by lia.
      destruct Hc as [->|[->|[->| ->]]];
        eexists; (split; [vm_compute; reflexivity|reflexivity]).
    + eexists. split; [vm_compute; reflexivity|reflexivity].
Qed.

(** X20. What the charging animation shows: below 50 % of battery it lights
    a single ring, the ring [r] of the current step, which never goes past
    the ring [pct * 8 / 100] the battery level has reached; ring [r] has
    [8 r + 4] LEDs. *)
Theorem charging_ring_follows_battery (now pct : Z) :
  0 <= pct < 50 ->
  exists (f : list CRGB) (r : Z),
    ledsChargingRings now pct = Some f
    /\ 0 <= r <= pct * 8 / 100
    /\ Z.of_nat (lit f) = 8 * r + 4.
Proof.
  intros Hp.
  assert (targetRing pct = pct * 8 / 100 /\ pct * 8 / 100 <= 3) as [Ht H3].
  { unfold targetRing, u8.
    assert (0 <= pct * 8 / 100 <= 3) as H.
    { split; [apply Z.div_pos; lia|].
      apply Z.lt_succ_r. apply Z.div_lt_upper_bound; lia. }
    rewrite Z.mod_small by lia.
    destruct (Z.ltb_spec 7 (pct * 8 / 100)); lia. }
  destruct (ledsChargingRings_ring now pct) as (r & Hr & ->).
  rewrite Ht in Hr.
  assert (exists f, led_set_all
                      (if (0 <=? r) && (r <=? 3) then ring_cells r
                       else flat_map ring_cells (seqZ 0 4))
                      (mkCRGB 0 100 255) (fill_solid Black) = Some f
                    /\ Z.of_nat (lit f) = 8 * r + 4) as (f & Hf & Hl).
  { assert (r = 0 \/ r = 1 \/ r = 2 \/ r = 3) as Hc by lia.
    destruct Hc as [->|[->|[->| ->]]]; eexists;
      (split; [vm_compute; reflexivity|vm_compute; reflexivity]). }
  exists f, r. split; [exact Hf|]. split; [exact Hr|exact Hl].
Qed.

Lemma charging_ring_follows_battery_witness :
  exists (f : list CRGB) (r : Z),
    ledsChargingRings 1500 30 = Some f
    /\ 0 <= r <= 2 /\ Z.of_nat (lit f) = 8 * r + 4.
Proof.
  apply (charging_ring_follows_battery 1500 30). lia.
Defined.

(** ** Status texts *)

Lemma substring_whole (n : nat) (s : string) :
  (String.length s <= n)%nat -> substring 0 n s = s.
Proof.
  revert n. induction s as [|c s IH]; intros [|n] H; cbn in *;
    try reflexivity; try lia.
  rewrite IH by lia. reflexivity.
Qed.

Lemma pretty_u8_length (z : Z) :
  0 <= z < 256 -> (String.length (pretty z) <= 3)%nat.
Proof.
  intros H.
  assert (forallb (fun z : Z => (String.length (pretty z) <=? 3)%nat)
            (seqZ 0 256) = true) as Hall by (vm_compute; reflexivity).
  rewrite forallb_forall in Hall. apply Nat.leb_le, Hall.
  apply list_elem_of_In, elem_of_seqZ. lia.
Qed.

Lemma bool_text_length (b : bool) : (String.length (bool_text b) <= 5)%nat.
Proof. destruct b; cbn; lia. Qed.

Lemma quoted_length (x : string) :
  String.length (quoted x) = S (S (String.length x)).
Proof. unfold quoted. cbn. rewrite length_append. cbn. lia. Qed.

(** X21. The status texts fit their buffers: for a battery level that is a
    [uint8_t] and strings that fit their [char[16]], none of the three
    [snprintf] calls that build a status JSON (in [updateBLEStatus], in
    [startBLE] and in the network-config handler) truncates it. *)
Theorem status_texts_not_truncated (s : Device) (network anchor : string) :
  0 <= batteryPercent (power s) < 256 ->
  (String.length (MY_UWB_ADDRESS s) <= 15)%nat ->
  (String.length network <= 15)%nat -> (String.length anchor <= 15)%nat ->
  snprintf 256 (status_json s) = status_json s
  /\ snprintf 128 (initial_status_json s) = initial_status_json s
  /\ snprintf 256 (paired_json network anchor) = paired_json network anchor.
Proof.
  intros Hb Hm Hn Ha.
  pose proof (pretty_u8_length _ Hb) as Hp.
  pose proof (bool_text_length (isPaired (pairing s))) as H1.
  pose proof (bool_text_length (isCharging (power s))) as H2.
  pose proof (bool_text_length (startArmed (det s))) as H3.
  assert (String.length (pretty (PowerState_index (powerState (power s))))
          = 1%nat) as H4 by (destruct (powerState (power s)); reflexivity).
  unfold snprintf. repeat apply conj; apply substring_whole.
  - unfold status_json. rewrite !length_append, !quoted_length, H4.
    cbn [String.length]. lia.
  - unfold initial_status_json. rewrite !length_append, !quoted_length.
    cbn [String.length]. lia.
  - unfold paired_json. rewrite !length_append, !quoted_length.
    cbn [String.length]. lia.
Qed.

Lemma status_texts_not_truncated_witness :
  snprintf 256 (status_json demo_device) = status_json demo_device.
Proof.
  apply (status_texts_not_truncated demo_device "REYAX123" "ANCH0001").
  - vm_compute. split; [discriminate|reflexivity].
  - vm_compute. lia.
  - vm_compute. lia.
  - vm_compute. lia.
Defined.

(** ** The device's own address *)

Lemma uwb_address_digits (m3 m4 m5 : Z) :
  uwb_address_of_mac (m3, m4, m5)
  = "TAG" +:+ hex_fixed 2 m3 +:+ hex_fixed 2 m4 +:+ hex_fixed 2 m5.
Proof.
  unfold uwb_address_of_mac, snprintf. apply substring_whole.
  rewrite !length_append, !length_hex_fixed. cbn. lia.
Qed.

Lemma uwb_address_bytes (m3 m4 m5 : Z) :
  let a := uwb_address_of_mac (m3, m4, m5) in
  hex_value 0 (substring 3 2 a) = Some (m3 mod 2 ^ 8)
  /\ hex_value 0 (substring 5 2 a) = Some (m4 mod 2 ^ 8)
  /\ hex_value 0 (substring 7 2 a) = Some (m5 mod 2 ^ 8).
Proof.
  cbv zeta. rewrite uwb_address_digits.
  set (h3 := hex_fixed 2 m3). set (h4 := hex_fixed 2 m4).
  set (h5 := hex_fixed 2 m5).
  assert (String.length h3 = 2%nat) as L3 by apply length_hex_fixed.
  assert (String.length h4 = 2%nat) as L4 by apply length_hex_fixed.
  assert (String.length h5 = 2%nat) as L5 by apply length_hex_fixed.
  assert (substring 3 2 ("TAG" +:+ h3 +:+ h4 +:+ h5) = h3) as ->.
  { change 3%nat with (String.length "TAG" + 0)%nat.
    rewrite substring_app_skip. rewrite <- L3. apply substring_app_l. }
  assert (substring 5 2 ("TAG" +:+ h3 +:+ h4 +:+ h5) = h4) as ->.
  { change 5%nat with (String.length "TAG" + 2)%nat.
    rewrite substring_app_skip. change 2%nat with (2 + 0)%nat at 1.
    rewrite <- L3 at 1. rewrite substring_app_skip.
    rewrite <- L4. apply substring_app_l. }
  assert (substring 7 2 ("TAG" +:+ h3 +:+ h4 +:+ h5) = h5) as ->.
  { change 7%nat with (String.length "TAG" + 4)%nat.
    rewrite substring_app_skip. change 4%nat with (2 + 2)%nat.
    rewrite <- L3 at 1. rewrite substring_app_skip.
    change 2%nat with (2 + 0)%nat at 1.
    rewrite <- L4 at 1. rewrite substring_app_skip.
    rewrite <- L5. apply substring_all. }
  subst h3 h4 h5. rewrite !hex_value_fixed. cbn [Z.of_nat Pos.of_succ_nat
    Pos.succ]. repeat apply conj; reflexivity.
Qed.

(** X22. The address [setup] derives from the MAC is ["TAG"] followed by
    the last three MAC bytes as six hexadecimal digits: nine characters,
    which the 16-byte buffer holds untruncated, and two devices whose MACs
    differ in one of these bytes get different addresses. *)
Theorem uwb_address_injective (m3 m4 m5 n3 n4 n5 : Z) :
  0 <= m3 < 256 -> 0 <= m4 < 256 -> 0 <= m5 < 256 ->
  0 <= n3 < 256 -> 0 <= n4 < 256 -> 0 <= n5 < 256 ->
  String.length (uwb_address_of_mac (m3, m4, m5)) = 9%nat
  /\ (uwb_address_of_mac (m3, m4, m5) = uwb_address_of_mac (n3, n4, n5) ->
      (m3, m4, m5) = (n3, n4, n5)).
Proof.
  intros H3 H4 H5 G3 G4 G5. split.
  - rewrite uwb_address_digits, !length_append, !length_hex_fixed.
    reflexivity.
  - intros E.
    destruct (uwb_address_bytes m3 m4 m5) as (A3 & A4 & A5).
    destruct (uwb_address_bytes n3 n4 n5) as (B3 & B4 & B5).
    rewrite E in A3, A4, A5. rewrite A3 in B3. rewrite A4 in B4.
    rewrite A5 in B5. injection B3 as B3. injection B4 as B4.
    injection B5 as B5.
    rewrite !Z.mod_small in B3, B4, B5 by lia. congruence.
Qed.

Lemma uwb_address_injective_witness :
  String.length (uwb_address_of_mac (171, 205, 239)) = 9%nat.
Proof.
  apply (uwb_address_injective 171 205 239 171 205 240); lia.
Defined.

(** ** BLE callbacks *)

(** X23. The two requests of a control write are tried in order: a payload
    that asks for pairing mode puts the device in pairing mode and is
    acknowledged as such, and leaves the pairing and the NVS as they were,
    even when the same payload also holds ["unpair":true]. *)
Theorem ctrl_pairing_request_wins (v : string) (s : Device) :
  contains v (quoted "enter_pairing_mode" +:+ ":true")
  || contains v (quoted "pairing" +:+ ":true") = true ->
  let s' := CtrlCB_handleWrite v s in
  powerState (power s') = PAIRING_MODE
  /\ pairing s' = pairing s
  /\ ble s' = status_set_notify (ack_json "entering_pairing_mode") (ble s)
  /\ radio s' = radio s.
Proof.
  intros H s'. subst s'. unfold CtrlCB_handleWrite. rewrite H.
  repeat apply conj; reflexivity.
Qed.

Lemma ctrl_pairing_request_wins_witness :
  let v := "{" +:+ quoted "unpair" +:+ ":true," +:+ quoted "pairing"
           +:+ ":true}" in
  contains v (quoted "unpair" +:+ ":true") = true
  /\ isPaired (pairing (CtrlCB_handleWrite v demo_connected)) = true
  /\ powerState (power (CtrlCB_handleWrite v demo_connected)) = PAIRING_MODE.
Proof.
  intros v. split; [vm_compute; reflexivity|].
  destruct (ctrl_pairing_request_wins v demo_connected) as (Hm & Hp & _).
  - vm_compute. reflexivity.
  - rewrite Hp, Hm. split; reflexivity.
Defined.

Lemma updateBLEStatus_disconnected s :
  bleClientConnected (ble s) = false -> updateBLEStatus s = ble s.
Proof.
  unfold updateBLEStatus. intros ->. now destruct (chStatus (ble s)).
Qed.

Lemma status_set_notify_disconnected js b :
  bleClientConnected b = false ->
  notified (status_set_notify js b) = notified b
  /\ bleClientConnected (status_set_notify js b) = false.
Proof.
  unfold status_set_notify. intros H. destruct (chStatus b); cbn; rewrite H;
    split; reflexivity.
Qed.

Lemma loop_disconnected i s :
  bleClientConnected (ble s) = false -> ble (device_of (loop i s)) = ble s.
Proof.
  intros H.
  assert (forall s1, ble s1 = ble s -> ble (refresh_battery i s1) = ble s)
    as Hr.
  { intros s1 E. unfold refresh_battery. cbn [set_ble ble].
    rewrite updateBLEStatus_disconnected; cbn [set_power ble]; congruence. }
  assert (ble (charging_refresh i s) = ble s) as Hc
      by (unfold charging_refresh; case_match; [apply Hr|]; reflexivity).
  assert (ble (awake_refresh i s) = ble s) as Ha
      by (unfold awake_refresh; case_match; [apply Hr|]; reflexivity).
  unfold loop, loop_charging, loop_pairing, loop_awake. cbv zeta.
  repeat case_match; cbn [device_of];
    rewrite ?wake_from_charging_ble, ?loop_sense_ble;
    cbn [ble set_ble set_power set_statics startWiFiAndOTA enterDeepSleep
         charging_note_button awake_note_button];
    first [ reflexivity | exact Hc | exact Ha
          | rewrite updateBLEStatus_disconnected; [reflexivity|exact H] ].
Qed.

(** X24. Nothing is notified without a client: while [bleClientConnected]
    is false, no pass of [loop] and no BLE write adds a notification; the
    handlers still set the value of the status characteristic. *)
Theorem no_notification_without_client (o : Op) (s : Device) :
  bleClientConnected (ble s) = false ->
  notified (ble (device_of (apply_op o s))) = notified (ble s).
Proof.
  intros H. destruct o as [i| | |v|v]; cbn [apply_op device_of].
  - now rewrite loop_disconnected.
  - reflexivity.
  - reflexivity.
  - unfold NetworkCfgCB_handleWrite. cbn [ble].
    now apply status_set_notify_disconnected.
  - unfold CtrlCB_handleWrite. repeat case_match; cbn [ble];
      first [reflexivity | now apply status_set_notify_disconnected].
Qed.

Lemma no_notification_without_client_witness :
  notified (ble (NetworkCfgCB_handleWrite
                   (network_payload "REYAX123" "ANCH0002") demo_device))
  = [].
Proof.
  apply (no_notification_without_client
           (OpNetworkCfgWrite (network_payload "REYAX123" "ANCH0002"))
           demo_device).
  reflexivity.
Defined.

(** ** Receiving from the module *)

Lemma poll_rx_app (a b line : string) (dist : Z) :
  poll_rx line dist (a +:+ b)
  = poll_rx (fst (poll_rx line dist a)) (snd (poll_rx line dist a)) b.
Proof.
  revert line dist. induction a as [|c a IH]; intros line dist; [reflexivity|].
  change (String c a +:+ b) with (String c (a +:+ b)). cbn [poll_rx].
  destruct (Ascii.eqb c CR || Ascii.eqb c LF); apply IH.
Qed.

(** X25. The receive half of [pollUWB] does not depend on how the bytes are
    split over calls: receiving [a] and then [b] leaves the line buffer and
    the distance as receiving [a] followed by [b] at once. *)
Theorem pollUWB_recv_chunks (a b : string) (r : Radio) :
  pollUWB_recv (a +:+ b) r = pollUWB_recv b (pollUWB_recv a r).
Proof.
  unfold pollUWB_recv. rewrite poll_rx_app.
  destruct (poll_rx (rx_line r) (uwb_distance_cm r) a) as [l d].
  cbn [fst snd rx_line uwb_distance_cm uart lastSend]. reflexivity.
Qed.




(** ** Reporting a start *)

Lemma loop_sense_edge i s :
  edge (loop_sense i s)
  = handle_start_edge (in_now i)
      (fst (fst (detect (in_now i) (tof_seen i s) (mode_of_device s) (det s))))
      (snd (fst (pollUWB (in_pollNow i) (in_rx i) (isPaired (pairing s))
                   (ANCHOR_UWB_ADDRESS (pairing s)) (batteryPercent (power s))
                   (edge s) (radio s)))).
Proof.
  unfold loop_sense, tof_seen, mode_of_device.
  destruct (pollUWB _ _ _ _ _ _ _) as [[f e] r].
  destruct (detect _ _ _ _) as [[t ps] d']. reflexivity.
Qed.

Lemma loop_sense_keeps i s :
  pairing (loop_sense i s) = pairing s
  /\ batteryPercent (power (loop_sense i s)) = batteryPercent (power s).
Proof.
  unfold loop_sense. destruct (pollUWB _ _ _ _ _ _ _) as [[f e] r].
  destruct (detect _ _ _ _) as [[t ps] d']. split; reflexivity.
Qed.

Lemma pollUWB_prev now rx paired anchor b e r :
  prevStartTriggered (snd (fst (pollUWB now rx paired anchor b e r)))
  = prevStartTriggered e.
Proof.
  unfold pollUWB, pollUWB_send.
  destruct (paired && (300 <=? u32 (now - lastSend r))); [|reflexivity].
  unfold assemble_frame. destruct (0 <=? startTimestamp e); reflexivity.
Qed.

Lemma loop_sense_frame i s :
  isPaired (pairing s) = true ->
  300 <= u32 (in_pollNow i - lastSend (radio s)) ->
  uwb_tx (uart (radio (loop_sense i s)))
  = (uwb_tx (uart (radio s))
     ++ ["AT+TAG_SEND=" +:+ ANCHOR_UWB_ADDRESS (pairing s) +:+ ",7,"
         +:+ frame_hex (fst (assemble_frame (in_pollNow i)
                               (batteryPercent (power s))
                               (uwb_distance_cm (radio s)) (edge s)))])%list.
Proof.
  intros Hp Ht. unfold loop_sense, pollUWB, pollUWB_send. rewrite Hp.
  destruct (Z.leb_spec 300 (u32 (in_pollNow i - lastSend (radio s)))); [|lia].
  cbn [andb]. destruct (assemble_frame _ _ _ _) as [f e'].
  unfold pollUWB_recv. cbn [rx_line uwb_distance_cm uart lastSend].
  destruct (poll_rx _ _ _) as [l d].
  destruct (detect _ _ _ _) as [[t ps] d']. reflexivity.
Qed.

(** X27. A start is reported by the next frame: when the detection block of
    one pass triggers (at a clock value below [2^31]), the first frame a
    paired device sends in a later pass carries, as start age, the time
    elapsed since that pass; the frame is sent to the paired anchor with
    the battery level unchanged by the sensing part. *)
Theorem start_reported_in_next_frame (i1 i2 : LoopInput) (s : Device) :
  isPaired (pairing s) = true ->
  prevStartTriggered (edge s) = false ->
  fst (fst (detect (in_now i1) (tof_seen i1 s) (mode_of_device s) (det s)))
  = true ->
  0 <= in_now i1 < 2 ^ 31 ->
  in_now i1 <= in_pollNow i2 < in_now i1 + 2 ^ 31 ->
  300 <= u32 (in_pollNow i2 - lastSend (radio (loop_sense i1 s))) ->
  exists f : Frame,
    last (uwb_tx (uart (radio (loop_sense i2 (loop_sense i1 s)))))
    = Some ("AT+TAG_SEND=" +:+ ANCHOR_UWB_ADDRESS (pairing s) +:+ ",7,"
            +:+ frame_hex f)
    /\ f_startAge f = in_pollNow i2 - in_now i1
    /\ f_battery f = batteryPercent (power s).
Proof.
  intros Hp Hprev Hdet Hnow Hnext Hdue.
  destruct (loop_sense_keeps i1 s) as [Hpair Hbatt].
  assert (isPaired (pairing (loop_sense i1 s)) = true) as Hp1
      by now rewrite Hpair.
  rewrite (loop_sense_frame i2 _ Hp1 Hdue), last_snoc, Hpair, Hbatt.
  eexists. split; [reflexivity|].
  rewrite loop_sense_edge, Hdet.
  set (e := snd (fst (pollUWB _ _ _ _ _ _ _))).
  assert (prevStartTriggered e = false) as He
      by (subst e; now rewrite pollUWB_prev).
  destruct (start_edge_reported (in_now i1) (in_pollNow i2)
              (batteryPercent (power s))
              (uwb_distance_cm (radio (loop_sense i1 s))) e Hnow Hnext He)
    as (_ & Hage & _).
  split; [exact Hage|].
  unfold assemble_frame. case_match; reflexivity.
Qed.

Lemma start_reported_in_next_frame_witness :
  let s := device_of (run [OpLoop (quiet_pass 1000 (Some 1830));
                           OpLoop (quiet_pass 1020 (Some 1000))]
                        (Returned demo_device)) in
  last (uwb_tx (uart (radio (loop_sense (quiet_pass 1400 None)
                               (loop_sense (quiet_pass 1040 None) s)))))
  = Some "AT+TAG_SEND=ANCH0001,7,64FFFF00000168".
Proof.
  intros s.
  destruct (start_reported_in_next_frame (quiet_pass 1040 None)
              (quiet_pass 1400 None) s) as (f & Hl & Ha & Hb).
  - reflexivity.
  - reflexivity.
  - vm_compute. reflexivity.
  - vm_compute. split; [discriminate|reflexivity].
  - vm_compute. split; [discriminate|reflexivity].
  - vm_compute. discriminate.
  - vm_compute. reflexivity.
Defined.
